(** * CmCt: IMBIE comparison utilities and GSFC mascon helpers

    A shallow embedding of [bin/IMBIE/imbie_utils.py] and
    [notebooks/Gravimetry/mascons.py].

    Conventions of the embedding.
    - A Python [float] that the code never tests with [isnan] is a rational
      [Q]; where the code handles NaN explicitly the value is an [fl]
      (a rational or [NaN]).  Rounding and infinities are not modelled, and
      equality of results is [Qeq] where arithmetic is involved.
    - A Python exception is a [Raise e] result; a function that returns
      [None] on purpose returns [Ok None].
    - Opened files are arguments: the dataset, the basin layer and the HDF5
      solution are passed as loaded; the CSV files are read through a
      [FileSystem], because [process_IMBIE] tests whether they exist.
    - [cftime], [numpy], [pandas], [geopandas], [xarray] and [scipy] calls are
      modelled by the list functions below, each next to the call it stands
      for.  Arrays that numpy combines elementwise have one length, frames
      are rectangular, and an interpolation axis is ascending.  Dates carry
      their calendar, and comparing dates of two calendars raises, as in
      cftime.  An interpolation over one knot gives NaN, as in scipy.  Rows
      of a series with equal years are kept in file order by the sort, where
      pandas leaves their order open. *)

From Stdlib Require Import ZArith QArith Qabs Qround Bool List String Ascii.
From Stdlib Require Import Lia Lqa Sorted.
Import ListNotations.

Open Scope string_scope.
Open Scope Z_scope.

(** ** Exceptions and results *)

Inductive exn : Set :=
| ValueError | KeyError | IndexError | TypeError | NameError
| FileNotFoundError.

Inductive result (A : Type) : Type :=
| Ok (a : A)
| Raise (e : exn).
Arguments Ok {A} a.
Arguments Raise {A} e.

Definition bind {A B} (r : result A) (k : A -> result B) : result B :=
  match r with
  | Ok a => k a
  | Raise e => Raise e
  end.

Notation "x <- r ;; k" := (bind r (fun x => k))
  (at level 61, r at next level, right associativity).

Definition of_option {A} (e : exn) (o : option A) : result A :=
  match o with
  | Some a => Ok a
  | None => Raise e
  end.

Fixpoint mapM {A B} (f : A -> result B) (l : list A) : result (list B) :=
  match l with
  | [] => Ok []
  | a :: l' => b <- f a ;; bs <- mapM f l' ;; Ok (b :: bs)
  end.

Infix "==?" := String.eqb (at level 70, no associativity).

Definition str_in (s : string) (l : list string) : bool :=
  existsb (String.eqb s) l.

(** ** cftime dates *)

Module Cftime.

(** A [cftime.datetime]: the fields the code reads, and the fields cftime
    compares two dates of one calendar by. *)
Record datetime : Set := mkdate {
  calendar : string;
  year : Z;
  month : Z;
  day : Z;
  hour : Z;
  minute : Z;
  second : Z;
  microsecond : Z;
  dayofyr : Z
}.

Definition to_tuple (d : datetime) : list Z :=
  [year d; month d; day d; hour d; minute d; second d; microsecond d].

(** Python's comparison of two tuples of integers. *)
Fixpoint tuple_compare (a b : list Z) : comparison :=
  match a, b with
  | [], [] => Eq
  | [], _ :: _ => Lt
  | _ :: _, [] => Gt
  | x :: a', y :: b' =>
      match x ?= y with
      | Eq => tuple_compare a' b'
      | c => c
      end
  end.

(** The order of the date tuples. *)
Definition tuple_leb (a b : datetime) : bool :=
  match tuple_compare (to_tuple a) (to_tuple b) with
  | Gt => false
  | _ => true
  end.

Definition tuple_ltb (a b : datetime) : bool :=
  match tuple_compare (to_tuple a) (to_tuple b) with
  | Lt => true
  | _ => false
  end.

(** [a <= b] and [a < b] ([datetime.__richcmp__]): two dates of one calendar
    are compared by their tuples, and for dates of two calendars cftime
    raises [TypeError].  The [calendar] field holds the name cftime stores
    on the date; its year-zero convention is the default of the calendar. *)
Definition leb (a b : datetime) : result bool :=
  if calendar a ==? calendar b then Ok (tuple_leb a b) else Raise TypeError.

Definition ltb (a b : datetime) : result bool :=
  if calendar a ==? calendar b then Ok (tuple_ltb a b) else Raise TypeError.

Definition calendars : list string :=
  ["standard"; "gregorian"; "proleptic_gregorian"; "noleap"; "julian";
   "all_leap"; "365_day"; "366_day"; "360_day"].

(** cftime's [_check_calendar]: validates the name and removes the
    synonyms. *)
Definition check_calendar (c : string) : result string :=
  if str_in c calendars then
    if c ==? "gregorian" then Ok "standard"
    else if c ==? "noleap" then Ok "365_day"
    else if c ==? "all_leap" then Ok "366_day"
    else Ok c
  else Raise ValueError.

Definition year_zero_default (c : string) : bool :=
  negb (str_in c ["standard"; "julian"]).

(** The Gregorian and the Julian leap rules. *)
Definition gregorian_leap (y : Z) : bool :=
  if negb (y mod 4 =? 0) then false
  else if negb (y mod 100 =? 0) then true
  else if negb (y mod 400 =? 0) then false
  else true.

Definition julian_leap (y : Z) : bool := y mod 4 =? 0.

(** [cftime.is_leap_year(year, calendar)]. *)
Definition is_leap_year (y : Z) (c : string) : result bool :=
  cal <- check_calendar c ;;
  let has_year_zero := year_zero_default cal in
  if (y =? 0) && negb has_year_zero then Raise ValueError
  else
    let tyear := if (y <? 0) && negb has_year_zero then y + 1 else y in
    if (cal ==? "proleptic_gregorian") || ((cal ==? "standard") && (y >? 1581))
    then Ok (gregorian_leap tyear)
    else if (cal ==? "julian") || ((cal ==? "standard") && (y <? 1582))
    then Ok (julian_leap tyear)
    else if cal ==? "366_day" then Ok true
    else Ok false.

End Cftime.

(** ** imbie_utils.days_in_year *)

Definition days_in_year (date : Cftime.datetime) : result Z :=
  let cal := Cftime.calendar date in
  if (cal ==? "365_day") || (cal ==? "noleap") then Ok 365
  else if (cal ==? "366_day") || (cal ==? "all_leap") then Ok 366
  else if cal ==? "360_day" then Ok 360
  else
    leap <- Cftime.is_leap_year (Cftime.year date) cal ;;
    if leap then Ok 366 else Ok 365.

(** ** imbie_utils.check_datarange *)

(** [time_var.values.min()] and [.max()]: numpy raises [ValueError] on an
    array of size zero, and reduces an array of objects from the left with
    [m if m <= x else x] and [m if m >= x else x], so that dates of two
    calendars raise the [TypeError] of their comparison. *)
Fixpoint reduce_min (m : Cftime.datetime) (values : list Cftime.datetime)
    : result Cftime.datetime :=
  match values with
  | [] => Ok m
  | x :: rest =>
      le <- Cftime.leb m x ;;
      reduce_min (if le then m else x) rest
  end.

Fixpoint reduce_max (m : Cftime.datetime) (values : list Cftime.datetime)
    : result Cftime.datetime :=
  match values with
  | [] => Ok m
  | x :: rest =>
      ge <- Cftime.leb x m ;;
      reduce_max (if ge then m else x) rest
  end.

Definition time_min (values : list Cftime.datetime) : result Cftime.datetime :=
  match values with
  | [] => Raise ValueError
  | d :: ds => reduce_min d ds
  end.

Definition time_max (values : list Cftime.datetime) : result Cftime.datetime :=
  match values with
  | [] => Raise ValueError
  | d :: ds => reduce_max d ds
  end.

(** Python's chained comparison [a <= b <= c]: the second comparison is made
    only when the first one holds. *)
Definition chained_le (a b c : Cftime.datetime) : result bool :=
  ab <- Cftime.leb a b ;;
  if ab then Cftime.leb b c else Ok false.

Definition check_datarange (time_var : list Cftime.datetime)
    (start_date_cftime end_date_cftime : Cftime.datetime) : result unit :=
  min_time <- time_min time_var ;;
  max_time <- time_max time_var ;;
  start_in_range <- chained_le min_time start_date_cftime max_time ;;
  in_range <-
    (if start_in_range
     then chained_le min_time end_date_cftime max_time
     else Ok false) ;;
  if in_range then Ok tt else Raise ValueError.

(** ** Floats, arrays and dictionaries *)

Definition Qlt_bool (a b : Q) : bool := negb (Qle_bool b a).

(** A float where the code tests for NaN. *)
Inductive fl : Set :=
| F (q : Q)
| NaN.

Definition isnan (v : fl) : bool :=
  match v with
  | NaN => true
  | F _ => false
  end.

Definition fl_sub (a b : fl) : fl :=
  match a, b with
  | F x, F y => F (x - y)
  | _, _ => NaN
  end.

Definition fl_add (a b : fl) : fl :=
  match a, b with
  | F x, F y => F (x + y)
  | _, _ => NaN
  end.

Definition fl_mul (a b : fl) : fl :=
  match a, b with
  | F x, F y => F (x * y)
  | _, _ => NaN
  end.

Definition Qsum (l : list Q) : Q := fold_right Qplus 0%Q l.

(** Elementwise operation on two arrays of one length. *)
Definition map2 {A B C} (f : A -> B -> C) (a : list A) (b : list B) : list C :=
  map (fun p => f (fst p) (snd p)) (combine a b).

(** [a[mask]] for a boolean array [mask]. *)
Fixpoint mask_select {A} (mask : list bool) (a : list A) : list A :=
  match mask, a with
  | b :: mask', x :: a' =>
      if b then x :: mask_select mask' a' else mask_select mask' a'
  | _, _ => []
  end.

(** [a[mask] = v]. *)
Definition mask_assign {A} (mask : list bool) (v : A) (a : list A) : list A :=
  map2 (fun (b : bool) x => if b then v else x) mask a.

(** [np.sum(mask)]. *)
Definition count_true (mask : list bool) : nat :=
  List.length (filter (fun b : bool => b) mask).

(** [a[j] = v] for [j] in range. *)
Fixpoint list_set {A} (j : nat) (v : A) (a : list A) : list A :=
  match a, j with
  | [], _ => []
  | _ :: a', O => v :: a'
  | x :: a', S j' => x :: list_set j' v a'
  end.

(** A Python dict: keys in insertion order; assigning to a key that is
    present keeps its place. *)
Section Dict.
Context {K V : Type} (keq : K -> K -> bool).

Fixpoint dict_get (k : K) (d : list (K * V)) : option V :=
  match d with
  | [] => None
  | (k', v) :: d' => if keq k k' then Some v else dict_get k d'
  end.

Fixpoint dict_set (k : K) (v : V) (d : list (K * V)) : list (K * V) :=
  match d with
  | [] => [(k, v)]
  | (k', v') :: d' =>
      if keq k k' then (k', v) :: d' else (k', v') :: dict_set k v d'
  end.

Definition dict_mem (k : K) (d : list (K * V)) : bool :=
  match dict_get k d with
  | Some _ => true
  | None => false
  end.
End Dict.

(** A dict keyed by [str(date)] of a float date: two floats have one string
    exactly when they are equal, so the key is the number. *)
Definition date_key : Q -> Q -> bool := Qeq_bool.

(** ** pandas frames of numbers *)

Record DataFrame : Set := mkframe {
  columns : list string;
  rows : list (list Q)     (* one cell per column, in column order *)
}.

Fixpoint col_index (c : string) (cols : list string) : option nat :=
  match cols with
  | [] => None
  | c' :: cols' =>
      if c ==? c' then Some O else option_map S (col_index c cols')
  end.

(** [row[c]] and [df[c]]: [KeyError] without the column. *)
Definition column_pos (df : DataFrame) (c : string) : result nat :=
  of_option KeyError (col_index c (columns df)).

Definition cell (i : nat) (row : list Q) : Q := nth i row 0%Q.

(** [df.sort_values(by=c)], ascending.  Rows with equal keys stay in their
    order here; pandas' default sort does not fix their order. *)
Fixpoint sort_insert (i : nat) (r : list Q) (sorted : list (list Q))
    : list (list Q) :=
  match sorted with
  | [] => [r]
  | r' :: rest =>
      if Qlt_bool (cell i r) (cell i r') then r :: sorted
      else r' :: sort_insert i r rest
  end.

Definition sort_values (i : nat) (rs : list (list Q)) : list (list Q) :=
  fold_left (fun acc r => sort_insert i r acc) rs [].

(** [df[c] = values]: overwrites the column or appends it. *)
Definition set_column (df : DataFrame) (c : string) (values : list Q)
    : DataFrame :=
  match col_index c (columns df) with
  | Some i =>
      mkframe (columns df) (map2 (fun r v => list_set i v r) (rows df) values)
  | None =>
      mkframe (columns df ++ [c])%list
              (map2 (fun r v => (r ++ [v])%list) (rows df) values)
  end.

(** The files [pd.read_csv] and [os.path.exists] see. *)
Definition FileSystem : Set := string -> option DataFrame.

Definition path_exists (fs : FileSystem) (f : string) : bool :=
  match fs f with
  | Some _ => true
  | None => false
  end.

(** ** imbie_utils.sum_MassBalance *)

(** The loop over [filtered_data.iterrows()]; [previous_mass_balance] is the
    value the loop is entered with at every row. *)
Fixpoint mass_change_loop (ic : nat) (previous_mass_balance : Q)
    (filtered : list (list Q)) : list Q :=
  match filtered with
  | [] => []
  | row :: rest =>
      let current_mass_balance := cell ic row in
      let mass_change := (current_mass_balance - previous_mass_balance)%Q in
      mass_change :: mass_change_loop ic previous_mass_balance rest
  end.

Definition sum_MassBalance (fs : FileSystem) (obs_filename : string)
    (start_date_fract end_date_fract : Q) (mass_balance_column : string)
    : result DataFrame :=
  mass_balance_data <- of_option FileNotFoundError (fs obs_filename) ;;
  iy <- column_pos mass_balance_data "Year" ;;
  let sorted := sort_values iy (rows mass_balance_data) in
  if negb (str_in mass_balance_column (columns mass_balance_data))
  then Raise ValueError
  else
    ic <- column_pos mass_balance_data mass_balance_column ;;
    let data_start_date :=
      filter (fun r => Qeq_bool (cell iy r) start_date_fract) sorted in
    match data_start_date with
    | [] => Raise ValueError
    | r0 :: _ =>
        let mass_balance_start_value := cell ic r0 in
        let filtered_data :=
          filter (fun r => Qlt_bool start_date_fract (cell iy r)
                           && Qle_bool (cell iy r) end_date_fract) sorted in
        let mass_changes :=
          mass_change_loop ic mass_balance_start_value filtered_data in
        Ok (set_column (mkframe (columns mass_balance_data) filtered_data)
                       "IMBIE_Mass_Change" mass_changes)
    end.

(** ** Linear interpolation along a sorted axis (scipy's interp1d) *)

(** [np.searchsorted(xs, t)] on an ascending [xs]: how many knots are
    below [t]. *)
Fixpoint searchsorted (xs : list Q) (t : Q) : nat :=
  match xs with
  | [] => O
  | x :: xs' => if Qlt_bool x t then S (searchsorted xs' t) else O
  end.

(** [np.clip(i, lo, hi)]. *)
Definition clip (i lo hi : nat) : nat := Nat.min (Nat.max i lo) hi.

(** The upper knot of the segment [t] is interpolated on:
    [searchsorted(x, t).clip(1, len(x) - 1)]. *)
Definition segment_hi (xs : list Q) (t : Q) : nat :=
  clip (searchsorted xs t) 1 (List.length xs - 1).

(** [slope * (t - x_lo) + y_lo] with [slope = (y_hi - y_lo) / (x_hi - x_lo)],
    on floats that may be NaN; a zero denominator gives no number. *)
Definition fl_lerp (x_lo x_hi t : Q) (y_lo y_hi : fl) : fl :=
  match y_lo, y_hi with
  | F a, F b =>
      if Qeq_bool (x_hi - x_lo) 0 then NaN
      else F ((b - a) / (x_hi - x_lo) * (t - x_lo) + a)
  | _, _ => NaN
  end.

(** ** imbie_utils.process_model_data *)

(** A snapshot of the field, indexed [y] then [x]. *)
Definition Snapshot : Set := list (list fl).

(** The opened model file: the [lithk] field over (time, y, x) and its
    coordinates. *)
Record Dataset : Set := mkds {
  ds_lithk : list Snapshot;
  ds_time : list Cftime.datetime;
  ds_x : list Q;
  ds_y : list Q
}.

(** The basin layer: a polygon is the set of points it intersects, with
    one attribute per column. *)
Record Feature : Set := mkfeature {
  intersects : Q * Q -> bool;
  fields : list string
}.

Record GeoDataFrame : Set := mklayer {
  gcolumns : list string;
  features : list Feature
}.

Record MassChangeRecord : Set := mkrecord {
  model_total_mass_balance_unmasked : Q;
  model_total_mass_balance_masked : Q;
  basin_mass_change_sums : list (string * Q);
  region_mass_change_sums : option (list (string * Q))
}.

(** [lithk.interp(time=t)]: linear along the time axis (ascending), NaN
    outside the range of the axis.  The interpolation object needs one knot
    at least; on an axis of one date the slope of its only segment is 0/0,
    and the snapshot is NaN everywhere. *)
Definition interp_time (times : list Q) (data : list Snapshot) (t : Q)
    : result Snapshot :=
  if (List.length times =? 0)%nat then Raise ValueError
  else if (List.length times =? 1)%nat
  then Ok (map (map (fun _ => NaN)) (nth 0 data []))
  else
    let hi := segment_hi times t in
    let lo := (hi - 1)%nat in
    let x_lo := nth lo times 0%Q in
    let x_hi := nth hi times 0%Q in
    let y_lo := nth lo data [] in
    let y_hi := nth hi data [] in
    if Qlt_bool t (nth 0 times 0%Q) || Qlt_bool (last times 0%Q) t
    then Ok (map (map (fun _ => NaN)) y_lo)
    else Ok (map2 (map2 (fl_lerp x_lo x_hi t)) y_lo y_hi).

(** [snapshot.data.transpose().flatten()]: [x] outermost, [y] innermost. *)
Definition transpose_flatten (nx : nat) (s : Snapshot) : list fl :=
  flat_map (fun ix => map (fun row => nth ix row NaN) s) (seq 0 nx).

(** [[Point(x, y) for x in x_coords for y in y_coords]]. *)
Definition grid_points (x_coords y_coords : list Q) : list (Q * Q) :=
  flat_map (fun x => map (fun y => (x, y)) y_coords) x_coords.

(** [lithk_delta[np.isnan(lithk_delta)] = 0]: what is left is a number. *)
Definition nan_to_zero (v : fl) : Q :=
  match v with
  | NaN => 0%Q
  | F q => q
  end.

Definition unit_scale : Q := 1 # 1000000000000.

(** The per-cell delta of one time step, from the two flattened
    snapshots. *)
Definition cell_deltas (lithk_current lithk_start : list fl)
    (x_resolution y_resolution rho_ice : Q) : list Q :=
  let lithk_delta := map2 fl_sub lithk_current lithk_start in
  let lithk_delta := map nan_to_zero lithk_delta in
  map (fun d => (d * x_resolution * y_resolution * rho_ice * unit_scale)%Q)
      lithk_delta.

(** [gpd.sjoin(lithk_gdf, basins_gdf, how="inner", predicate="intersects")]:
    one row per pair of a grid point and a polygon that intersects it,
    carrying the point's index and the polygon's attributes. *)
Definition JoinedFrame : Set := list (nat * list string).

Definition sjoin (points : list (Q * Q)) (basins_gdf : GeoDataFrame)
    : JoinedFrame :=
  flat_map
    (fun ip : nat * (Q * Q) =>
       map (fun f => (fst ip, fields f))
           (filter (fun f => intersects f (snd ip)) (features basins_gdf)))
    (combine (seq 0 (List.length points)) points).

(** [joined_gdf['lithk_delta'] = lithk_gdf['lithk_delta']] aligns on the
    index: a joined row takes the delta of the point it came from. *)
Definition joined_delta (lithk_delta : list Q) (row : nat * list string) : Q :=
  nth (fst row) lithk_delta 0%Q.

(** [groupby(label)[...].sum()]: one total per label, labels ascending. *)
Fixpoint group_add (k : string) (v : Q) (g : list (string * Q))
    : list (string * Q) :=
  match g with
  | [] => [(k, v)]
  | (k', v') :: g' =>
      match String.compare k k' with
      | Eq => (k', (v' + v)%Q) :: g'
      | Lt => (k, v) :: g
      | Gt => (k', v') :: group_add k v g'
      end
  end.

Definition groupby_sum (basins_gdf : GeoDataFrame) (label : string)
    (joined_gdf : JoinedFrame) (lithk_delta : list Q)
    : result (list (string * Q)) :=
  ic <- of_option KeyError (col_index label (gcolumns basins_gdf)) ;;
  Ok (fold_left
        (fun g row =>
           group_add (nth ic (snd row) "") (joined_delta lithk_delta row) g)
        joined_gdf []).

(** [series.sum()]. *)
Definition series_sum (s : list (string * Q)) : Q := Qsum (map snd s).

(** One pass of the loop over the analysis dates. *)
Definition model_step (times : list Q) (gis_ds : Dataset)
    (basins_gdf : GeoDataFrame) (points : list (Q * Q))
    (lithk_start : list fl) (x_resolution y_resolution rho_ice : Q)
    (icesheet : string) (i : nat) (time_step : Q)
    (joined_prev : option JoinedFrame)
    : result (JoinedFrame * MassChangeRecord) :=
  snap <- interp_time times (ds_lithk gis_ds) time_step ;;
  let lithk_current := transpose_flatten (List.length (ds_x gis_ds)) snap in
  let lithk_delta :=
    cell_deltas lithk_current lithk_start x_resolution y_resolution rho_ice in
  let model_total_mass_balance_unmasked := Qsum lithk_delta in
  joined_gdf <-
    (if (i =? 0)%nat then Ok (sjoin points basins_gdf)
     else of_option NameError joined_prev) ;;
  sums <-
    (if icesheet ==? "GIS" then
       b <- groupby_sum basins_gdf "SUBREGION1" joined_gdf lithk_delta ;;
       Ok (b, None)
     else if icesheet ==? "AIS" then
       b <- groupby_sum basins_gdf "Subregion" joined_gdf lithk_delta ;;
       r <- groupby_sum basins_gdf "Regions" joined_gdf lithk_delta ;;
       Ok (b, Some r)
     else Raise ValueError) ;;
  let model_total_mass_balance_masked := series_sum (fst sums) in
  Ok (joined_gdf,
      mkrecord model_total_mass_balance_unmasked
               model_total_mass_balance_masked (fst sums) (snd sums)).

Fixpoint model_loop (step : nat -> Q -> option JoinedFrame ->
                           result (JoinedFrame * MassChangeRecord))
    (i : nat) (filtered_time_var : list Q) (joined : option JoinedFrame)
    (modal_mass_changes : list (Q * MassChangeRecord))
    : result (list (Q * MassChangeRecord)) :=
  match filtered_time_var with
  | [] => Ok modal_mass_changes
  | time_step :: rest =>
      jr <- step i time_step joined ;;
      model_loop step (S i) rest (Some (fst jr))
                 (dict_set date_key time_step (snd jr) modal_mass_changes)
  end.

Definition fractional_year (date : Cftime.datetime) : result Q :=
  diy <- days_in_year date ;;
  Ok (inject_Z (Cftime.year date)
      + inject_Z (Cftime.dayofyr date - 1) / inject_Z diy)%Q.

Definition process_model_data (gis_ds : Dataset) (basins_gdf : GeoDataFrame)
    (IMBIE_total_mass_change_sum : DataFrame)
    (start_date_cftime end_date_cftime : Cftime.datetime)
    (start_date_fract end_date_fract rho_ice : Q) (icesheet : string)
    : result (list (Q * MassChangeRecord)) :=
  times <- mapM fractional_year (ds_time gis_ds) ;;
  _ <- check_datarange (ds_time gis_ds) start_date_cftime end_date_cftime ;;
  iy <- column_pos IMBIE_total_mass_change_sum "Year" ;;
  let filtered_time_var := map (cell iy) (rows IMBIE_total_mass_change_sum) in
  let x_coords := ds_x gis_ds in
  let y_coords := ds_y gis_ds in
  x1 <- of_option IndexError (nth_error x_coords 1) ;;
  x0 <- of_option IndexError (nth_error x_coords 0) ;;
  let x_resolution := Qabs (x1 - x0) in
  y1 <- of_option IndexError (nth_error y_coords 1) ;;
  y0 <- of_option IndexError (nth_error y_coords 0) ;;
  let y_resolution := Qabs (y1 - y0) in
  let points := grid_points x_coords y_coords in
  snap0 <- interp_time times (ds_lithk gis_ds) start_date_fract ;;
  let lithk_start := transpose_flatten (List.length x_coords) snap0 in
  model_loop
    (model_step times gis_ds basins_gdf points lithk_start
                x_resolution y_resolution rho_ice icesheet)
    0 filtered_time_var None [].

(** ** imbie_utils.process_IMBIE *)

Record DateResult : Set := mkdateresult {
  IMBIE_total_mass_change_sum : Q;
  Delta_MassChange_masked : Q;
  Delta_MassChange_unmasked : Q
}.

(** The returned dict: the per-date entries, the regional summary when the
    key is set, and the availability flag. *)
Record Results : Set := mkresults {
  by_date : list (Q * DateResult);
  Regional_Mass_Change_Summary : option (list (Q * list (string * Q)));
  print_regionalresult_check : string
}.

Definition BasinResult : Set := list (Q * MassChangeRecord).

(** The first loop: the residuals of the two totals, date by date. *)
Fixpoint totals_loop (iy im : nat) (basin_result : BasinResult)
    (imbie_rows : list (list Q)) (results : list (Q * DateResult))
    : list (Q * DateResult) :=
  match imbie_rows with
  | [] => results
  | row :: rest =>
      let date := cell iy row in
      let imbie_mass_change := cell im row in
      match dict_get date_key date basin_result with
      | Some rec =>
          let delta_masschange_masked :=
            (imbie_mass_change - model_total_mass_balance_masked rec)%Q in
          let delta_masschange_unmasked :=
            (imbie_mass_change - model_total_mass_balance_unmasked rec)%Q in
          totals_loop iy im basin_result rest
            (dict_set date_key date
               (mkdateresult imbie_mass_change delta_masschange_masked
                             delta_masschange_unmasked) results)
      | None => totals_loop iy im basin_result rest results
      end
  end.

(** [regional_results.setdefault(str(date), {}).update({k1: v1, k2: v2})]. *)
Definition regional_update (date : Q) (k1 : string) (v1 : Q) (k2 : string)
    (v2 : Q) (regional_results : list (Q * list (string * Q)))
    : list (Q * list (string * Q)) :=
  let entry :=
    match dict_get date_key date regional_results with
    | Some e => e
    | None => []
    end in
  dict_set date_key date
    (dict_set String.eqb k2 v2 (dict_set String.eqb k1 v1 entry))
    regional_results.

(** One region of one date: [if name in region_mass_change_sums: ...]. *)
Definition region_entry (name : string) (date imbie_mass_change : Q)
    (region_sums : list (string * Q))
    (regional_results : list (Q * list (string * Q)))
    : list (Q * list (string * Q)) :=
  match dict_get String.eqb name region_sums with
  | Some model =>
      regional_update date
        ("IMBIE_Mass_Change_" ++ name) imbie_mass_change
        ("Delta_MassChange_" ++ name) (imbie_mass_change - model)%Q
        regional_results
  | None => regional_results
  end.

(** The loop over the zipped rows of the three regional series. *)
Fixpoint regional_loop (iy im_e im_w im_p : nat) (basin_result : BasinResult)
    (east west peninsula : list (list Q))
    (regional_results : list (Q * list (string * Q)))
    : result (list (Q * list (string * Q))) :=
  match east, west, peninsula with
  | east_row :: east', west_row :: west', peninsula_row :: peninsula' =>
      let date := cell iy east_row in
      let imbie_mass_change_east := cell im_e east_row in
      let imbie_mass_change_west := cell im_w west_row in
      let imbie_mass_change_peninsula := cell im_p peninsula_row in
      match dict_get date_key date basin_result with
      | Some rec =>
          match region_mass_change_sums rec with
          | None => Raise TypeError
          | Some sums =>
              regional_loop iy im_e im_w im_p basin_result
                east' west' peninsula'
                (region_entry "Peninsula" date imbie_mass_change_peninsula sums
                   (region_entry "West" date imbie_mass_change_west sums
                      (region_entry "East" date imbie_mass_change_east sums
                         regional_results)))
          end
      | None =>
          regional_loop iy im_e im_w im_p basin_result east' west' peninsula'
                        regional_results
      end
  | _, _, _ => Ok regional_results
  end.

(** [name and os.path.exists(name)] for an optional file name. *)
Definition file_given_and_exists (fs : FileSystem) (name : option string)
    : bool :=
  match name with
  | Some f => negb (f ==? "") && path_exists fs f
  | None => false
  end.

Definition file_name (name : option string) : string :=
  match name with
  | Some f => f
  | None => ""
  end.

Definition is_nil {A} (l : list A) : bool :=
  match l with
  | [] => true
  | _ :: _ => false
  end.

(** [row[c]] inside a loop over rows: the lookup happens, and can fail, only
    when there is a row. *)
Definition row_column (has_rows : bool) (df : DataFrame) (c : string)
    : result nat :=
  if has_rows then column_pos df c else Ok O.

Definition process_IMBIE (fs : FileSystem) (obs_filename : string)
    (start_date_fract end_date_fract : Q) (icesheet : string)
    (basin_result : BasinResult) (IMBIE_total_mass_change_sum : DataFrame)
    (mass_balance_column : string)
    (obs_east_filename obs_west_filename obs_peninsula_filename : option string)
    : result Results :=
  let print_regionalresult_check := "NO" in
  let has_rows := negb (is_nil (rows IMBIE_total_mass_change_sum)) in
  iy <- row_column has_rows IMBIE_total_mass_change_sum "Year" ;;
  im <- row_column has_rows IMBIE_total_mass_change_sum "IMBIE_Mass_Change" ;;
  let results :=
    totals_loop iy im basin_result (rows IMBIE_total_mass_change_sum) [] in
  if (icesheet ==? "AIS")
     && (file_given_and_exists fs obs_east_filename
         && file_given_and_exists fs obs_west_filename
         && file_given_and_exists fs obs_peninsula_filename)
  then
    let print_regionalresult_check := "YES" in
    east <- sum_MassBalance fs (file_name obs_east_filename)
              start_date_fract end_date_fract mass_balance_column ;;
    west <- sum_MassBalance fs (file_name obs_west_filename)
              start_date_fract end_date_fract mass_balance_column ;;
    peninsula <- sum_MassBalance fs (file_name obs_peninsula_filename)
              start_date_fract end_date_fract mass_balance_column ;;
    let zipped :=
      negb (is_nil (rows east) || is_nil (rows west)
            || is_nil (rows peninsula)) in
    iy <- row_column zipped east "Year" ;;
    im_e <- row_column zipped east "IMBIE_Mass_Change" ;;
    im_w <- row_column zipped west "IMBIE_Mass_Change" ;;
    im_p <- row_column zipped peninsula "IMBIE_Mass_Change" ;;
    regional_results <-
      regional_loop iy im_e im_w im_p basin_result
                    (rows east) (rows west) (rows peninsula) [] ;;
    Ok (mkresults results (Some regional_results) print_regionalresult_check)
  else
    Ok (mkresults results None print_regionalresult_check).

(** ** notebooks/Gravimetry/mascons.py *)

Module Mascons.

(** The arrays of the opened HDF5 solution, by path. *)
Record H5File : Set := mkh5 {
  h5_lat_center : list Q;     (* /mascon/lat_center *)
  h5_lat_span : list Q;       (* /mascon/lat_span *)
  h5_lon_center : list Q;     (* /mascon/lon_center *)
  h5_lon_span : list Q;       (* /mascon/lon_span *)
  h5_location : list Q;       (* /mascon/location *)
  h5_basin : list Q;          (* /mascon/basin *)
  h5_area_km2 : list Q;       (* /mascon/area_km2 *)
  h5_cmwe : list (list Q);    (* /solution/cmwe, one row per mascon *)
  h5_ref_days_first : list Q; (* /time/ref_days_first *)
  h5_ref_days_middle : list Q;
  h5_ref_days_last : list Q
}.

Record GSFCmascons : Set := mkmascons {
  lat_centers : list Q;
  lat_spans : list Q;
  lon_centers : list Q;
  lon_spans : list Q;
  locations : list Q;
  basins : list Q;
  areas : list Q;
  cmwe : list (list Q);
  days_start : list Q;
  days_middle : list Q;
  days_end : list Q;
  times_start : list Z;    (* hours after 2002-01-01T00:00:00 *)
  times_middle : list Z;
  times_end : list Z;
  N_mascons : nat;
  N_times : nat;
  labels : list nat;
  min_lats : list Q;
  max_lats : list Q;
  min_lons : list Q;
  max_lons : list Q
}.

(** [reset_lon_bounds]: the centers are rewritten in place. *)
Definition reset_lon_bounds (lon_wrap : string) (lon_centers : list Q)
    : list Q :=
  if lon_wrap ==? "pm180" then
    map (fun c => if Qlt_bool 180 c then c - 360 else c)%Q lon_centers
  else if lon_wrap ==? "0to360" then
    map (fun c => if Qlt_bool c 0 then c + 360 else c)%Q lon_centers
  else lon_centers.

(** Python's [int(x)]: towards zero. *)
Definition py_int (q : Q) : Z :=
  if Qlt_bool q 0 then Qceiling q else Qfloor q.

Definition _set_times_as_datetimes (days : list Q) : list Z :=
  map (fun d => py_int (d * 24)%Q) days.

Definition half_below (centers spans : list Q) : list Q :=
  map2 Qminus centers (map (fun s => s / 2)%Q spans).

Definition half_above (centers spans : list Q) : list Q :=
  map2 Qplus centers (map (fun s => s / 2)%Q spans).

(** [GSFCmascons.__init__]. *)
Definition init (f : H5File) (lon_wrap : string) : GSFCmascons :=
  let lat_centers := h5_lat_center f in
  let lat_spans := h5_lat_span f in
  let lon_spans := h5_lon_span f in
  let days_start := h5_ref_days_first f in
  let days_middle := h5_ref_days_middle f in
  let days_end := h5_ref_days_last f in
  let N_mascons := List.length lat_centers in
  let lon_centers := reset_lon_bounds lon_wrap (h5_lon_center f) in
  let min_lats := half_below lat_centers lat_spans in
  let max_lats := half_above lat_centers lat_spans in
  let max_lats :=
    mask_assign (map (fun v => Qlt_bool v (-90)) min_lats) (-179 # 2) max_lats in
  let min_lats :=
    mask_assign (map (fun v => Qlt_bool v (-90)) min_lats) (-90)%Q min_lats in
  let min_lats :=
    mask_assign (map (fun v => Qlt_bool 90 v) max_lats) (179 # 2) min_lats in
  let max_lats :=
    mask_assign (map (fun v => Qlt_bool 90 v) max_lats) 90%Q max_lats in
  mkmascons lat_centers lat_spans lon_centers lon_spans
    (h5_location f) (h5_basin f) (h5_area_km2 f) (h5_cmwe f)
    days_start days_middle days_end
    (_set_times_as_datetimes days_start)
    (_set_times_as_datetimes days_middle)
    (_set_times_as_datetimes days_end)
    N_mascons (List.length days_middle) (seq 0 N_mascons)
    min_lats max_lats
    (half_below lon_centers lon_spans) (half_above lon_centers lon_spans).

(** [load_gsfc_solution]: the file is the argument. *)
Definition load_gsfc_solution (f : H5File) (lon_wrap : string) : GSFCmascons :=
  init f lon_wrap.

(** [np.min] and [np.max]: [ValueError] on an empty array. *)
Definition np_min (a : list Q) : result Q :=
  match a with
  | [] => Raise ValueError
  | x :: r => Ok (fold_left (fun m v => if Qlt_bool v m then v else m) r x)
  end.

Definition np_max (a : list Q) : result Q :=
  match a with
  | [] => Raise ValueError
  | x :: r => Ok (fold_left (fun m v => if Qlt_bool m v then v else m) r x)
  end.

(** [np.nanmean]. *)
Definition nanmean (m : list fl) : fl :=
  let kept := map nan_to_zero (filter (fun v => negb (isnan v)) m) in
  match kept with
  | [] => NaN
  | _ :: _ => F (Qsum kept / inject_Z (Z.of_nat (List.length kept)))
  end.

(** The membership test [K_] of mascon [i], on the bounds the function
    computes itself. *)
Definition in_box (min_lat max_lat min_lon max_lon lat lon : Q) : bool :=
  Qle_bool min_lat lat && Qlt_bool lat max_lat
  && Qle_bool min_lon lon && Qlt_bool lon max_lon.

(** The result of one pass of the loop: [None] for [continue], the mean to
    store otherwise. *)
Definition mascon_mean (min_lat max_lat min_lon max_lon : Q)
    (lats lons : list Q) (values : list fl) : result (option fl) :=
  lo <- np_min lats ;;
  if Qlt_bool max_lat lo then Ok None else
  hi <- np_max lats ;;
  if Qlt_bool hi min_lat then Ok None else
  lo <- np_min lons ;;
  if Qlt_bool max_lon lo then Ok None else
  hi <- np_max lons ;;
  if Qlt_bool hi min_lon then Ok None else
  let K_ := map2 (in_box min_lat max_lat min_lon max_lon) lats lons in
  let m := mask_select K_ values in
  let m_lats := mask_select K_ lats in
  let m_lats := mask_select (map (fun v => negb (isnan v)) m) m_lats in
  let m := mask_select (map (fun v => negb (isnan v)) m) m in
  if (List.length m =? 0)%nat then Ok None else
  if (count_true (map (fun v => negb (isnan v)) m) =? 0)%nat then Ok None else
  Ok (Some (nanmean m)).

(** The loop over the selected indices, with its counter [j]. *)
Fixpoint mascon_loop (min_lats max_lats min_lons max_lons lats lons : list Q)
    (values : list fl) (indices : list nat) (j : nat) (mscn_mean : list fl)
    : result (list fl) :=
  match indices with
  | [] => Ok mscn_mean
  | i :: rest =>
      r <- mascon_mean (nth i min_lats 0%Q) (nth i max_lats 0%Q)
                       (nth i min_lons 0%Q) (nth i max_lons 0%Q)
                       lats lons values ;;
      match r with
      | None =>
          mascon_loop min_lats max_lats min_lons max_lons lats lons values
                      rest j mscn_mean
      | Some v =>
          mascon_loop min_lats max_lats min_lons max_lons lats lons values
                      rest (S j) (list_set j v mscn_mean)
      end
  end.

Definition points_to_mascons (mascons : GSFCmascons) (I_ : list bool)
    (lats lons : list Q) (values : list fl) : result (list fl) :=
  let N_GIS_mascons := count_true I_ in
  let min_lats := half_below (lat_centers mascons) (lat_spans mascons) in
  let max_lats := half_above (lat_centers mascons) (lat_spans mascons) in
  let min_lons := half_below (lon_centers mascons) (lon_spans mascons) in
  let max_lons := half_above (lon_centers mascons) (lon_spans mascons) in
  let mscn_mean := repeat NaN N_GIS_mascons in
  if negb (List.length I_ =? N_mascons mascons)%nat then Raise IndexError
  else
    let indices := mask_select I_ (seq 0 (N_mascons mascons)) in
    mascon_loop min_lats max_lats min_lons max_lons lats lons values
                indices 0 mscn_mean.

(** *** Dates *)

Definition digit (c : ascii) : option Z :=
  let n := Z.of_nat (nat_of_ascii c) in
  if (48 <=? n) && (n <=? 57) then Some (n - 48) else None.

Definition in_range (lo hi : Z) (o : option Z) : option Z :=
  match o with
  | Some n => if (lo <=? n) && (n <=? hi) then Some n else None
  | None => None
  end.

(** The pieces of the string between the dashes. *)
Fixpoint split_dash (s : string) : list (list ascii) :=
  match s with
  | EmptyString => [[]]
  | String c s' =>
      if Ascii.eqb c "-" then [] :: split_dash s'
      else match split_dash s' with
           | [] => [[c]]
           | p :: ps => (c :: p) :: ps
           end
  end.

(** [%Y]: four digits. *)
Definition parse_Y (p : list ascii) : option Z :=
  match p with
  | [a; b; c; d] =>
      match digit a, digit b, digit c, digit d with
      | Some a, Some b, Some c, Some d => Some (1000 * a + 100 * b + 10 * c + d)
      | _, _, _, _ => None
      end
  | _ => None
  end.

(** [%m]: [1[0-2]|0[1-9]|[1-9]]. *)
Definition parse_m (p : list ascii) : option Z :=
  match p with
  | [a] => in_range 1 9 (digit a)
  | [a; b] =>
      match digit a, digit b with
      | Some 1, Some b => in_range 10 12 (Some (10 + b))
      | Some 0, Some b => in_range 1 9 (Some b)
      | _, _ => None
      end
  | _ => None
  end.

(** [%d]: [3[0-1]|[1-2]\d|0[1-9]|[1-9]| [1-9]]. *)
Definition parse_d (p : list ascii) : option Z :=
  match p with
  | [a] => in_range 1 9 (digit a)
  | [a; b] =>
      if Ascii.eqb a " " then in_range 1 9 (digit b)
      else
        match digit a, digit b with
        | Some 3, Some b => in_range 30 31 (Some (30 + b))
        | Some 2, Some b => Some (20 + b)
        | Some 1, Some b => Some (10 + b)
        | Some 0, Some b => in_range 1 9 (Some b)
        | _, _ => None
        end
  | _ => None
  end.

Definition is_leap (y : Z) : bool :=
  (y mod 4 =? 0) && (negb (y mod 100 =? 0) || (y mod 400 =? 0)).

Definition days_in_month (y m : Z) : Z :=
  if m =? 2 then (if is_leap y then 29 else 28)
  else if (m =? 4) || (m =? 6) || (m =? 9) || (m =? 11) then 30
  else 31.

(** A date of the proleptic Gregorian calendar. *)
Record civil : Set := mkcivil { cyear : Z; cmonth : Z; cday : Z }.

Definition valid_civil (d : civil) : bool :=
  (1 <=? cyear d) && (cyear d <=? 9999)
  && (1 <=? cmonth d) && (cmonth d <=? 12)
  && (1 <=? cday d) && (cday d <=? days_in_month (cyear d) (cmonth d)).

(** [datetime.datetime.strptime(date_str, '%Y-%m-%d')]. *)
Definition strptime (date_str : string) : result civil :=
  match split_dash date_str with
  | [py; pm; pd] =>
      match parse_Y py, parse_m pm, parse_d pd with
      | Some y, Some m, Some d =>
          let c := mkcivil y m d in
          if valid_civil c then Ok c else Raise ValueError
      | _, _, _ => Raise ValueError
      end
  | _ => Raise ValueError
  end.

(** The day number of a date ([datetime.toordinal]). *)
Definition days_before_year (y : Z) : Z :=
  let y' := y - 1 in
  y' * 365 + y' / 4 - y' / 100 + y' / 400.

Definition days_before_month (y m : Z) : Z :=
  fold_right Z.add 0
    (map (days_in_month y) (map Z.of_nat (seq 1 (Z.to_nat (m - 1))))).

Definition toordinal (d : civil) : Z :=
  days_before_year (cyear d) + days_before_month (cyear d) (cmonth d) + cday d.

(** [cftime.date2num(date, "days since 2001-12-31")]: a Python datetime is
    counted in the proleptic Gregorian calendar. *)
Definition date2num_days_since_2001_12_31 (d : civil) : Z :=
  toordinal d - toordinal (mkcivil 2001 12 31).

Definition YYYY_MM_DD_to_days_since_Jan_0_2002 (date_str : string) : result Z :=
  date_obj <- strptime date_str ;;
  Ok (date2num_days_since_2001_12_31 date_obj).

(** *** calc_mascon_delta_cmwe *)

(** [interp1d(x, y, assume_sorted=True, bounds_error=False,
    fill_value="extrapolate")] evaluated at [t] on one row [y]. *)
Definition interp1d_extrapolate (xs ys : list Q) (t : Q) : Q :=
  let hi := segment_hi xs t in
  let lo := (hi - 1)%nat in
  let x_lo := nth lo xs 0%Q in
  let x_hi := nth hi xs 0%Q in
  let y_lo := nth lo ys 0%Q in
  let y_hi := nth hi ys 0%Q in
  let slope := ((y_hi - y_lo) / (x_hi - x_lo))%Q in
  (slope * (t - x_lo) + y_lo)%Q.

(** [y[mask]] for a boolean mask over the first axis: [IndexError] when the
    lengths differ. *)
Definition bool_index {A} (mask : list bool) (a : list A) : result (list A) :=
  if (List.length mask =? List.length a)%nat then Ok (mask_select mask a)
  else Raise IndexError.

(** The constructor of the interpolation object: the time axis of every
    row has the length of the knots, and there is one knot at least. *)
Definition interp1d_init (xs : list Q) (ys : list (list Q)) : result unit :=
  if forallb (fun row => (List.length row =? List.length xs)%nat) ys
     && (1 <=? List.length xs)%nat
  then Ok tt
  else Raise ValueError.

(** The interpolation object called at [t], row by row.  With one knot the
    slope of its only segment is 0/0, and every row evaluates to NaN. *)
Definition interp1d_call (xs : list Q) (ys : list (list Q)) (t : Q)
    : list fl :=
  if (List.length xs =? 1)%nat then map (fun _ => NaN) ys
  else map (fun row => F (interp1d_extrapolate xs row t)) ys.

Definition calc_mascon_delta_cmwe (mascon : GSFCmascons)
    (start_date end_date : string) (I_ : list bool)
    : result (option (list fl)) :=
  t_0 <- YYYY_MM_DD_to_days_since_Jan_0_2002 start_date ;;
  t_1 <- YYYY_MM_DD_to_days_since_Jan_0_2002 end_date ;;
  first_start <- of_option IndexError (nth_error (days_start mascon) 0) ;;
  if Qlt_bool (inject_Z t_0) first_start then Ok None
  else
    last_end <- of_option IndexError
                  (nth_error (rev (days_end mascon)) 0) ;;
    if Qlt_bool last_end (inject_Z t_1) then Ok None
    else
      cmwe_I_ <- bool_index I_ (cmwe mascon) ;;
      _ <- interp1d_init (days_middle mascon) cmwe_I_ ;;
      let start_cmwe :=
        interp1d_call (days_middle mascon) cmwe_I_ (inject_Z t_0) in
      let end_cmwe :=
        interp1d_call (days_middle mascon) cmwe_I_ (inject_Z t_1) in
      Ok (Some (map2 fl_sub end_cmwe start_cmwe)).

(** *** as_dataset *)

(** A variable of the dataset: its dimension names and its array. *)
Inductive DataVar : Set :=
| Var2 (dim1 dim2 : string) (data : list (list Q))
| Var1 (dim : string) (data : list Q)
| VarT (dim : string) (data : list Z)
| VarI (dim : string) (data : list nat).

(** A dict display [{k1: v1, k2: v2, ...}]: a key written twice keeps its
    first place and its last value. *)
Definition py_dict {V} (items : list (string * V)) : list (string * V) :=
  fold_left (fun d kv => dict_set String.eqb (fst kv) (snd kv) d) items [].

(** The size of every dimension of a variable. *)
Definition var_sizes (v : DataVar) : list (string * nat) :=
  match v with
  | Var2 d1 d2 data => [(d1, List.length data); (d2, List.length (hd [] data))]
  | Var1 d data => [(d, List.length data)]
  | VarT d data => [(d, List.length data)]
  | VarI d data => [(d, List.length data)]
  end.

(** [xr.Dataset(...)] refuses variables that give one dimension two
    sizes. *)
Fixpoint sizes_agree (sizes : list (string * nat)) : bool :=
  match sizes with
  | [] => true
  | (d, n) :: rest =>
      forallb (fun e => negb (fst e ==? d) || (snd e =? n)%nat) rest
      && sizes_agree rest
  end.

Record XrDataset : Set := mkxr {
  data_vars : list (string * DataVar);
  coords : list (string * DataVar)
}.

Definition xr_Dataset (vars coords : list (string * DataVar))
    : result XrDataset :=
  if sizes_agree (flat_map (fun kv => var_sizes (snd kv)) (vars ++ coords)%list)
  then Ok (mkxr vars coords)
  else Raise ValueError.

Definition as_dataset (self : GSFCmascons) : result XrDataset :=
  xr_Dataset
    (py_dict
       [("cmwe", Var2 "label" "time" (cmwe self));
        ("lat_centers", Var1 "label" (lat_centers self));
        ("lat_spans", Var1 "label" (lat_spans self));
        ("lon_centers", Var1 "label" (lon_centers self));
        ("lat_spans", Var1 "label" (lon_spans self));
        ("areas", Var1 "label" (areas self));
        ("basins", Var1 "label" (basins self));
        ("locations", Var1 "label" (locations self));
        ("basins", Var1 "label" (basins self));
        ("lats_max", Var1 "label" (max_lats self));
        ("lats_min", Var1 "label" (min_lats self));
        ("lons_max", Var1 "label" (max_lons self));
        ("lons_min", Var1 "label" (min_lons self));
        ("times_start", VarT "time" (times_start self));
        ("times_end", VarT "time" (times_end self));
        ("days_start", Var1 "time" (days_start self));
        ("days_middle", Var1 "time" (days_middle self));
        ("days_end", Var1 "time" (days_end self))])
    (py_dict
       [("label", VarI "label" (labels self));
        ("time", VarT "time" (times_middle self))]).

End Mascons.

(** * Vocabulary of the statements *)

(** A date outside the closed interval from [lo] to [hi]: it compares, and
    it is before [lo] or after [hi]. *)
Definition outside (lo hi d : Cftime.datetime) : Prop :=
  Cftime.ltb d lo = Ok true \/ Cftime.ltb hi d = Ok true.

(** Three dates of a no-leap model run. *)
Definition date_2000 : Cftime.datetime :=
  Cftime.mkdate "noleap" 2000 1 1 0 0 0 0 1.
Definition date_2001 : Cftime.datetime :=
  Cftime.mkdate "noleap" 2001 1 1 0 0 0 0 1.

(** The observation series of the three-row scenario: Year 2000, 2001 and
    2002 with mass 100, 90 and 70. *)
Definition scenario_csv : DataFrame :=
  mkframe ["Year"; "mass"]
          [[2000 # 1; 100 # 1]; [2001 # 1; 90 # 1]; [2002 # 1; 70 # 1]].

Definition scenario_fs : FileSystem :=
  fun f => if f ==? "obs.csv" then Some scenario_csv else None.

(** The deltas the documentation of the loop describes: each row against
    the row before it, the first against the start value. *)
Fixpoint successive_differences (previous : Q) (values : list Q) : list Q :=
  match values with
  | [] => []
  | v :: rest => (v - previous)%Q :: successive_differences v rest
  end.

(** The latitude box [__init__] leaves for raw bounds [mn] and [mx], one
    masked assignment after the other. *)
Definition clamped_bounds (mn mx : Q) : Q * Q :=
  let mx1 := if Qlt_bool mn (-90) then -179 # 2 else mx in
  let mn1 := if Qlt_bool mn (-90) then (-90)%Q else mn in
  let mn2 := if Qlt_bool 90 mx1 then 179 # 2 else mn1 in
  let mx2 := if Qlt_bool 90 mx1 then 90%Q else mx1 in
  (mn2, mx2).

(** The object with other stored latitude bounds. *)
Definition stored_lat_bounds (m : Mascons.GSFCmascons) (mn mx : list Q)
    : Mascons.GSFCmascons :=
  Mascons.mkmascons
    (Mascons.lat_centers m) (Mascons.lat_spans m) (Mascons.lon_centers m)
    (Mascons.lon_spans m) (Mascons.locations m) (Mascons.basins m)
    (Mascons.areas m) (Mascons.cmwe m) (Mascons.days_start m)
    (Mascons.days_middle m) (Mascons.days_end m) (Mascons.times_start m)
    (Mascons.times_middle m) (Mascons.times_end m) (Mascons.N_mascons m)
    (Mascons.N_times m) (Mascons.labels m) mn mx
    (Mascons.min_lons m) (Mascons.max_lons m).

(** A solution with one mascon over the south pole: center -89.75, span 1;
    three months of data. *)
Definition polar_h5 : Mascons.H5File :=
  Mascons.mkh5 [-359 # 4] [1 # 1] [0 # 1] [2 # 1] [1 # 1] [1 # 1] [100 # 1]
               [[0 # 1; 3 # 1; 9 # 1]]
               [1 # 1; 32 # 1; 60 # 1] [16 # 1; 46 # 1; 75 # 1]
               [31 # 1; 59 # 1; 90 # 1].

(** A solution with two mascons: boxes [9, 11) x [9, 11) and
    [19, 21) x [19, 21). *)
Definition two_cell_h5 : Mascons.H5File :=
  Mascons.mkh5 [10 # 1; 20 # 1] [2 # 1; 2 # 1] [10 # 1; 20 # 1] [2 # 1; 2 # 1]
               [1 # 1; 1 # 1] [1 # 1; 1 # 1] [100 # 1; 100 # 1]
               [[0 # 1; 3 # 1; 9 # 1]; [5 # 1; 5 # 1; 6 # 1]]
               [1 # 1; 32 # 1; 60 # 1] [16 # 1; 46 # 1; 75 # 1]
               [31 # 1; 59 # 1; 90 # 1].

(** The values the loop stores, in the order it stores them. *)
Fixpoint keep_some {A} (l : list (option A)) : list A :=
  match l with
  | [] => []
  | Some a :: l' => a :: keep_some l'
  | None :: l' => keep_some l'
  end.

(** The pass of the loop for mascon [i]. *)
Definition mascon_pass (mascons : Mascons.GSFCmascons)
    (lats lons : list Q) (values : list fl) (i : nat) : result (option fl) :=
  Mascons.mascon_mean
    (nth i (Mascons.half_below (Mascons.lat_centers mascons)
                               (Mascons.lat_spans mascons)) 0%Q)
    (nth i (Mascons.half_above (Mascons.lat_centers mascons)
                               (Mascons.lat_spans mascons)) 0%Q)
    (nth i (Mascons.half_below (Mascons.lon_centers mascons)
                               (Mascons.lon_spans mascons)) 0%Q)
    (nth i (Mascons.half_above (Mascons.lon_centers mascons)
                               (Mascons.lon_spans mascons)) 0%Q)
    lats lons values.

(** The result the docstring of [points_to_mascons] describes: entry [j] is
    for the [j]-th selected mascon, its mean or NaN. *)
Definition documented_mscn_mean (mascons : Mascons.GSFCmascons)
    (I_ : list bool) (lats lons : list Q) (values : list fl)
    : result (list fl) :=
  passes <- mapM (mascon_pass mascons lats lons values)
                 (mask_select I_ (seq 0 (Mascons.N_mascons mascons))) ;;
  Ok (map (fun r => match r with Some v => v | None => NaN end) passes).

(** Knots in strictly ascending order. *)
Fixpoint strictly_increasing (xs : list Q) : bool :=
  match xs with
  | x0 :: ((x1 :: _) as xs') => Qlt_bool x0 x1 && strictly_increasing xs'
  | _ => true
  end.

(** Piecewise linear interpolation through the knots [(xs, ys)], read off
    segment by segment: the first segment whose right knot is not below [t],
    and the last segment beyond the last knot (the first one before the
    first knot). *)
Fixpoint linear_interpolation (xs ys : list Q) (t : Q) : Q :=
  match xs, ys with
  | x0 :: ((x1 :: xs2) as xs'), y0 :: ((y1 :: _) as ys') =>
      if Qle_bool t x1 || is_nil xs2
      then ((y1 - y0) / (x1 - x0) * (t - x0) + y0)%Q
      else linear_interpolation xs' ys' t
  | _, _ => 0%Q
  end.

(** Days from [epoch] to [d]. *)
Definition days_since (epoch d : Mascons.civil) : Z :=
  Mascons.toordinal d - Mascons.toordinal epoch.

Definition epoch_2002_01_01 : Mascons.civil := Mascons.mkcivil 2002 1 1.
Definition epoch_2001_12_31 : Mascons.civil := Mascons.mkcivil 2001 12 31.

(** The day after [d]. *)
Definition next_day (d : Mascons.civil) : Mascons.civil :=
  if Mascons.cday d <? Mascons.days_in_month (Mascons.cyear d) (Mascons.cmonth d)
  then Mascons.mkcivil (Mascons.cyear d) (Mascons.cmonth d) (Mascons.cday d + 1)
  else if Mascons.cmonth d <? 12
  then Mascons.mkcivil (Mascons.cyear d) (Mascons.cmonth d + 1) 1
  else Mascons.mkcivil (Mascons.cyear d + 1) 1 1.

(** The delta of the selected mascons as the description of
    [calc_mascon_delta_cmwe] has it, for dates counted in days since
    [epoch]: nothing when the start is before the first record start or the
    end is after the last record end, and else, row by row, the linear
    interpolation at the end date minus the one at the start date. *)
Definition described_mascon_delta (epoch : Mascons.civil)
    (mascon : Mascons.GSFCmascons) (start_date end_date : Mascons.civil)
    (I_ : list bool) : option (list Q) :=
  let t_0 := inject_Z (days_since epoch start_date) in
  let t_1 := inject_Z (days_since epoch end_date) in
  if Qlt_bool t_0 (hd 0%Q (Mascons.days_start mascon))
     || Qlt_bool (last (Mascons.days_end mascon) 0%Q) t_1
  then None
  else Some (map (fun row =>
                    (linear_interpolation (Mascons.days_middle mascon) row t_1
                     - linear_interpolation (Mascons.days_middle mascon) row t_0)%Q)
                 (mask_select I_ (Mascons.cmwe mascon))).

(** [abs(coords[1] - coords[0])]. *)
Definition resolution (coords : list Q) : Q :=
  Qabs (nth 1 coords 0 - nth 0 coords 0)%Q.

(** The per-cell deltas of the analysis date [time_step], from the inputs of
    [process_model_data]. *)
Definition step_deltas (gis_ds : Dataset) (start_date_fract rho_ice : Q)
    (time_step : Q) : result (list Q) :=
  times <- mapM fractional_year (ds_time gis_ds) ;;
  snap0 <- interp_time times (ds_lithk gis_ds) start_date_fract ;;
  snap <- interp_time times (ds_lithk gis_ds) time_step ;;
  Ok (cell_deltas
        (transpose_flatten (List.length (ds_x gis_ds)) snap)
        (transpose_flatten (List.length (ds_x gis_ds)) snap0)
        (resolution (ds_x gis_ds)) (resolution (ds_y gis_ds)) rho_ice).

(** The delta of one cell as described: the difference of the two
    snapshots, zero when that is NaN, times the cell area, the density and
    1e-12. *)
Definition described_cell_delta (current start : fl)
    (x_resolution y_resolution rho_ice : Q) : Q :=
  match fl_sub current start with
  | NaN => 0%Q
  | F d => (d * (x_resolution * y_resolution * rho_ice * (1 # 1000000000000)))%Q
  end.

(** The grid points with their index in the flattened field. *)
Definition indexed_points (points : list (Q * Q)) : list (nat * (Q * Q)) :=
  combine (seq 0 (List.length points)) points.

(** How many polygons of the layer intersect the point. *)
Definition polygons_at (basins_gdf : GeoDataFrame) (p : Q * Q) : nat :=
  List.length (filter (fun f => intersects f p) (features basins_gdf)).

Definition delta_at (lithk_delta : list Q) (ip : nat * (Q * Q)) : Q :=
  nth (fst ip) lithk_delta 0%Q.

(** The column the basins are grouped by. *)
Definition basin_column (icesheet : string) : string :=
  if icesheet ==? "GIS" then "SUBREGION1" else "Subregion".

(** What the record of a date holds, in terms of the per-cell deltas of
    that date. *)
Definition record_of_deltas (basins_gdf : GeoDataFrame)
    (points : list (Q * Q)) (icesheet : string) (lithk_delta : list Q)
    (rec : MassChangeRecord) : Prop :=
  model_total_mass_balance_unmasked rec = Qsum lithk_delta /\
  model_total_mass_balance_masked rec
  = series_sum (basin_mass_change_sums rec) /\
  groupby_sum basins_gdf (basin_column icesheet)
              (sjoin points basins_gdf) lithk_delta
  = Ok (basin_mass_change_sums rec).

(** A model run of two dates on a 2 x 2 grid: thickness zero everywhere at
    the first date and 1, 2 (row y = 0) and 4, 8 (row y = 1) at the
    second. *)
Definition grid_ds : Dataset :=
  mkds [ [[F (0 # 1); F (0 # 1)]; [F (0 # 1); F (0 # 1)]];
         [[F (1 # 1); F (2 # 1)]; [F (4 # 1); F (8 # 1)]] ]
       [date_2000; date_2001]
       [0 # 1; 1 # 1] [0 # 1; 1 # 1].

(** One basin over the whole grid. *)
Definition covering_layer : GeoDataFrame :=
  mklayer ["SUBREGION1"] [mkfeature (fun _ => true) ["A"]].

(** Two basins: one over the whole grid, one over the point (1, 1) as
    well. *)
Definition overlap_layer : GeoDataFrame :=
  mklayer ["SUBREGION1"]
          [mkfeature (fun _ => true) ["A"];
           mkfeature (fun p => Qeq_bool (fst p) 1 && Qeq_bool (snd p) 1) ["B"]].

Definition imbie_2001 : DataFrame :=
  mkframe ["Year"; "IMBIE_Mass_Change"] [[2001 # 1; -10 # 1]].

(** A density that makes area times density times 1e-12 equal to 1. *)
Definition rho_unit : Q := 1000000000000 # 1.

(** The records of that run over the two overlapping basins and over the
    one covering basin, and the per-cell deltas of the date 2001. *)
Definition records_of (r : result (list (Q * MassChangeRecord)))
    : list (Q * MassChangeRecord) :=
  match r with
  | Ok l => l
  | Raise _ => []
  end.

Definition record_of (r : result (list (Q * MassChangeRecord)))
    : MassChangeRecord :=
  match r with
  | Ok ((_, rec) :: _) => rec
  | _ => mkrecord 0 0 [] None
  end.

Definition overlap_record : MassChangeRecord :=
  Eval vm_compute in
    record_of (process_model_data grid_ds overlap_layer imbie_2001
                 date_2000 date_2001 (2000 # 1) (2001 # 1) rho_unit "GIS").

Definition covering_record : MassChangeRecord :=
  Eval vm_compute in
    record_of (process_model_data grid_ds covering_layer imbie_2001
                 date_2000 date_2001 (2000 # 1) (2001 # 1) rho_unit "GIS").

Definition grid_deltas : list Q :=
  Eval vm_compute in
    match step_deltas grid_ds (2000 # 1) rho_unit (2001 # 1) with
    | Ok l => l
    | Raise _ => []
    end.

(** A total that is the sum of the deltas of some of the grid points, each
    point at most once; and of some but not all of them. *)
Definition sum_of_grid_subset (lithk_delta : list Q) (total : Q) : Prop :=
  exists mask : list bool,
    List.length mask = List.length lithk_delta /\
    (total == Qsum (mask_select mask lithk_delta))%Q.

Definition sum_of_strict_grid_subset (lithk_delta : list Q) (total : Q)
    : Prop :=
  exists mask : list bool,
    List.length mask = List.length lithk_delta /\
    In false mask /\
    (total == Qsum (mask_select mask lithk_delta))%Q.

(** The three regional files of an Antarctic run, each the scenario
    series; and the same files without the peninsula one. *)
Definition regional_fs : FileSystem :=
  fun f =>
    if (f ==? "east.csv") || (f ==? "west.csv") || (f ==? "peninsula.csv")
    then Some scenario_csv else None.

Definition regional_fs_no_peninsula : FileSystem :=
  fun f =>
    if (f ==? "east.csv") || (f ==? "west.csv")
    then Some scenario_csv else None.

(** Model records of the dates 2001 and 2002 with totals for the three
    regions. *)
Definition ais_basin_result : BasinResult :=
  [(2001 # 1,
    mkrecord (5 # 1) (4 # 1) [("A", 4 # 1)]
             (Some [("East", 1 # 1); ("Peninsula", 1 # 1); ("West", 2 # 1)]));
   (2002 # 1,
    mkrecord (7 # 1) (6 # 1) [("A", 6 # 1)]
             (Some [("East", 2 # 1); ("Peninsula", 1 # 1); ("West", 3 # 1)]))].

Definition ais_imbie_sum : DataFrame :=
  mkframe ["Year"; "mass"; "IMBIE_Mass_Change"]
          [[2001 # 1; 90 # 1; -10 # 1]; [2002 # 1; 70 # 1; -30 # 1]].

(** The three regional files are given and exist. *)
Definition all_three_available (fs : FileSystem)
    (obs_east_filename obs_west_filename obs_peninsula_filename : option string)
    : bool :=
  file_given_and_exists fs obs_east_filename
  && file_given_and_exists fs obs_west_filename
  && file_given_and_exists fs obs_peninsula_filename.

(** The per-region entries of a result, none when the summary is absent. *)
Definition regional_entries (r : Results) : list (Q * list (string * Q)) :=
  match Regional_Mass_Change_Summary r with
  | Some l => l
  | None => []
  end.

(** The samples of a box that count: inside under the half-open test, and
    with a value that is a number. *)
Definition box_samples (min_lat max_lat min_lon max_lon : Q)
    (lats lons : list Q) (values : list fl) : list fl :=
  filter (fun v => negb (isnan v))
         (mask_select
            (map2 (Mascons.in_box min_lat max_lat min_lon max_lon) lats lons)
            values).

(** The samples that count for mascon [i] of the object. *)
Definition mascon_samples (mascons : Mascons.GSFCmascons)
    (lats lons : list Q) (values : list fl) (i : nat) : list fl :=
  box_samples
    (nth i (Mascons.half_below (Mascons.lat_centers mascons)
                               (Mascons.lat_spans mascons)) 0%Q)
    (nth i (Mascons.half_above (Mascons.lat_centers mascons)
                               (Mascons.lat_spans mascons)) 0%Q)
    (nth i (Mascons.half_below (Mascons.lon_centers mascons)
                               (Mascons.lon_spans mascons)) 0%Q)
    (nth i (Mascons.half_above (Mascons.lon_centers mascons)
                               (Mascons.lon_spans mascons)) 0%Q)
    lats lons values.

(** The plain mean of a list of numbers. *)
Definition plain_mean (m : list fl) : fl :=
  F (Qsum (map nan_to_zero m) / inject_Z (Z.of_nat (List.length m))).

(** The mask that selects mascon [i] alone among [n]. *)
Definition only_mascon (i n : nat) : list bool := map (Nat.eqb i) (seq 0 n).

(** The entry of mascon [i] when membership is tested against the box from
    its center minus half its span to its center plus half its span: the
    plain mean of the samples in that box with a number as value, NaN when
    there is none. *)
Definition raw_box_mean (mascons : Mascons.GSFCmascons)
    (lats lons : list Q) (values : list fl) (i : nat) : fl :=
  let lat_center := nth i (Mascons.lat_centers mascons) 0%Q in
  let lat_span := nth i (Mascons.lat_spans mascons) 0%Q in
  let lon_center := nth i (Mascons.lon_centers mascons) 0%Q in
  let lon_span := nth i (Mascons.lon_spans mascons) 0%Q in
  match box_samples (lat_center - lat_span / 2) (lat_center + lat_span / 2)
                    (lon_center - lon_span / 2) (lon_center + lon_span / 2)
                    lats lons values with
  | [] => NaN
  | v :: m => plain_mean (v :: m)
  end.

(** The object with another array of latitude spans. *)
Definition with_lat_spans (m : Mascons.GSFCmascons) (spans : list Q)
    : Mascons.GSFCmascons :=
  Mascons.mkmascons
    (Mascons.lat_centers m) spans (Mascons.lon_centers m)
    (Mascons.lon_spans m) (Mascons.locations m) (Mascons.basins m)
    (Mascons.areas m) (Mascons.cmwe m) (Mascons.days_start m)
    (Mascons.days_middle m) (Mascons.days_end m) (Mascons.times_start m)
    (Mascons.times_middle m) (Mascons.times_end m) (Mascons.N_mascons m)
    (Mascons.N_times m) (Mascons.labels m) (Mascons.min_lats m)
    (Mascons.max_lats m) (Mascons.min_lons m) (Mascons.max_lons m).

(** The dataset of the two-mascon solution. *)
Definition two_cell_dataset : Mascons.XrDataset :=
  Eval vm_compute in
    match Mascons.as_dataset (Mascons.init two_cell_h5 "pm180") with
    | Ok ds => ds
    | Raise _ => Mascons.mkxr [] []
    end.

(** The test of the filter of [sum_MassBalance]: later than the start, not
    later than the end. *)
Definition in_window (iy : nat) (start_date_fract end_date_fract : Q)
    (r : list Q) : bool :=
  Qlt_bool start_date_fract (cell iy r) && Qle_bool (cell iy r) end_date_fract.

(** The result of [process_IMBIE] for Greenland on the two-date series. *)
Definition gis_results : Results :=
  Eval vm_compute in
    match process_IMBIE regional_fs "obs.csv" (2000 # 1) (2002 # 1) "GIS"
            ais_basin_result ais_imbie_sum "mass" None None None with
    | Ok r => r
    | Raise _ => mkresults [] None ""
    end.

(** An Antarctic layer over the grid: basin A in region West on the column
    x = 0, basins B and C in region East on the column x = 1. *)
Definition ais_layer : GeoDataFrame :=
  mklayer ["Subregion"; "Regions"]
          [mkfeature (fun p => Qeq_bool (fst p) 0) ["A"; "West"];
           mkfeature (fun p => Qeq_bool (fst p) 1 && Qeq_bool (snd p) 0)
                     ["B"; "East"];
           mkfeature (fun p => Qeq_bool (fst p) 1 && Qeq_bool (snd p) 1)
                     ["C"; "East"]].

Definition ais_record : MassChangeRecord :=
  Eval vm_compute in
    record_of (process_model_data grid_ds ais_layer imbie_2001
                 date_2000 date_2001 (2000 # 1) (2001 # 1) rho_unit "AIS").



Definition imbie_2005 : DataFrame :=
  mkframe ["Year"; "IMBIE_Mass_Change"] [[2005 # 1; -10 # 1]].

Definition late_record : MassChangeRecord :=
  Eval vm_compute in
    record_of (process_model_data grid_ds covering_layer imbie_2005
                 date_2000 date_2001 (2000 # 1) (2001 # 1) rho_unit "GIS").

(** A key and value of the regional entry of [date] that come from one
    position of the three regional series: the observed change of a region,
    or that change minus the model total of the region, for a region the
    model record of the date has a total for. *)
Definition region_entry_of (iy im_e im_w im_p : nat)
    (basin_result : BasinResult) (east west peninsula : list (list Q))
    (date : Q) (k : string) (v : Q) : Prop :=
  exists (e_row w_row p_row : list Q) (rec : MassChangeRecord)
         (sums : list (string * Q)) (name : string) (change model : Q),
    In (e_row, (w_row, p_row)) (combine east (combine west peninsula)) /\
    (cell iy e_row == date)%Q /\
    dict_get date_key (cell iy e_row) basin_result = Some rec /\
    region_mass_change_sums rec = Some sums /\
    ((name = "East" /\ change = cell im_e e_row) \/
     (name = "West" /\ change = cell im_w w_row) \/
     (name = "Peninsula" /\ change = cell im_p p_row)) /\
    dict_get String.eqb name sums = Some model /\
    ((k = "IMBIE_Mass_Change_" ++ name /\ v = change) \/
     (k = "Delta_MassChange_" ++ name /\ v = (change - model)%Q)).

(** The result of [process_IMBIE] for Antarctica with the three regional
    files, and its regional summary. *)
Definition ais_results : Results :=
  Eval vm_compute in
    match process_IMBIE regional_fs "obs.csv" (2000 # 1) (2002 # 1) "AIS"
            ais_basin_result ais_imbie_sum "mass"
            (Some "east.csv") (Some "west.csv") (Some "peninsula.csv") with
    | Ok r => r
    | Raise _ => mkresults [] None ""
    end.

Definition ais_regional : list (Q * list (string * Q)) :=
  Eval vm_compute in regional_entries ais_results.

(** * Properties *)

(** ** Results *)

Lemma bind_Ok_inv {A B} (r : result A) (k : A -> result B) (b : B) :
  bind r k = Ok b -> exists a, r = Ok a /\ k a = Ok b.
Proof.
  destruct r as [a|e]; simpl; intros H; [eauto | discriminate].
Qed.

Ltac bind_inv H :=
  let a := fresh "a" in
  let Ha := fresh "Ha" in
  apply bind_Ok_inv in H; destruct H as [a [Ha H]].

Tactic Notation "bind_inv_as" hyp(H) ident(a) ident(Ha) :=
  apply bind_Ok_inv in H; destruct H as [a [Ha H]].

(** ** The calendar *)

Lemma str_eqb_true (a b : string) : (a ==? b) = true <-> a = b.
Proof. apply String.eqb_eq. Qed.

Lemma str_eqb_false (a b : string) : (a ==? b) = false <-> a <> b.
Proof. apply String.eqb_neq. Qed.

(** On the calendars cftime has beyond the three fixed-length ones, and away
    from a year zero, the leap year test answers. *)
Lemma is_leap_year_answers (y : Z) (cal : string) :
  In cal ["standard"; "gregorian"; "proleptic_gregorian"; "julian"] ->
  y <> 0 ->
  exists leap, Cftime.is_leap_year y cal = Ok leap.
Proof.
  intros Hin Hy.
  assert (Hz : (y =? 0) = false) by (apply Z.eqb_neq; exact Hy).
  simpl in Hin.
  destruct Hin as [<-|[<-|[<-|[<-|[]]]]]; unfold Cftime.is_leap_year; simpl;
    rewrite Hz; simpl.
  - destruct (y >? 1581); simpl; [eauto|].
    destruct (y <? 1582); simpl; eauto.
  - destruct (y >? 1581); simpl; [eauto|].
    destruct (y <? 1582); simpl; eauto.
  - eauto.
  - eauto.
Qed.

(** The proleptic Gregorian calendar follows the Gregorian rule. *)
Lemma is_leap_year_proleptic (y : Z) :
  Cftime.is_leap_year y "proleptic_gregorian" = Ok (Cftime.gregorian_leap y).
Proof.
  unfold Cftime.is_leap_year. simpl.
  rewrite !andb_false_r. reflexivity.
Qed.

(** C9. [days_in_year] is 365 on the calendars "365_day" and "noleap", 366
    on "366_day" and "all_leap", 360 on "360_day"; on any other calendar it
    is 366 when the year of the date is a leap year by the leap rule of that
    calendar and 365 when it is not; and on the other calendars cftime has
    it does return one of the two. *)
Theorem days_in_year_by_calendar (date : Cftime.datetime) :
  (Cftime.calendar date = "365_day" \/ Cftime.calendar date = "noleap" ->
   days_in_year date = Ok 365) /\
  (Cftime.calendar date = "366_day" \/ Cftime.calendar date = "all_leap" ->
   days_in_year date = Ok 366) /\
  (Cftime.calendar date = "360_day" -> days_in_year date = Ok 360) /\
  (~ In (Cftime.calendar date)
        ["365_day"; "noleap"; "366_day"; "all_leap"; "360_day"] ->
   forall leap : bool,
     Cftime.is_leap_year (Cftime.year date) (Cftime.calendar date) = Ok leap ->
     days_in_year date = Ok (if leap then 366 else 365)) /\
  (In (Cftime.calendar date)
      ["standard"; "gregorian"; "proleptic_gregorian"; "julian"] ->
   Cftime.year date <> 0 ->
   exists leap : bool,
     Cftime.is_leap_year (Cftime.year date) (Cftime.calendar date) = Ok leap /\
     days_in_year date = Ok (if leap then 366 else 365)).
Proof.
  assert (Hother : ~ In (Cftime.calendar date)
        ["365_day"; "noleap"; "366_day"; "all_leap"; "360_day"] ->
   forall leap : bool,
     Cftime.is_leap_year (Cftime.year date) (Cftime.calendar date) = Ok leap ->
     days_in_year date = Ok (if leap then 366 else 365)).
  { intros Hnot leap Hleap. unfold days_in_year.
    simpl in Hnot.
    assert (H1 : (Cftime.calendar date ==? "365_day") = false)
      by (apply str_eqb_false; intuition congruence).
    assert (H2 : (Cftime.calendar date ==? "noleap") = false)
      by (apply str_eqb_false; intuition congruence).
    assert (H3 : (Cftime.calendar date ==? "366_day") = false)
      by (apply str_eqb_false; intuition congruence).
    assert (H4 : (Cftime.calendar date ==? "all_leap") = false)
      by (apply str_eqb_false; intuition congruence).
    assert (H5 : (Cftime.calendar date ==? "360_day") = false)
      by (apply str_eqb_false; intuition congruence).
    rewrite H1, H2, H3, H4, H5. simpl. rewrite Hleap. simpl.
    destruct leap; reflexivity. }
  repeat split.
  - intros [H|H]; unfold days_in_year; rewrite H; reflexivity.
  - intros [H|H]; unfold days_in_year; rewrite H; reflexivity.
  - intros H; unfold days_in_year; rewrite H; reflexivity.
  - exact Hother.
  - intros Hin Hy.
    destruct (is_leap_year_answers _ _ Hin Hy) as [leap Hleap].
    exists leap. split; [exact Hleap|].
    apply Hother; [|exact Hleap].
    simpl in Hin |- *. intuition congruence.
Qed.

Lemma days_in_year_by_calendar_witness :
  days_in_year (Cftime.mkdate "noleap" 2001 3 1 0 0 0 0 60) = Ok 365 /\
  days_in_year (Cftime.mkdate "all_leap" 2001 3 1 0 0 0 0 61) = Ok 366 /\
  days_in_year (Cftime.mkdate "360_day" 2001 3 1 0 0 0 0 61) = Ok 360 /\
  days_in_year (Cftime.mkdate "standard" 2000 3 1 0 0 0 0 61) = Ok 366 /\
  days_in_year (Cftime.mkdate "julian" 1900 3 1 0 0 0 0 61) = Ok 366 /\
  days_in_year (Cftime.mkdate "proleptic_gregorian" 1900 3 1 0 0 0 0 60)
  = Ok 365.
Proof.
  split; [|split; [|split; [|split; [|split]]]].
  - apply (days_in_year_by_calendar
             (Cftime.mkdate "noleap" 2001 3 1 0 0 0 0 60)).
    right; reflexivity.
  - apply (days_in_year_by_calendar
             (Cftime.mkdate "all_leap" 2001 3 1 0 0 0 0 61)).
    right; reflexivity.
  - apply (days_in_year_by_calendar
             (Cftime.mkdate "360_day" 2001 3 1 0 0 0 0 61)).
    reflexivity.
  - apply (proj1 (proj2 (proj2 (proj2 (days_in_year_by_calendar
             (Cftime.mkdate "standard" 2000 3 1 0 0 0 0 61))))) ) with
        (leap := true).
    + simpl. intros [H|[H|[H|[H|[H|[]]]]]]; discriminate H.
    + reflexivity.
  - apply (proj1 (proj2 (proj2 (proj2 (days_in_year_by_calendar
             (Cftime.mkdate "julian" 1900 3 1 0 0 0 0 61))))) ) with
        (leap := true).
    + simpl. intros [H|[H|[H|[H|[H|[]]]]]]; discriminate H.
    + reflexivity.
  - apply (proj1 (proj2 (proj2 (proj2 (days_in_year_by_calendar
             (Cftime.mkdate "proleptic_gregorian" 1900 3 1 0 0 0 0 60))))) )
      with (leap := false).
    + simpl. intros [H|[H|[H|[H|[H|[]]]]]]; discriminate H.
    + reflexivity.
Defined.

(** ** The order on dates *)












Lemma ltb_other (a b : Cftime.datetime) :
  Cftime.calendar a <> Cftime.calendar b -> Cftime.ltb a b = Raise TypeError.
Proof.
  intros H. unfold Cftime.ltb. apply String.eqb_neq in H. rewrite H.
  reflexivity.
Qed.










Lemma outside_other (mn mx d : Cftime.datetime) :
  Cftime.calendar mx = Cftime.calendar mn ->
  Cftime.calendar d <> Cftime.calendar mn ->
  ~ outside mn mx d.
Proof.
  intros Hmx Hd. unfold outside.
  rewrite (ltb_other d mn) by congruence.
  rewrite (ltb_other mx d) by congruence.
  intros [H|H]; discriminate.
Qed.



(** ** The observation series *)

(** Every delta of the loop is taken against the value the loop was entered
    with. *)
Lemma mass_change_loop_from_start (ic : nat) (start_value : Q)
    (filtered : list (list Q)) :
  mass_change_loop ic start_value filtered
  = map (fun row => (cell ic row - start_value)%Q) filtered.
Proof.
  induction filtered as [|row rest IH]; simpl; [reflexivity|].
  rewrite IH. reflexivity.
Qed.

(** C1. On the series (2000, 100), (2001, 90), (2002, 70) with start 2000
    and end 2002, [sum_MassBalance] keeps the rows of 2001 and 2002 and gives
    them the deltas -10 and -30: the second row is differenced against the
    start value 100, where the successive difference against the row of 2001
    is -20. *)
Theorem sum_MassBalance_scenario_deltas :
  sum_MassBalance scenario_fs "obs.csv" (2000 # 1) (2002 # 1) "mass"
  = Ok (mkframe ["Year"; "mass"; "IMBIE_Mass_Change"]
                [[2001 # 1; 90 # 1; -10 # 1];
                 [2002 # 1; 70 # 1; -30 # 1]]) /\
  successive_differences (100 # 1) [90 # 1; 70 # 1] = [-10 # 1; -20 # 1] /\
  ~ (-30 # 1 == -20 # 1)%Q.
Proof.
  split; [vm_compute; reflexivity|].
  split; [vm_compute; reflexivity|].
  intros H. vm_compute in H. discriminate H.
Qed.

(** ** Arrays *)

Lemma Qlt_bool_iff (a b : Q) : Qlt_bool a b = true <-> (a < b)%Q.
Proof.
  unfold Qlt_bool. rewrite negb_true_iff.
  split.
  - intros H. apply Qnot_le_lt. intros Hle.
    apply Qle_bool_iff in Hle. congruence.
  - intros H. destruct (Qle_bool b a) eqn:E; [|reflexivity].
    apply Qle_bool_iff in E. exfalso. apply (Qlt_not_le _ _ H E).
Qed.

Lemma Qlt_bool_false_iff (a b : Q) : Qlt_bool a b = false <-> (b <= a)%Q.
Proof.
  unfold Qlt_bool. rewrite negb_false_iff. apply Qle_bool_iff.
Qed.

Lemma map2_length {A B C} (f : A -> B -> C) (a : list A) (b : list B) :
  List.length (map2 f a b) = Nat.min (List.length a) (List.length b).
Proof.
  unfold map2. rewrite length_map, length_combine. reflexivity.
Qed.

Lemma nth_map2 {A B C} (f : A -> B -> C) (a : list A) (b : list B)
    (i : nat) (da : A) (db : B) (dc : C) :
  (i < List.length a)%nat -> (i < List.length b)%nat ->
  nth i (map2 f a b) dc = f (nth i a da) (nth i b db).
Proof.
  revert b i. induction a as [|x a IH]; intros [|y b] [|i]; simpl;
    intros Ha Hb; try lia; [reflexivity|].
  apply IH; lia.
Qed.

Lemma nth_map_lt {A B} (f : A -> B) (l : list A) (i : nat) (d : A) (d' : B) :
  (i < List.length l)%nat -> nth i (map f l) d' = f (nth i l d).
Proof.
  revert i. induction l as [|x l IH]; intros [|i]; simpl; intros H;
    try lia; [reflexivity|].
  apply IH; lia.
Qed.

Lemma nth_mask_assign {A} (mask : list bool) (v : A) (a : list A) (i : nat)
    (d : A) :
  (i < List.length mask)%nat -> (i < List.length a)%nat ->
  nth i (mask_assign mask v a) d = if nth i mask false then v else nth i a d.
Proof.
  intros Hm Ha. unfold mask_assign.
  rewrite (nth_map2 _ mask a i false d d Hm Ha). reflexivity.
Qed.

(** ** The latitude boxes of the mascons *)

Lemma half_below_length (c s : list Q) :
  List.length (Mascons.half_below c s)
  = Nat.min (List.length c) (List.length s).
Proof.
  unfold Mascons.half_below. rewrite map2_length, length_map. reflexivity.
Qed.

Lemma half_above_length (c s : list Q) :
  List.length (Mascons.half_above c s)
  = Nat.min (List.length c) (List.length s).
Proof.
  unfold Mascons.half_above. rewrite map2_length, length_map. reflexivity.
Qed.

(** The stored latitude box of mascon [i] is the clamped raw box. *)
Lemma init_lat_box (f : Mascons.H5File) (lon_wrap : string) (i : nat) :
  (i < List.length (Mascons.h5_lat_center f))%nat ->
  (i < List.length (Mascons.h5_lat_span f))%nat ->
  let m := Mascons.init f lon_wrap in
  (nth i (Mascons.min_lats m) 0%Q, nth i (Mascons.max_lats m) 0%Q)
  = clamped_bounds
      (nth i (Mascons.half_below (Mascons.lat_centers m)
                                 (Mascons.lat_spans m)) 0%Q)
      (nth i (Mascons.half_above (Mascons.lat_centers m)
                                 (Mascons.lat_spans m)) 0%Q).
Proof.
  intros Hc Hs. simpl.
  set (mn := Mascons.half_below (Mascons.h5_lat_center f)
                                (Mascons.h5_lat_span f)).
  set (mx := Mascons.half_above (Mascons.h5_lat_center f)
                                (Mascons.h5_lat_span f)).
  assert (Hmn : (i < List.length mn)%nat)
    by (unfold mn; rewrite half_below_length; lia).
  assert (Hmx : (i < List.length mx)%nat)
    by (unfold mx; rewrite half_above_length; lia).
  set (mx1 := mask_assign (map (fun v => Qlt_bool v (-90)) mn) (-179 # 2) mx).
  set (mn1 := mask_assign (map (fun v => Qlt_bool v (-90)) mn) (-90)%Q mn).
  assert (Hmx1 : (i < List.length mx1)%nat).
  { unfold mx1, mask_assign. rewrite map2_length, length_map. lia. }
  assert (Hmn1 : (i < List.length mn1)%nat).
  { unfold mn1, mask_assign. rewrite map2_length, length_map. lia. }
  assert (Emx1 : nth i mx1 0%Q
                 = if Qlt_bool (nth i mn 0%Q) (-90) then -179 # 2
                   else nth i mx 0%Q).
  { unfold mx1. rewrite nth_mask_assign by (rewrite ?length_map; lia).
    rewrite (nth_map_lt _ mn i 0%Q false Hmn). reflexivity. }
  assert (Emn1 : nth i mn1 0%Q
                 = if Qlt_bool (nth i mn 0%Q) (-90) then (-90)%Q
                   else nth i mn 0%Q).
  { unfold mn1. rewrite nth_mask_assign by (rewrite ?length_map; lia).
    rewrite (nth_map_lt _ mn i 0%Q false Hmn). reflexivity. }
  unfold clamped_bounds.
  rewrite !nth_mask_assign by (rewrite ?length_map; lia).
  rewrite (nth_map_lt _ mx1 i 0%Q false Hmx1).
  rewrite Emx1, Emn1. reflexivity.
Qed.

(** ** Binning points into mascons *)

Lemma list_set_length {A} (j : nat) (v : A) (a : list A) :
  List.length (list_set j v a) = List.length a.
Proof.
  revert j. induction a as [|x a IH]; intros [|j]; simpl; auto.
Qed.

Lemma list_set_app {A} (pre : list A) (v x : A) (rest : list A) :
  list_set (List.length pre) v (pre ++ x :: rest) = (pre ++ v :: rest)%list.
Proof.
  induction pre as [|p pre IH]; simpl; [reflexivity|].
  rewrite IH. reflexivity.
Qed.

Lemma keep_some_length {A} (l : list (option A)) :
  (List.length (keep_some l) <= List.length l)%nat.
Proof.
  induction l as [|[a|] l IH]; simpl; lia.
Qed.

(** The loop writes the means of the mascons that were not skipped one
    after the other from slot [j] on, and leaves the other slots. *)
Lemma mascon_loop_packs (mascons : Mascons.GSFCmascons)
    (lats lons : list Q) (values : list fl) (indices : list nat)
    (passes : list (option fl)) (pre : list fl) (k : nat) :
  mapM (mascon_pass mascons lats lons values) indices = Ok passes ->
  (List.length indices <= k)%nat ->
  Mascons.mascon_loop
    (Mascons.half_below (Mascons.lat_centers mascons)
                        (Mascons.lat_spans mascons))
    (Mascons.half_above (Mascons.lat_centers mascons)
                        (Mascons.lat_spans mascons))
    (Mascons.half_below (Mascons.lon_centers mascons)
                        (Mascons.lon_spans mascons))
    (Mascons.half_above (Mascons.lon_centers mascons)
                        (Mascons.lon_spans mascons))
    lats lons values indices (List.length pre) (pre ++ repeat NaN k)
  = Ok (pre ++ keep_some passes
            ++ repeat NaN (k - List.length (keep_some passes)))%list.
Proof.
  revert passes pre k.
  induction indices as [|i rest IH]; intros passes pre k Hm Hk.
  - simpl in Hm. injection Hm as <-. simpl. rewrite Nat.sub_0_r. reflexivity.
  - simpl in Hm. bind_inv Hm. bind_inv Hm. injection Hm as <-.
    simpl in Hk. simpl Mascons.mascon_loop.
    unfold mascon_pass in Ha. rewrite Ha. simpl bind.
    destruct a as [v|].
    + destruct k as [|k]; [lia|]. simpl repeat.
      rewrite list_set_app.
      replace (pre ++ v :: repeat NaN k)%list
        with ((pre ++ [v]) ++ repeat NaN k)%list
        by (rewrite <- app_assoc; reflexivity).
      replace (S (List.length pre)) with (List.length (pre ++ [v])%list)
        by (rewrite length_app; simpl; lia).
      rewrite (IH a0 (pre ++ [v])%list k Ha0) by lia.
      cbn [keep_some List.length Nat.sub].
      rewrite <- app_assoc. reflexivity.
    + rewrite (IH a0 pre k Ha0) by lia. reflexivity.
Qed.

Lemma mask_select_length_le {A} (mask : list bool) (a : list A) :
  (List.length (mask_select mask a) <= count_true mask)%nat.
Proof.
  revert a. unfold count_true.
  induction mask as [|b mask IH]; intros [|x a]; simpl; try lia.
  destruct b; simpl; specialize (IH a); lia.
Qed.

(** What the code returns: the means of the selected mascons that have a
    surviving sample, packed at the front, then NaN up to the number of
    selected mascons. *)
Lemma points_to_mascons_packed (mascons : Mascons.GSFCmascons)
    (I_ : list bool) (lats lons : list Q) (values : list fl)
    (passes : list (option fl)) :
  List.length I_ = Mascons.N_mascons mascons ->
  mapM (mascon_pass mascons lats lons values)
       (mask_select I_ (seq 0 (Mascons.N_mascons mascons))) = Ok passes ->
  Mascons.points_to_mascons mascons I_ lats lons values
  = Ok (keep_some passes
        ++ repeat NaN (count_true I_ - List.length (keep_some passes)))%list.
Proof.
  intros Hlen Hm. unfold Mascons.points_to_mascons.
  rewrite Hlen, Nat.eqb_refl. simpl negb. cbv iota.
  apply (mascon_loop_packs mascons lats lons values _ passes [] _ Hm).
  apply mask_select_length_le.
Qed.

(** C6. On two selected mascons of which the first has no sample in its
    box and the second has the samples 4 and 6, [points_to_mascons] returns
    the mean 5 in entry 0 and NaN in entry 1, where the docstring (entry [j]
    belongs to the [j]-th selected mascon) gives NaN, 5. *)
Theorem points_to_mascons_skipped_cell_shifts_means :
  let m := Mascons.init two_cell_h5 "pm180" in
  Mascons.points_to_mascons m [true; true] [20 # 1; 41 # 2] [20 # 1; 20 # 1]
                            [F (4 # 1); F (6 # 1)]
  = Ok [F (10 # 2); NaN] /\
  documented_mscn_mean m [true; true] [20 # 1; 41 # 2] [20 # 1; 20 # 1]
                       [F (4 # 1); F (6 # 1)]
  = Ok [NaN; F (10 # 2)].
Proof. split; vm_compute; reflexivity. Qed.

Lemma mask_select_all_false {A} (mask : list bool) (a : list A) :
  (forall b, In b mask -> b = false) -> mask_select mask a = [].
Proof.
  revert a. induction mask as [|b mask IH]; intros [|x a] H; simpl; auto.
  rewrite (H b (or_introl eq_refl)). apply IH.
  intros b' Hb'. apply H. right. exact Hb'.
Qed.

(** A mascon with no sample in its box is skipped. *)
Lemma mascon_mean_no_sample (min_lat max_lat min_lon max_lon : Q)
    (lats lons : list Q) (values : list fl) :
  lats <> [] -> lons <> [] ->
  (forall lat lon, In (lat, lon) (combine lats lons) ->
     Mascons.in_box min_lat max_lat min_lon max_lon lat lon = false) ->
  Mascons.mascon_mean min_lat max_lat min_lon max_lon lats lons values
  = Ok None.
Proof.
  intros Hlats Hlons Hout. unfold Mascons.mascon_mean.
  destruct lats as [|la lats]; [congruence|].
  destruct lons as [|lo lons]; [congruence|].
  cbn [Mascons.np_min Mascons.np_max bind].
  do 4 match goal with
       | |- (if ?c then _ else _) = _ => destruct c; [reflexivity|]
       end.
  rewrite (mask_select_all_false
             (map2 (Mascons.in_box min_lat max_lat min_lon max_lon)
                   (la :: lats) (lo :: lons)) values).
  - reflexivity.
  - intros b Hb. unfold map2 in Hb. apply in_map_iff in Hb.
    destruct Hb as [[lat lon] [<- Hin]]. simpl. apply Hout. exact Hin.
Qed.

Lemma mapM_all_none {A} (f : A -> result (option fl)) (l : list A) :
  (forall a, In a l -> f a = Ok None) ->
  mapM f l = Ok (repeat None (List.length l)).
Proof.
  induction l as [|a l IH]; intros H; simpl; [reflexivity|].
  rewrite (H a (or_introl eq_refl)). simpl.
  rewrite IH by (intros a' Ha'; apply H; right; exact Ha'). reflexivity.
Qed.

Lemma keep_some_all_none {A} (n : nat) :
  keep_some (repeat (@None A) n) = [].
Proof. induction n as [|n IH]; simpl; auto. Qed.

(** X4. With samples that are not empty and none of them in the box of any
    selected mascon, every entry of the result is NaN, and there is one
    entry per selected mascon. *)
Lemma points_to_mascons_no_sample (mascons : Mascons.GSFCmascons)
    (I_ : list bool) (lats lons : list Q) (values : list fl) :
  List.length I_ = Mascons.N_mascons mascons ->
  lats <> [] -> lons <> [] ->
  (forall i lat lon,
     In i (mask_select I_ (seq 0 (Mascons.N_mascons mascons))) ->
     In (lat, lon) (combine lats lons) ->
     Mascons.in_box
       (nth i (Mascons.half_below (Mascons.lat_centers mascons)
                                  (Mascons.lat_spans mascons)) 0%Q)
       (nth i (Mascons.half_above (Mascons.lat_centers mascons)
                                  (Mascons.lat_spans mascons)) 0%Q)
       (nth i (Mascons.half_below (Mascons.lon_centers mascons)
                                  (Mascons.lon_spans mascons)) 0%Q)
       (nth i (Mascons.half_above (Mascons.lon_centers mascons)
                                  (Mascons.lon_spans mascons)) 0%Q)
       lat lon = false) ->
  Mascons.points_to_mascons mascons I_ lats lons values
  = Ok (repeat NaN (count_true I_)).
Proof.
  intros Hlen Hlats Hlons Hout.
  rewrite (points_to_mascons_packed mascons I_ lats lons values
             (repeat None (List.length
                (mask_select I_ (seq 0 (Mascons.N_mascons mascons)))))
             Hlen).
  - rewrite keep_some_all_none. simpl. rewrite Nat.sub_0_r. reflexivity.
  - apply mapM_all_none. intros i Hi. unfold mascon_pass.
    apply mascon_mean_no_sample; auto.
Qed.

(** X5. With nothing selected the result has length zero, whatever the
    samples are. *)
Lemma points_to_mascons_empty_selection (mascons : Mascons.GSFCmascons)
    (lats lons : list Q) (values : list fl) :
  Mascons.points_to_mascons mascons
    (repeat false (Mascons.N_mascons mascons)) lats lons values = Ok [].
Proof.
  assert (Hsel : forall A (a : list A) n, mask_select (repeat false n) a = []).
  { intros A a n. apply mask_select_all_false.
    intros b Hb. apply repeat_spec in Hb. exact Hb. }
  assert (Hcount : forall n, count_true (repeat false n) = O).
  { unfold count_true. induction n as [|n IH]; simpl; auto. }
  rewrite (points_to_mascons_packed mascons _ lats lons values []).
  - rewrite Hcount. reflexivity.
  - apply repeat_length.
  - rewrite Hsel. reflexivity.
Qed.

(** ** Linear interpolation *)

Lemma searchsorted_pos (x : Q) (xs : list Q) (t : Q) :
  (x < t)%Q -> (1 <= searchsorted (x :: xs) t)%nat.
Proof.
  intros H. simpl. apply Qlt_bool_iff in H. rewrite H. lia.
Qed.

Lemma linear_interpolation_step (x0 x1 : Q) (xs2 : list Q) (y0 y1 : Q)
    (ys2 : list Q) (t : Q) :
  linear_interpolation (x0 :: x1 :: xs2) (y0 :: y1 :: ys2) t
  = if Qle_bool t x1 || is_nil xs2
    then ((y1 - y0) / (x1 - x0) * (t - x0) + y0)%Q
    else linear_interpolation (x1 :: xs2) (y1 :: ys2) t.
Proof. reflexivity. Qed.

(** The segment scipy picks by [searchsorted] and [clip] is the segment of
    the segment-by-segment reading. *)
Lemma interp1d_extrapolate_linear (xs ys : list Q) (t : Q) :
  strictly_increasing xs = true ->
  List.length ys = List.length xs ->
  (2 <= List.length xs)%nat ->
  Mascons.interp1d_extrapolate xs ys t = linear_interpolation xs ys t.
Proof.
  revert ys.
  induction xs as [|x0 xs IH]; intros ys Hinc Hlen Hn; [simpl in Hn; lia|].
  destruct xs as [|x1 xs2]; [simpl in Hn; lia|].
  destruct ys as [|y0 [|y1 ys2]]; try (simpl in Hlen; lia).
  cbn [strictly_increasing] in Hinc. apply andb_true_iff in Hinc.
  destruct Hinc as [H01 Hinc]. apply Qlt_bool_iff in H01.
  rewrite linear_interpolation_step.
  destruct (Qle_bool t x1) eqn:Ele.
  - (* t <= x1: the first segment *)
    cbn [orb].
    assert (Hhi : segment_hi (x0 :: x1 :: xs2) t = 1%nat).
    { unfold segment_hi, clip. cbn [searchsorted List.length].
      assert (E1 : Qlt_bool x1 t = false)
        by (apply Qlt_bool_false_iff; apply Qle_bool_iff; exact Ele).
      rewrite E1. destruct (Qlt_bool x0 t); simpl; lia. }
    unfold Mascons.interp1d_extrapolate. rewrite Hhi. reflexivity.
  - cbn [orb].
    assert (Hx1t : (x1 < t)%Q).
    { apply Qlt_bool_iff. unfold Qlt_bool. rewrite Ele. reflexivity. }
    assert (Hx0t : (x0 < t)%Q) by (eapply Qlt_trans; eauto).
    destruct xs2 as [|x2 xs3].
    + (* beyond the last knot of a two-knot axis *)
      cbn [is_nil].
      assert (Hhi : segment_hi [x0; x1] t = 1%nat).
      { unfold segment_hi, clip. cbn [searchsorted List.length].
        destruct (Qlt_bool x0 t); [destruct (Qlt_bool x1 t)|]; simpl; lia. }
      unfold Mascons.interp1d_extrapolate. rewrite Hhi. reflexivity.
    + cbn [is_nil].
      rewrite <- (IH (y1 :: ys2) Hinc) by (simpl in *; lia).
      assert (Hk : (1 <= searchsorted (x1 :: x2 :: xs3) t)%nat)
        by (apply searchsorted_pos; exact Hx1t).
      assert (Hhi : segment_hi (x0 :: x1 :: x2 :: xs3) t
                    = S (segment_hi (x1 :: x2 :: xs3) t)).
      { unfold segment_hi, clip.
        change (searchsorted (x0 :: x1 :: x2 :: xs3) t)
          with (if Qlt_bool x0 t then S (searchsorted (x1 :: x2 :: xs3) t)
                else O).
        apply Qlt_bool_iff in Hx0t. rewrite Hx0t.
        cbn [List.length]. lia. }
      assert (Hpos : (1 <= segment_hi (x1 :: x2 :: xs3) t)%nat).
      { unfold segment_hi, clip. cbn [List.length]. lia. }
      unfold Mascons.interp1d_extrapolate. rewrite Hhi.
      destruct (segment_hi (x1 :: x2 :: xs3) t) as [|h] eqn:Eh; [lia|].
      cbn [Nat.sub]. rewrite Nat.sub_0_r.
      destruct h; reflexivity.
Qed.

(** ** The interpolation passes through its knots *)

Lemma strictly_increasing_tail (x : Q) (xs : list Q) :
  strictly_increasing (x :: xs) = true -> strictly_increasing xs = true.
Proof.
  destruct xs as [|x1 xs]; [reflexivity|].
  cbn [strictly_increasing]. intros H.
  apply andb_true_iff in H. tauto.
Qed.

Lemma strictly_increasing_head_lt (x : Q) (xs : list Q) (j : nat) :
  strictly_increasing (x :: xs) = true ->
  (j < List.length xs)%nat ->
  (x < nth j xs 0)%Q.
Proof.
  revert x j. induction xs as [|x1 xs IH]; intros x j Hinc Hj.
  - simpl in Hj. lia.
  - cbn [strictly_increasing] in Hinc. apply andb_true_iff in Hinc.
    destruct Hinc as [H01 Hinc]. apply Qlt_bool_iff in H01.
    destruct j as [|j]; [exact H01|].
    simpl in Hj. cbn [nth].
    eapply Qlt_trans; [exact H01|].
    apply IH; [exact Hinc | lia].
Qed.

Lemma linear_interpolation_at_knot (xs ys : list Q) (k : nat) :
  strictly_increasing xs = true ->
  List.length ys = List.length xs ->
  (2 <= List.length xs)%nat ->
  (k < List.length xs)%nat ->
  (linear_interpolation xs ys (nth k xs 0) == nth k ys 0)%Q.
Proof.
  revert ys k.
  induction xs as [|x0 xs IH]; intros ys k Hinc Hlen Hn Hk;
    [simpl in Hn; lia|].
  destruct xs as [|x1 xs2]; [simpl in Hn; lia|].
  destruct ys as [|y0 [|y1 ys2]]; try (simpl in Hlen; lia).
  pose proof (strictly_increasing_head_lt x0 (x1 :: xs2) 0 Hinc
                ltac:(simpl; lia)) as H01.
  cbn [nth] in H01.
  rewrite linear_interpolation_step.
  destruct k as [|[|k]].
  - cbn [nth].
    assert (E : Qle_bool x0 x1 = true)
      by (apply Qle_bool_iff; apply Qlt_le_weak; exact H01).
    rewrite E. cbn [orb]. field. intros Hz.
    apply (Qlt_not_eq _ _ H01). lra.
  - cbn [nth].
    assert (E : Qle_bool x1 x1 = true) by (apply Qle_bool_iff; apply Qle_refl).
    rewrite E. cbn [orb]. field. intros Hz.
    apply (Qlt_not_eq _ _ H01). lra.
  - change (nth (S (S k)) (x0 :: x1 :: xs2) 0%Q) with (nth (S k) (x1 :: xs2) 0%Q).
    change (nth (S (S k)) (y0 :: y1 :: ys2) 0%Q) with (nth (S k) (y1 :: ys2) 0%Q).
    pose proof (strictly_increasing_tail _ _ Hinc) as Hinc'.
    assert (Hlt : (x1 < nth (S k) (x1 :: xs2) 0)%Q).
    { cbn [nth]. apply strictly_increasing_head_lt; [exact Hinc'|].
      simpl in Hk. lia. }
    assert (E : Qle_bool (nth (S k) (x1 :: xs2) 0%Q) x1 = false).
    { destruct (Qle_bool (nth (S k) (x1 :: xs2) 0%Q) x1) eqn:E';
        [|reflexivity].
      apply Qle_bool_iff in E'. exfalso. apply (Qlt_not_le _ _ Hlt E'). }
    rewrite E. cbn [orb].
    destruct xs2 as [|x2 xs3]; [simpl in Hk; lia|]. cbn [is_nil].
    apply IH; [exact Hinc' | simpl in *; lia | simpl; lia | simpl in *; lia].
Qed.

(** ** The mascon delta *)

Lemma mask_select_In {A} (mask : list bool) (a : list A) (x : A) :
  In x (mask_select mask a) -> In x a.
Proof.
  revert a. induction mask as [|b mask IH]; intros [|y a]; simpl;
    try tauto.
  destruct b; simpl; intros H.
  - destruct H as [H|H]; [left; exact H | right; apply IH; exact H].
  - right. apply IH. exact H.
Qed.

Lemma mask_select_length {A} (mask : list bool) (a : list A) :
  List.length mask = List.length a ->
  List.length (mask_select mask a) = count_true mask.
Proof.
  revert a. unfold count_true.
  induction mask as [|b mask IH]; intros [|y a]; simpl; intros H;
    try lia.
  destruct b; simpl; rewrite IH by lia; reflexivity.
Qed.

Lemma interp1d_call_numbers (xs : list Q) (ys : list (list Q)) (t : Q) :
  (2 <= List.length xs)%nat ->
  Mascons.interp1d_call xs ys t
  = map F (map (fun row => Mascons.interp1d_extrapolate xs row t) ys).
Proof.
  intros Hn. unfold Mascons.interp1d_call.
  destruct (Nat.eqb_spec (List.length xs) 1) as [E|E]; [lia|].
  rewrite map_map. reflexivity.
Qed.

Lemma map2_fl_sub_numbers (a b : list Q) :
  map2 fl_sub (map F a) (map F b) = map F (map2 Qminus a b).
Proof.
  unfold map2. revert b.
  induction a as [|x a IH]; intros [|y b]; simpl; try reflexivity.
  rewrite IH. reflexivity.
Qed.

Lemma interp1d_init_ok (xs : list Q) (ys : list (list Q)) :
  Forall (fun row => List.length row = List.length xs) ys ->
  (1 <= List.length xs)%nat ->
  Mascons.interp1d_init xs ys = Ok tt.
Proof.
  intros Hrows Hn. unfold Mascons.interp1d_init.
  assert (E : forallb (fun row => (List.length row =? List.length xs)%nat) ys
              = true).
  { apply forallb_forall. intros row Hrow.
    rewrite Forall_forall in Hrows. apply Nat.eqb_eq. auto. }
  rewrite E. simpl.
  destruct (List.length xs) as [|n]; try lia. reflexivity.
Qed.

Lemma Forall_mask_select {A} (P : A -> Prop) (mask : list bool) (a : list A) :
  Forall P a -> Forall P (mask_select mask a).
Proof.
  intros H. apply Forall_forall. intros x Hx.
  rewrite Forall_forall in H. apply H. eapply mask_select_In; eauto.
Qed.

(** Inside the record range, and on a well-shaped solution, the function
    returns the differences of the two interpolations. *)
Lemma calc_mascon_delta_cmwe_in_range (mascon : Mascons.GSFCmascons)
    (start_date end_date : string) (I_ : list bool) (t_0 t_1 : Z)
    (first_start last_end : Q) :
  Mascons.YYYY_MM_DD_to_days_since_Jan_0_2002 start_date = Ok t_0 ->
  Mascons.YYYY_MM_DD_to_days_since_Jan_0_2002 end_date = Ok t_1 ->
  nth_error (Mascons.days_start mascon) 0 = Some first_start ->
  nth_error (rev (Mascons.days_end mascon)) 0 = Some last_end ->
  (first_start <= inject_Z t_0)%Q ->
  (inject_Z t_1 <= last_end)%Q ->
  List.length I_ = List.length (Mascons.cmwe mascon) ->
  Forall (fun row => List.length row = List.length (Mascons.days_middle mascon))
         (Mascons.cmwe mascon) ->
  (2 <= List.length (Mascons.days_middle mascon))%nat ->
  Mascons.calc_mascon_delta_cmwe mascon start_date end_date I_
  = Ok (Some
          (map F
             (map2 Qminus
                (map (fun row => Mascons.interp1d_extrapolate
                                   (Mascons.days_middle mascon) row
                                   (inject_Z t_1))
                     (mask_select I_ (Mascons.cmwe mascon)))
                (map (fun row => Mascons.interp1d_extrapolate
                                   (Mascons.days_middle mascon) row
                                   (inject_Z t_0))
                     (mask_select I_ (Mascons.cmwe mascon)))))).
Proof.
  intros Ht0 Ht1 Hfirst Hlast Hlo Hhi Hlen Hrows Hn.
  unfold Mascons.calc_mascon_delta_cmwe.
  rewrite Ht0, Ht1, Hfirst. cbn [bind of_option].
  assert (E0 : Qlt_bool (inject_Z t_0) first_start = false)
    by (apply Qlt_bool_false_iff; exact Hlo).
  rewrite E0, Hlast. cbn [bind of_option].
  assert (E1 : Qlt_bool last_end (inject_Z t_1) = false)
    by (apply Qlt_bool_false_iff; exact Hhi).
  rewrite E1. unfold Mascons.bool_index.
  rewrite Hlen, Nat.eqb_refl. cbn [bind].
  rewrite interp1d_init_ok;
    [|apply Forall_mask_select; exact Hrows | lia].
  cbn [bind]. rewrite !(interp1d_call_numbers _ _ _ Hn), map2_fl_sub_numbers.
  reflexivity.
Qed.

Lemma map2_sub_self {A} (f : A -> Q) (l : list A) :
  List.length (map2 Qminus (map f l) (map f l)) = List.length l /\
  Forall (fun v => v == 0)%Q (map2 Qminus (map f l) (map f l)).
Proof.
  induction l as [|a l [IHlen IHall]]; simpl.
  - split; [reflexivity | constructor].
  - split; [unfold map2 in *; simpl; f_equal; exact IHlen|].
    unfold map2 in *. simpl. constructor; [|exact IHall].
    unfold Qminus. apply Qplus_opp_r.
Qed.

(** C5. For a date inside the record range (from the first record start to
    the last record end) and any selection mask over the rows of a
    well-shaped solution, [calc_mascon_delta_cmwe] with that date as start
    and as end returns a vector with one entry per selected mascon, every
    entry zero. *)
Theorem calc_mascon_delta_cmwe_same_date_zero
    (mascon : Mascons.GSFCmascons) (d : string) (I_ : list bool) (t : Z)
    (first_start last_end : Q) :
  Mascons.YYYY_MM_DD_to_days_since_Jan_0_2002 d = Ok t ->
  nth_error (Mascons.days_start mascon) 0 = Some first_start ->
  nth_error (rev (Mascons.days_end mascon)) 0 = Some last_end ->
  (first_start <= inject_Z t)%Q ->
  (inject_Z t <= last_end)%Q ->
  List.length I_ = List.length (Mascons.cmwe mascon) ->
  Forall (fun row => List.length row = List.length (Mascons.days_middle mascon))
         (Mascons.cmwe mascon) ->
  (2 <= List.length (Mascons.days_middle mascon))%nat ->
  exists delta : list Q,
    Mascons.calc_mascon_delta_cmwe mascon d d I_ = Ok (Some (map F delta)) /\
    List.length delta = count_true I_ /\
    Forall (fun v => v == 0)%Q delta.
Proof.
  intros Ht Hfirst Hlast Hlo Hhi Hlen Hrows Hn.
  eexists. split.
  - apply (calc_mascon_delta_cmwe_in_range mascon d d I_ t t
             first_start last_end); assumption.
  - destruct (map2_sub_self
                (fun row => Mascons.interp1d_extrapolate
                              (Mascons.days_middle mascon) row (inject_Z t))
                (mask_select I_ (Mascons.cmwe mascon))) as [Hl Hz].
    split; [|exact Hz].
    rewrite Hl. apply mask_select_length. exact Hlen.
Qed.

Lemma calc_mascon_delta_cmwe_same_date_zero_witness :
  exists delta : list Q,
    Mascons.calc_mascon_delta_cmwe (Mascons.init two_cell_h5 "pm180")
      "2002-02-10" "2002-02-10" [true; true] = Ok (Some (map F delta)) /\
    List.length delta = count_true [true; true] /\
    Forall (fun v => v == 0)%Q delta.
Proof.
  apply (calc_mascon_delta_cmwe_same_date_zero
           (Mascons.init two_cell_h5 "pm180") "2002-02-10" [true; true]
           41 (1 # 1) (90 # 1)).
  - reflexivity.
  - reflexivity.
  - reflexivity.
  - vm_compute. discriminate.
  - vm_compute. discriminate.
  - reflexivity.
  - simpl. repeat constructor.
  - simpl. lia.
Defined.

Lemma map2_sub_map {A} (f g : A -> Q) (l : list A) :
  map2 Qminus (map f l) (map g l) = map (fun x => (f x - g x)%Q) l.
Proof.
  unfold map2. induction l as [|a l IH]; simpl; [reflexivity|].
  rewrite IH. reflexivity.
Qed.

Lemma nth_error_rev_last {A} (l : list A) (d : A) :
  l <> [] -> nth_error (rev l) 0 = Some (last l d).
Proof.
  intros H. destruct (exists_last H) as [l' [x ->]].
  rewrite rev_app_distr, last_last. reflexivity.
Qed.

Lemma nth_error_hd {A} (l : list A) (d : A) :
  l <> [] -> nth_error l 0 = Some (hd d l).
Proof. destruct l; [congruence | reflexivity]. Qed.

(** The conversion counts the days from 2001-12-31: that day is day 0 and
    2002-01-01 is day 1. *)
Lemma days_since_Jan_0_2002_origin :
  Mascons.YYYY_MM_DD_to_days_since_Jan_0_2002 "2001-12-31" = Ok 0 /\
  Mascons.YYYY_MM_DD_to_days_since_Jan_0_2002 "2002-01-01" = Ok 1.
Proof. split; reflexivity. Qed.

Lemma YYYY_MM_DD_days_since (date_str : string) (c : Mascons.civil) :
  Mascons.strptime date_str = Ok c ->
  Mascons.YYYY_MM_DD_to_days_since_Jan_0_2002 date_str
  = Ok (days_since epoch_2001_12_31 c).
Proof.
  intros H. unfold Mascons.YYYY_MM_DD_to_days_since_Jan_0_2002.
  rewrite H. reflexivity.
Qed.

(** C4, as amended. [calc_mascon_delta_cmwe] converts its two date strings
    to days since 2001-12-31 (day 0 of 2002), returns [None] when the start
    is before the first record start or the end is after the last record
    end, and for every other pair of dates returns, for the selected rows in
    row order, the linear interpolation of the row at the end date minus the
    one at the start date. *)
Theorem calc_mascon_delta_cmwe_described
    (mascon : Mascons.GSFCmascons) (start_date end_date : string)
    (cs ce : Mascons.civil) (I_ : list bool) :
  Mascons.strptime start_date = Ok cs ->
  Mascons.strptime end_date = Ok ce ->
  Mascons.days_start mascon <> [] ->
  Mascons.days_end mascon <> [] ->
  List.length I_ = List.length (Mascons.cmwe mascon) ->
  Forall (fun row => List.length row = List.length (Mascons.days_middle mascon))
         (Mascons.cmwe mascon) ->
  (2 <= List.length (Mascons.days_middle mascon))%nat ->
  strictly_increasing (Mascons.days_middle mascon) = true ->
  Mascons.YYYY_MM_DD_to_days_since_Jan_0_2002 start_date
  = Ok (days_since epoch_2001_12_31 cs) /\
  Mascons.YYYY_MM_DD_to_days_since_Jan_0_2002 end_date
  = Ok (days_since epoch_2001_12_31 ce) /\
  Mascons.calc_mascon_delta_cmwe mascon start_date end_date I_
  = Ok (option_map (map F)
          (described_mascon_delta epoch_2001_12_31 mascon cs ce I_)).
Proof.
  intros Hs He Hstart Hend Hlen Hrows Hn Hinc.
  pose proof (YYYY_MM_DD_days_since _ _ Hs) as Ht0.
  pose proof (YYYY_MM_DD_days_since _ _ He) as Ht1.
  split; [exact Ht0|]. split; [exact Ht1|].
  pose proof (nth_error_hd _ 0%Q Hstart) as Hfirst.
  pose proof (nth_error_rev_last _ 0%Q Hend) as Hlast.
  unfold described_mascon_delta.
  destruct (Qlt_bool (inject_Z (days_since epoch_2001_12_31 cs))
                     (hd 0%Q (Mascons.days_start mascon))) eqn:E0.
  - unfold Mascons.calc_mascon_delta_cmwe.
    rewrite Ht0, Ht1, Hfirst. cbn [bind of_option]. rewrite E0. reflexivity.
  - destruct (Qlt_bool (last (Mascons.days_end mascon) 0%Q)
                       (inject_Z (days_since epoch_2001_12_31 ce))) eqn:E1.
    + unfold Mascons.calc_mascon_delta_cmwe.
      rewrite Ht0, Ht1, Hfirst. cbn [bind of_option]. rewrite E0, Hlast.
      cbn [bind of_option]. rewrite E1. reflexivity.
    + cbn [orb].
      apply Qlt_bool_false_iff in E0. apply Qlt_bool_false_iff in E1.
      rewrite (calc_mascon_delta_cmwe_in_range mascon start_date end_date I_
                 _ _ _ _ Ht0 Ht1 Hfirst Hlast E0 E1 Hlen Hrows Hn).
      rewrite map2_sub_map. cbn [option_map]. do 3 f_equal.
      apply map_ext_in. intros row Hrow.
      assert (Hr : List.length row = List.length (Mascons.days_middle mascon)).
      { rewrite Forall_forall in Hrows. apply Hrows.
        eapply mask_select_In; eauto. }
      rewrite !(interp1d_extrapolate_linear _ row) by assumption.
      reflexivity.
Qed.

Lemma calc_mascon_delta_cmwe_described_witness :
  Mascons.calc_mascon_delta_cmwe (Mascons.init two_cell_h5 "pm180")
    "2002-01-01" "2002-03-31" [false; true]
  = Ok (option_map (map F)
          (described_mascon_delta epoch_2001_12_31
             (Mascons.init two_cell_h5 "pm180")
             (Mascons.mkcivil 2002 1 1) (Mascons.mkcivil 2002 3 31)
             [false; true])).
Proof.
  apply (calc_mascon_delta_cmwe_described
           (Mascons.init two_cell_h5 "pm180") "2002-01-01" "2002-03-31"
           (Mascons.mkcivil 2002 1 1) (Mascons.mkcivil 2002 3 31)
           [false; true]).
  - reflexivity.
  - reflexivity.
  - simpl. discriminate.
  - simpl. discriminate.
  - reflexivity.
  - simpl. repeat constructor.
  - simpl. lia.
  - reflexivity.
Defined.

(** C4, as stated, fails: counted from 2002-01-01 the date 2002-01-01 is
    day 0 and lies before a first record start on day 1, so the described
    result is [None], while the code counts it as day 1 and returns the
    deltas. *)
Lemma calc_mascon_delta_cmwe_epoch_counterexample :
  ~ (forall (mascon : Mascons.GSFCmascons) (start_date end_date : string)
            (cs ce : Mascons.civil) (I_ : list bool),
       Mascons.strptime start_date = Ok cs ->
       Mascons.strptime end_date = Ok ce ->
       Mascons.days_start mascon <> [] ->
       Mascons.days_end mascon <> [] ->
       List.length I_ = List.length (Mascons.cmwe mascon) ->
       Forall (fun row =>
                 List.length row = List.length (Mascons.days_middle mascon))
              (Mascons.cmwe mascon) ->
       (2 <= List.length (Mascons.days_middle mascon))%nat ->
       strictly_increasing (Mascons.days_middle mascon) = true ->
       Mascons.YYYY_MM_DD_to_days_since_Jan_0_2002 start_date
       = Ok (days_since epoch_2002_01_01 cs) /\
       Mascons.YYYY_MM_DD_to_days_since_Jan_0_2002 end_date
       = Ok (days_since epoch_2002_01_01 ce) /\
       Mascons.calc_mascon_delta_cmwe mascon start_date end_date I_
       = Ok (option_map (map F)
               (described_mascon_delta epoch_2002_01_01 mascon cs ce I_))).
Proof.
  intros H.
  destruct (H (Mascons.init polar_h5 "pm180") "2002-01-01" "2002-01-31"
              (Mascons.mkcivil 2002 1 1) (Mascons.mkcivil 2002 1 31) [true])
    as [H0 _].
  - reflexivity.
  - reflexivity.
  - simpl. discriminate.
  - simpl. discriminate.
  - reflexivity.
  - simpl. repeat constructor.
  - simpl. lia.
  - reflexivity.
  - vm_compute in H0. discriminate H0.
Qed.

(** On the same input the two results differ as wholes: the code returns
    the delta of the polar mascon, the description from 2002-01-01
    nothing. *)
Example calc_mascon_delta_cmwe_first_day :
  Mascons.calc_mascon_delta_cmwe (Mascons.init polar_h5 "pm180")
    "2002-01-01" "2002-01-31" [true]
  <> Ok (option_map (map F)
           (described_mascon_delta epoch_2002_01_01
              (Mascons.init polar_h5 "pm180")
              (Mascons.mkcivil 2002 1 1) (Mascons.mkcivil 2002 1 31) [true]))
  /\
  described_mascon_delta epoch_2002_01_01 (Mascons.init polar_h5 "pm180")
    (Mascons.mkcivil 2002 1 1) (Mascons.mkcivil 2002 1 31) [true] = None.
Proof.
  split; [|vm_compute; reflexivity].
  intros H. vm_compute in H. discriminate H.
Qed.

(** ** Day numbers *)

Lemma days_before_next_year (y : Z) :
  Mascons.days_before_year (y + 1)
  = Mascons.days_before_year y + (if Mascons.is_leap y then 366 else 365).
Proof.
  unfold Mascons.days_before_year, Mascons.is_leap.
  replace (y + 1 - 1) with y by lia.
  destruct (Z.eqb_spec (y mod 4) 0) as [H4|H4];
    destruct (Z.eqb_spec (y mod 100) 0) as [H100|H100];
    destruct (Z.eqb_spec (y mod 400) 0) as [H400|H400];
    cbn [andb orb negb];
    Z.div_mod_to_equations; lia.
Qed.

Lemma days_before_next_month (y m : Z) :
  1 <= m <= 11 ->
  Mascons.days_before_month y (m + 1)
  = Mascons.days_before_month y m + Mascons.days_in_month y m.
Proof.
  intros Hm.
  assert (Hcases : m = 1 \/ m = 2 \/ m = 3 \/ m = 4 \/ m = 5 \/ m = 6 \/
                   m = 7 \/ m = 8 \/ m = 9 \/ m = 10 \/ m = 11) by lia.
  unfold Mascons.days_before_month, Mascons.days_in_month.
  repeat (destruct Hcases as [->|Hcases]); try subst m;
    destruct (Mascons.is_leap y); reflexivity.
Qed.

Lemma days_before_december (y : Z) :
  Mascons.days_before_month y 12 + 31
  = if Mascons.is_leap y then 366 else 365.
Proof.
  unfold Mascons.days_before_month, Mascons.days_in_month.
  destruct (Mascons.is_leap y); reflexivity.
Qed.

(** The day number grows by one from a day to the next, so
    [date2num_days_since_2001_12_31] counts days. *)
Lemma toordinal_next_day (d : Mascons.civil) :
  Mascons.valid_civil d = true ->
  Mascons.toordinal (next_day d) = Mascons.toordinal d + 1.
Proof.
  unfold Mascons.valid_civil. intros Hv.
  repeat (apply andb_true_iff in Hv; destruct Hv as [Hv ?]).
  repeat match goal with
         | H : (_ <=? _) = true |- _ => apply Z.leb_le in H
         end.
  unfold next_day, Mascons.toordinal.
  destruct (Z.ltb_spec (Mascons.cday d)
              (Mascons.days_in_month (Mascons.cyear d) (Mascons.cmonth d)))
    as [Hd|Hd]; cbn [Mascons.cyear Mascons.cmonth Mascons.cday].
  - lia.
  - destruct (Z.ltb_spec (Mascons.cmonth d) 12) as [Hm|Hm];
      cbn [Mascons.cyear Mascons.cmonth Mascons.cday].
    + rewrite days_before_next_month by lia. lia.
    + assert (Em : Mascons.cmonth d = 12) by lia.
      rewrite Em in *.
      rewrite days_before_next_year.
      pose proof (days_before_december (Mascons.cyear d)) as Hdec.
      assert (E31 : Mascons.days_in_month (Mascons.cyear d) 12 = 31)
        by reflexivity.
      rewrite E31 in *.
      change (Mascons.days_before_month (Mascons.cyear d + 1) 1) with 0.
      lia.
Qed.

(** ** The model records *)

Lemma dict_set_In {K V} (keq : K -> K -> bool) (k0 : K) (v0 : V)
    (d : list (K * V)) (k : K) (v : V) :
  In (k, v) (dict_set keq k0 v0 d) ->
  In (k, v) d \/ (v = v0 /\ (k = k0 \/ keq k0 k = true)).
Proof.
  induction d as [|[k' v'] d IH]; simpl.
  - intros [H|[]]. injection H as <- <-. right. auto.
  - destruct (keq k0 k') eqn:E; simpl.
    + intros [H|H].
      * injection H as <- <-. right. auto.
      * left. right. exact H.
    + intros [H|H].
      * left. left. exact H.
      * destruct (IH H) as [H'|H']; [left; right; exact H' | right; exact H'].
Qed.

(** Every record the loop stores was made by a pass of the loop, for a time
    step equal to the key it is stored under. *)
Lemma model_loop_records
    (step : nat -> Q -> option JoinedFrame ->
            result (JoinedFrame * MassChangeRecord))
    (P : Q -> MassChangeRecord -> Prop) (J : JoinedFrame)
    (steps : list Q) :
  (forall i t joined j' rec,
     In t steps ->
     (i = O \/ joined = Some J) ->
     step i t joined = Ok (j', rec) -> j' = J /\ P t rec) ->
  forall (rest : list Q) (i : nat) (joined : option JoinedFrame)
         (acc out : list (Q * MassChangeRecord)),
    incl rest steps ->
    (i = O \/ joined = Some J) ->
    (forall date rec, In (date, rec) acc ->
       exists t, (t == date)%Q /\ In t steps /\ P t rec) ->
    model_loop step i rest joined acc = Ok out ->
    forall date rec, In (date, rec) out ->
      exists t, (t == date)%Q /\ In t steps /\ P t rec.
Proof.
  intros Hstep rest.
  induction rest as [|t rest IH]; intros i joined acc out Hincl Hstate Hacc Hrun.
  - simpl in Hrun. injection Hrun as <-. exact Hacc.
  - simpl in Hrun. bind_inv Hrun. destruct a as [j' rec'].
    assert (Ht : In t steps) by (apply Hincl; left; reflexivity).
    destruct (Hstep i t joined j' rec' Ht Hstate Ha) as [-> HP].
    cbn [fst snd] in Hrun.
    refine (IH _ _ _ _ _ _ _ Hrun).
    + intros x Hx. apply Hincl. right. exact Hx.
    + right. reflexivity.
    + intros date rec Hin.
      apply dict_set_In in Hin.
      destruct Hin as [Hin|[-> [->|Hk]]].
      * apply Hacc. exact Hin.
      * exists t. split; [reflexivity|]. split; assumption.
      * exists t. split; [apply Qeq_bool_iff; exact Hk|]. split; assumption.
Qed.

Lemma groupby_basin_column (basins_gdf : GeoDataFrame) (icesheet : string)
    (joined : JoinedFrame) (lithk_delta : list Q)
    (sums : list (string * Q) * option (list (string * Q))) :
  (if icesheet ==? "GIS" then
     b <- groupby_sum basins_gdf "SUBREGION1" joined lithk_delta ;;
     Ok (b, None)
   else if icesheet ==? "AIS" then
     b <- groupby_sum basins_gdf "Subregion" joined lithk_delta ;;
     r <- groupby_sum basins_gdf "Regions" joined lithk_delta ;;
     Ok (b, Some r)
   else Raise ValueError) = Ok sums ->
  groupby_sum basins_gdf (basin_column icesheet) joined lithk_delta
  = Ok (fst sums).
Proof.
  unfold basin_column.
  destruct (icesheet ==? "GIS").
  - intros H. bind_inv H. injection H as <-. exact Ha.
  - destruct (icesheet ==? "AIS"); [|discriminate].
    intros H. bind_inv H. bind_inv H. injection H as <-. exact Ha.
Qed.

(** One pass of the loop joins the grid to the basins, or reuses the join,
    and builds its record from the deltas of its date. *)
Lemma model_step_record (times : list Q) (gis_ds : Dataset)
    (basins_gdf : GeoDataFrame) (points : list (Q * Q)) (lithk_start : list fl)
    (x_resolution y_resolution rho_ice : Q) (icesheet : string)
    (i : nat) (t : Q) (joined : option JoinedFrame)
    (j' : JoinedFrame) (rec : MassChangeRecord) :
  (i = O \/ joined = Some (sjoin points basins_gdf)) ->
  model_step times gis_ds basins_gdf points lithk_start
             x_resolution y_resolution rho_ice icesheet i t joined
  = Ok (j', rec) ->
  j' = sjoin points basins_gdf /\
  exists snap,
    interp_time times (ds_lithk gis_ds) t = Ok snap /\
    record_of_deltas basins_gdf points icesheet
      (cell_deltas (transpose_flatten (List.length (ds_x gis_ds)) snap)
                   lithk_start x_resolution y_resolution rho_ice)
      rec.
Proof.
  intros Hstate H. unfold model_step in H.
  bind_inv H. rename a into snap. bind_inv H. rename a into jg.
  assert (Hj : jg = sjoin points basins_gdf).
  { destruct (i =? 0)%nat eqn:Ei.
    - injection Ha0 as <-. reflexivity.
    - destruct Hstate as [-> | ->]; [discriminate|].
      simpl in Ha0. injection Ha0 as <-. reflexivity. }
  subst jg. bind_inv H. injection H as <- <-.
  split; [reflexivity|].
  exists snap. split; [exact Ha|].
  unfold record_of_deltas. simpl.
  split; [reflexivity|]. split; [reflexivity|].
  eapply groupby_basin_column. exact Ha1.
Qed.

Lemma nth_error_Some_nth {A} (l : list A) (n : nat) (x d : A) :
  nth_error l n = Some x -> nth n l d = x.
Proof.
  revert n. induction l as [|a l IH]; intros [|n]; simpl; try discriminate.
  - intros H. injection H as <-. reflexivity.
  - apply IH.
Qed.

Lemma of_option_Ok {A} (e : exn) (o : option A) (a : A) :
  of_option e o = Ok a -> o = Some a.
Proof. destruct o; simpl; intros H; [injection H as <-; reflexivity | discriminate]. Qed.

(** Every record [process_model_data] returns was built from the per-cell
    deltas of a time step equal to its key. *)
Lemma process_model_data_records (gis_ds : Dataset) (basins_gdf : GeoDataFrame)
    (IMBIE_sum : DataFrame) (start_date_cftime end_date_cftime : Cftime.datetime)
    (start_date_fract end_date_fract rho_ice : Q) (icesheet : string)
    (out : list (Q * MassChangeRecord)) :
  process_model_data gis_ds basins_gdf IMBIE_sum start_date_cftime
    end_date_cftime start_date_fract end_date_fract rho_ice icesheet = Ok out ->
  forall date rec, In (date, rec) out ->
    exists (time_step : Q) (lithk_delta : list Q),
      (time_step == date)%Q /\
      step_deltas gis_ds start_date_fract rho_ice time_step = Ok lithk_delta /\
      record_of_deltas basins_gdf (grid_points (ds_x gis_ds) (ds_y gis_ds))
                       icesheet lithk_delta rec.
Proof.
  intros H date rec Hin. unfold process_model_data in H.
  bind_inv_as H times Htimes. bind_inv_as H u Hcheck. bind_inv_as H iy Hiy.
  bind_inv_as H x1 Hx1. bind_inv_as H x0 Hx0.
  bind_inv_as H y1 Hy1. bind_inv_as H y0 Hy0.
  bind_inv_as H snap0 Hsnap0.
  repeat match goal with
         | Hx : of_option _ _ = Ok _ |- _ => apply of_option_Ok in Hx
         end.
  assert (Hxres : Qabs (x1 - x0) = resolution (ds_x gis_ds)).
  { unfold resolution.
    rewrite (nth_error_Some_nth _ _ x1 0%Q) by assumption.
    rewrite (nth_error_Some_nth _ _ x0 0%Q) by assumption. reflexivity. }
  assert (Hyres : Qabs (y1 - y0) = resolution (ds_y gis_ds)).
  { unfold resolution.
    rewrite (nth_error_Some_nth _ _ y1 0%Q) by assumption.
    rewrite (nth_error_Some_nth _ _ y0 0%Q) by assumption. reflexivity. }
  rewrite Hxres, Hyres in H.
  set (points := grid_points (ds_x gis_ds) (ds_y gis_ds)) in *.
  set (lithk_start :=
         transpose_flatten (List.length (ds_x gis_ds)) snap0) in *.
  pose (P := fun (t : Q) (r : MassChangeRecord) =>
               exists snap,
                 interp_time times (ds_lithk gis_ds) t = Ok snap /\
                 record_of_deltas basins_gdf points icesheet
                   (cell_deltas
                      (transpose_flatten (List.length (ds_x gis_ds)) snap)
                      lithk_start (resolution (ds_x gis_ds))
                      (resolution (ds_y gis_ds)) rho_ice) r).
  destruct (model_loop_records _ P (sjoin points basins_gdf)
              (map (cell iy) (rows IMBIE_sum))
              (fun i t joined j' r _ Hstate Hrun =>
                 model_step_record _ _ _ _ _ _ _ _ _ i t joined j' r
                                   Hstate Hrun)
              _ _ _ _ _ (incl_refl _) (or_introl eq_refl)
              (fun d r (Hnil : In (d, r) []) => match Hnil with end)
              H date rec Hin)
    as [t [Heq [_ [snap [Hsnap Hrec]]]]].
  exists t. eexists. split; [exact Heq|]. split; [|exact Hrec].
  unfold step_deltas.
  rewrite Htimes. cbn [bind]. rewrite Hsnap0. cbn [bind].
  rewrite Hsnap. reflexivity.
Qed.

(** ** The per-cell delta *)

Lemma cell_deltas_length (current start : list fl) (xr yr rho : Q) :
  List.length (cell_deltas current start xr yr rho)
  = Nat.min (List.length current) (List.length start).
Proof.
  unfold cell_deltas. rewrite !length_map. apply map2_length.
Qed.

Lemma cell_deltas_nth (current start : list fl) (xr yr rho : Q) (k : nat) :
  (k < List.length current)%nat -> (k < List.length start)%nat ->
  (nth k (cell_deltas current start xr yr rho) 0
   == described_cell_delta (nth k current NaN) (nth k start NaN) xr yr rho)%Q.
Proof.
  intros Hc Hs. unfold cell_deltas.
  rewrite (nth_map_lt _ _ k 0%Q 0%Q)
    by (rewrite length_map, map2_length; lia).
  rewrite (nth_map_lt _ _ k NaN 0%Q) by (rewrite map2_length; lia).
  rewrite (nth_map2 fl_sub current start k NaN NaN NaN Hc Hs).
  unfold described_cell_delta, unit_scale.
  destruct (fl_sub (nth k current NaN) (nth k start NaN)); simpl; ring.
Qed.

(** C8. For every record [process_model_data] returns, with the field
    interpolated at the date of the record and at the start date, the
    per-cell delta is the difference of the two snapshots, replaced by zero
    where it is NaN, times x-resolution, y-resolution, ice density and 1e-12;
    the unmasked total of the record is the sum of these deltas. *)
Theorem process_model_data_cell_delta (gis_ds : Dataset)
    (basins_gdf : GeoDataFrame) (IMBIE_sum : DataFrame)
    (start_date_cftime end_date_cftime : Cftime.datetime)
    (start_date_fract end_date_fract rho_ice : Q) (icesheet : string)
    (out : list (Q * MassChangeRecord)) :
  process_model_data gis_ds basins_gdf IMBIE_sum start_date_cftime
    end_date_cftime start_date_fract end_date_fract rho_ice icesheet = Ok out ->
  forall date rec, In (date, rec) out ->
    exists (time_step : Q) (times : list Q) (snap snap0 : Snapshot)
           (lithk_delta : list Q),
      (time_step == date)%Q /\
      mapM fractional_year (ds_time gis_ds) = Ok times /\
      interp_time times (ds_lithk gis_ds) time_step = Ok snap /\
      interp_time times (ds_lithk gis_ds) start_date_fract = Ok snap0 /\
      model_total_mass_balance_unmasked rec = Qsum lithk_delta /\
      let current := transpose_flatten (List.length (ds_x gis_ds)) snap in
      let start := transpose_flatten (List.length (ds_x gis_ds)) snap0 in
      List.length lithk_delta
      = Nat.min (List.length current) (List.length start) /\
      forall k : nat,
        (k < List.length current)%nat -> (k < List.length start)%nat ->
        (nth k lithk_delta 0
         == described_cell_delta (nth k current NaN) (nth k start NaN)
              (resolution (ds_x gis_ds)) (resolution (ds_y gis_ds)) rho_ice)%Q.
Proof.
  intros H date rec Hin.
  destruct (process_model_data_records _ _ _ _ _ _ _ _ _ _ H date rec Hin)
    as [t [lithk_delta [Heq [Hstep [Hun _]]]]].
  unfold step_deltas in Hstep.
  bind_inv_as Hstep times Htimes. bind_inv_as Hstep snap0 Hsnap0.
  bind_inv_as Hstep snap Hsnap. injection Hstep as <-.
  exists t, times, snap, snap0. eexists.
  split; [exact Heq|]. split; [exact Htimes|]. split; [exact Hsnap|].
  split; [exact Hsnap0|]. split; [exact Hun|].
  split; [apply cell_deltas_length|].
  intros k Hc Hs. apply cell_deltas_nth; assumption.
Qed.

(** ** The masked total *)

Lemma Qsum_app (a b : list Q) : (Qsum (a ++ b) == Qsum a + Qsum b)%Q.
Proof.
  unfold Qsum. induction a as [|x a IH]; simpl.
  - ring.
  - rewrite IH. ring.
Qed.

Lemma series_sum_group_add (k : string) (v : Q) (g : list (string * Q)) :
  (series_sum (group_add k v g) == series_sum g + v)%Q.
Proof.
  unfold series_sum, Qsum.
  induction g as [|[k' v'] g IH]; simpl.
  - ring.
  - destruct (String.compare k k'); simpl.
    + ring.
    + ring.
    + rewrite IH. ring.
Qed.

Lemma series_sum_fold_group {R} (key : R -> string) (val : R -> Q)
    (rws : list R) (g : list (string * Q)) :
  (series_sum (fold_left (fun g r => group_add (key r) (val r) g) rws g)
   == series_sum g + Qsum (map val rws))%Q.
Proof.
  revert g. induction rws as [|r rws IH]; intros g; simpl.
  - unfold Qsum. simpl. ring.
  - rewrite IH, series_sum_group_add. unfold Qsum. simpl. ring.
Qed.

(** The per-basin totals add up to the sum over the joined rows. *)
Lemma groupby_sum_total (basins_gdf : GeoDataFrame) (label : string)
    (joined : JoinedFrame) (lithk_delta : list Q)
    (sums : list (string * Q)) :
  groupby_sum basins_gdf label joined lithk_delta = Ok sums ->
  (series_sum sums == Qsum (map (joined_delta lithk_delta) joined))%Q.
Proof.
  intros H. unfold groupby_sum in H. bind_inv_as H ic Hic.
  injection H as <-.
  rewrite (series_sum_fold_group
             (fun row : nat * list string => nth ic (snd row) "")
             (joined_delta lithk_delta)).
  unfold series_sum, Qsum. simpl. ring.
Qed.

Lemma Qsum_repeat (c : Q) {A} (l : list A) :
  (Qsum (map (fun _ => c) l) == inject_Z (Z.of_nat (List.length l)) * c)%Q.
Proof.
  unfold Qsum. induction l as [|a l IH].
  - simpl. ring.
  - cbn [map fold_right List.length]. rewrite IH.
    rewrite Nat2Z.inj_succ, <- Z.add_1_r, inject_Z_plus. ring.
Qed.

Lemma Qsum_flat_map {A B} (f : B -> Q) (g : A -> list B) (l : list A) :
  (Qsum (map f (flat_map g l)) == Qsum (map (fun a => Qsum (map f (g a))) l))%Q.
Proof.
  induction l as [|a l IH]; simpl.
  - reflexivity.
  - rewrite map_app, Qsum_app, IH. unfold Qsum. simpl. reflexivity.
Qed.

Lemma Qsum_map_ext {A} (f g : A -> Q) (l : list A) :
  (forall a, In a l -> (f a == g a)%Q) ->
  (Qsum (map f l) == Qsum (map g l))%Q.
Proof.
  unfold Qsum. induction l as [|a l IH]; intros H; simpl.
  - reflexivity.
  - rewrite (H a (or_introl eq_refl)).
    rewrite IH by (intros a' Ha'; apply H; right; exact Ha'). reflexivity.
Qed.

Lemma Qsum_filter {A} (p : A -> bool) (f : A -> Q) (l : list A) :
  (Qsum (map (fun a => if p a then f a else 0) l)
   == Qsum (map f (filter p l)))%Q.
Proof.
  unfold Qsum. induction l as [|a l IH]; simpl.
  - reflexivity.
  - destruct (p a); simpl; rewrite IH; ring.
Qed.

(** The sum over the joined rows counts the delta of a grid point once for
    every polygon that intersects the point. *)
Lemma sjoin_total (points : list (Q * Q)) (basins_gdf : GeoDataFrame)
    (lithk_delta : list Q) :
  (Qsum (map (joined_delta lithk_delta) (sjoin points basins_gdf))
   == Qsum (map (fun ip => inject_Z (Z.of_nat (polygons_at basins_gdf (snd ip)))
                           * delta_at lithk_delta ip)
                (indexed_points points)))%Q.
Proof.
  unfold sjoin, indexed_points.
  rewrite Qsum_flat_map. apply Qsum_map_ext. intros ip _.
  rewrite map_map. unfold joined_delta. cbn [fst].
  rewrite (Qsum_repeat (nth (fst ip) lithk_delta 0%Q)).
  unfold polygons_at, delta_at. reflexivity.
Qed.

(** C2, as amended. For every record [process_model_data] returns, the
    masked total is the sum of the per-basin totals, and that is the sum
    over the grid points of the delta of the point times the number of basin
    polygons that intersect it: a point in no polygon is left out and a
    point in several polygons counts once for each.  When no grid point is
    in more than one polygon, the masked total is the sum of the deltas of
    the grid points that lie in a polygon, each point once. *)
Theorem process_model_data_masked_total (gis_ds : Dataset)
    (basins_gdf : GeoDataFrame) (IMBIE_sum : DataFrame)
    (start_date_cftime end_date_cftime : Cftime.datetime)
    (start_date_fract end_date_fract rho_ice : Q) (icesheet : string)
    (out : list (Q * MassChangeRecord)) :
  process_model_data gis_ds basins_gdf IMBIE_sum start_date_cftime
    end_date_cftime start_date_fract end_date_fract rho_ice icesheet = Ok out ->
  forall date rec, In (date, rec) out ->
    let points := grid_points (ds_x gis_ds) (ds_y gis_ds) in
    exists (time_step : Q) (lithk_delta : list Q),
      (time_step == date)%Q /\
      step_deltas gis_ds start_date_fract rho_ice time_step = Ok lithk_delta /\
      model_total_mass_balance_unmasked rec = Qsum lithk_delta /\
      model_total_mass_balance_masked rec
      = series_sum (basin_mass_change_sums rec) /\
      (model_total_mass_balance_masked rec
       == Qsum (map (fun ip =>
                       inject_Z (Z.of_nat (polygons_at basins_gdf (snd ip)))
                       * delta_at lithk_delta ip)
                    (indexed_points points)))%Q /\
      ((forall p, In p points -> (polygons_at basins_gdf p <= 1)%nat) ->
       (model_total_mass_balance_masked rec
        == Qsum (map (delta_at lithk_delta)
                     (filter (fun ip =>
                                (0 <? polygons_at basins_gdf (snd ip))%nat)
                             (indexed_points points))))%Q).
Proof.
  intros H date rec Hin points.
  destruct (process_model_data_records _ _ _ _ _ _ _ _ _ _ H date rec Hin)
    as [t [lithk_delta [Heq [Hstep [Hun [Hmasked Hgroup]]]]]].
  fold points in Hgroup.
  exists t, lithk_delta.
  split; [exact Heq|]. split; [exact Hstep|]. split; [exact Hun|].
  split; [exact Hmasked|].
  assert (Hcount :
    (model_total_mass_balance_masked rec
     == Qsum (map (fun ip =>
                     inject_Z (Z.of_nat (polygons_at basins_gdf (snd ip)))
                     * delta_at lithk_delta ip)
                  (indexed_points points)))%Q).
  { rewrite Hmasked.
    rewrite (groupby_sum_total _ _ _ _ _ Hgroup).
    apply sjoin_total. }
  split; [exact Hcount|].
  intros Hdisjoint. rewrite Hcount.
  rewrite <- Qsum_filter. apply Qsum_map_ext.
  intros [i p] Hip. cbn [snd].
  assert (Hp : In p points).
  { unfold indexed_points in Hip. apply in_combine_r in Hip. exact Hip. }
  specialize (Hdisjoint p Hp).
  destruct (polygons_at basins_gdf p) as [|[|n]]; [| |lia]; simpl; ring.
Qed.

Lemma process_model_data_cell_delta_witness :
  exists (time_step : Q) (times : list Q) (snap snap0 : Snapshot)
         (lithk_delta : list Q),
    (time_step == 2001 # 1)%Q /\
    mapM fractional_year (ds_time grid_ds) = Ok times /\
    interp_time times (ds_lithk grid_ds) time_step = Ok snap /\
    interp_time times (ds_lithk grid_ds) (2000 # 1) = Ok snap0 /\
    model_total_mass_balance_unmasked overlap_record = Qsum lithk_delta /\
    let current := transpose_flatten (List.length (ds_x grid_ds)) snap in
    let start := transpose_flatten (List.length (ds_x grid_ds)) snap0 in
    List.length lithk_delta
    = Nat.min (List.length current) (List.length start) /\
    forall k : nat,
      (k < List.length current)%nat -> (k < List.length start)%nat ->
      (nth k lithk_delta 0
       == described_cell_delta (nth k current NaN) (nth k start NaN)
            (resolution (ds_x grid_ds)) (resolution (ds_y grid_ds)) rho_unit)%Q.
Proof.
  apply (process_model_data_cell_delta grid_ds overlap_layer imbie_2001
           date_2000 date_2001 (2000 # 1) (2001 # 1) rho_unit "GIS"
           [(2001 # 1, overlap_record)]).
  - vm_compute. reflexivity.
  - left. reflexivity.
Defined.

Lemma process_model_data_masked_total_witness :
  exists (time_step : Q) (lithk_delta : list Q),
    (time_step == 2001 # 1)%Q /\
    step_deltas grid_ds (2000 # 1) rho_unit time_step = Ok lithk_delta /\
    model_total_mass_balance_unmasked covering_record = Qsum lithk_delta /\
    model_total_mass_balance_masked covering_record
    = series_sum (basin_mass_change_sums covering_record) /\
    (model_total_mass_balance_masked covering_record
     == Qsum (map (fun ip =>
                     inject_Z (Z.of_nat (polygons_at covering_layer (snd ip)))
                     * delta_at lithk_delta ip)
                  (indexed_points
                     (grid_points (ds_x grid_ds) (ds_y grid_ds)))))%Q /\
    ((forall p, In p (grid_points (ds_x grid_ds) (ds_y grid_ds)) ->
                (polygons_at covering_layer p <= 1)%nat) ->
     (model_total_mass_balance_masked covering_record
      == Qsum (map (delta_at lithk_delta)
                   (filter (fun ip =>
                              (0 <? polygons_at covering_layer (snd ip))%nat)
                           (indexed_points
                              (grid_points (ds_x grid_ds) (ds_y grid_ds))))))%Q).
Proof.
  apply (process_model_data_masked_total grid_ds covering_layer imbie_2001
           date_2000 date_2001 (2000 # 1) (2001 # 1) rho_unit "GIS"
           [(2001 # 1, covering_record)]).
  - vm_compute. reflexivity.
  - left. reflexivity.
Defined.

(** C2, as stated, fails. With two basins that overlap on the grid point
    (1, 1), whose delta is 8, the per-cell deltas are 1, 4, 2, 8, the
    unmasked total is 15 and the masked total is 23: the point counts in
    both basins, and no choice of grid points, each taken at most once, has
    that total. *)
Lemma masked_total_overlap_counterexample :
  process_model_data grid_ds overlap_layer imbie_2001 date_2000 date_2001
                     (2000 # 1) (2001 # 1) rho_unit "GIS"
  = Ok [(2001 # 1, overlap_record)] /\
  step_deltas grid_ds (2000 # 1) rho_unit (2001 # 1) = Ok grid_deltas /\
  map Qred grid_deltas = [1 # 1; 4 # 1; 2 # 1; 8 # 1] /\
  model_total_mass_balance_unmasked overlap_record = Qsum grid_deltas /\
  Qred (model_total_mass_balance_unmasked overlap_record) = 15 # 1 /\
  Qred (model_total_mass_balance_masked overlap_record) = 23 # 1 /\
  model_total_mass_balance_masked overlap_record
  = series_sum (basin_mass_change_sums overlap_record) /\
  ~ sum_of_grid_subset grid_deltas
      (model_total_mass_balance_masked overlap_record) /\
  ~ sum_of_strict_grid_subset grid_deltas
      (model_total_mass_balance_masked overlap_record).
Proof.
  assert (Hno : ~ sum_of_grid_subset grid_deltas
                    (model_total_mass_balance_masked overlap_record)).
  { intros [mask [Hlen Heq]].
    destruct mask as [|b1 [|b2 [|b3 [|b4 [|b5 mask]]]]];
      try discriminate Hlen.
    destruct b1, b2, b3, b4; vm_compute in Heq; discriminate Heq. }
  repeat split; try (vm_compute; reflexivity); try exact Hno.
  intros [mask [Hlen [_ Heq]]]. apply Hno. exists mask. split; assumption.
Qed.

(** With one basin over the whole grid the masked total is the unmasked
    total, and it is not the sum over a strict subset of the grid points:
    the points that count need not be fewer than the grid. *)
Example masked_total_covering_basin :
  process_model_data grid_ds covering_layer imbie_2001 date_2000 date_2001
                     (2000 # 1) (2001 # 1) rho_unit "GIS"
  = Ok [(2001 # 1, covering_record)] /\
  model_total_mass_balance_masked covering_record
  = model_total_mass_balance_unmasked covering_record /\
  ~ sum_of_strict_grid_subset grid_deltas
      (model_total_mass_balance_masked covering_record).
Proof.
  split; [vm_compute; reflexivity|]. split; [vm_compute; reflexivity|].
  intros [mask [Hlen [Hfalse Heq]]].
  destruct mask as [|b1 [|b2 [|b3 [|b4 [|b5 mask]]]]];
    try discriminate Hlen.
  destruct b1, b2, b3, b4;
    try (vm_compute in Heq; discriminate Heq).
  simpl in Hfalse. intuition discriminate.
Qed.

(** ** The regional residuals *)

Lemma col_index_In (c : string) (cols : list string) :
  In c cols -> exists i, col_index c cols = Some i.
Proof.
  induction cols as [|c' cols IH]; simpl; [intros []|].
  intros H. destruct (c ==? c') eqn:E; [eauto|].
  destruct H as [H|H].
  - subst c'. rewrite String.eqb_refl in E. discriminate.
  - destruct (IH H) as [i Hi]. rewrite Hi. simpl. eauto.
Qed.

Lemma row_column_ok (has_rows : bool) (df : DataFrame) (c : string) :
  (has_rows = false \/ In c (columns df)) ->
  exists i, row_column has_rows df c = Ok i.
Proof.
  unfold row_column, column_pos.
  destruct has_rows; simpl.
  - intros [H|H]; [discriminate|].
    destruct (col_index_In _ _ H) as [i Hi]. rewrite Hi. simpl. eauto.
  - eauto.
Qed.

(** C7. For the Antarctic ice sheet, a result of [process_IMBIE] has the
    regional summary exactly when all three regional files are given and
    exist, and its flag is 'YES' exactly then and 'NO' otherwise; with one
    of the three files absent the function does return (for a series that
    has its two columns), with no regional entry for any date and the flag
    'NO'. *)
Theorem process_IMBIE_regional_all_or_nothing
    (fs : FileSystem) (obs_filename : string)
    (start_date_fract end_date_fract : Q) (basin_result : BasinResult)
    (IMBIE_sum : DataFrame) (mass_balance_column : string)
    (obs_east obs_west obs_peninsula : option string) :
  (forall results : Results,
     process_IMBIE fs obs_filename start_date_fract end_date_fract "AIS"
       basin_result IMBIE_sum mass_balance_column
       obs_east obs_west obs_peninsula = Ok results ->
     (Regional_Mass_Change_Summary results <> None <->
      all_three_available fs obs_east obs_west obs_peninsula = true) /\
     (regional_entries results <> [] ->
      all_three_available fs obs_east obs_west obs_peninsula = true) /\
     (print_regionalresult_check results = "YES" <->
      all_three_available fs obs_east obs_west obs_peninsula = true) /\
     (print_regionalresult_check results = "NO" <->
      all_three_available fs obs_east obs_west obs_peninsula = false)) /\
  (all_three_available fs obs_east obs_west obs_peninsula = false ->
   (rows IMBIE_sum = [] \/
    (In "Year" (columns IMBIE_sum) /\
     In "IMBIE_Mass_Change" (columns IMBIE_sum))) ->
   exists results : Results,
     process_IMBIE fs obs_filename start_date_fract end_date_fract "AIS"
       basin_result IMBIE_sum mass_balance_column
       obs_east obs_west obs_peninsula = Ok results /\
     Regional_Mass_Change_Summary results = None /\
     regional_entries results = [] /\
     print_regionalresult_check results = "NO").
Proof.
  unfold all_three_available. split.
  - intros results H. unfold process_IMBIE in H.
    bind_inv_as H iy Hiy. bind_inv_as H im Him.
    change ("AIS" ==? "AIS") with true in H. cbn [andb] in H.
    destruct (file_given_and_exists fs obs_east
              && file_given_and_exists fs obs_west
              && file_given_and_exists fs obs_peninsula).
    + bind_inv_as H east Heast. bind_inv_as H west Hwest.
      bind_inv_as H peninsula Hpen.
      bind_inv_as H iy' Hiy'. bind_inv_as H ime Hime.
      bind_inv_as H imw Himw. bind_inv_as H imp Himp.
      bind_inv_as H regional Hreg.
      injection H as <-. unfold regional_entries. simpl.
      repeat split; intros; try reflexivity; try discriminate.
    + injection H as <-. unfold regional_entries. simpl.
      repeat split; intros; try reflexivity; try discriminate;
        try congruence.
  - intros Hnot Hcols. unfold process_IMBIE.
    destruct (row_column_ok (negb (is_nil (rows IMBIE_sum))) IMBIE_sum "Year")
      as [iy Hiy].
    { destruct Hcols as [->|[H _]]; [left; reflexivity | right; exact H]. }
    destruct (row_column_ok (negb (is_nil (rows IMBIE_sum))) IMBIE_sum
                            "IMBIE_Mass_Change") as [im Him].
    { destruct Hcols as [->|[_ H]]; [left; reflexivity | right; exact H]. }
    rewrite Hiy. cbn [bind]. rewrite Him. cbn [bind].
    rewrite Hnot, andb_false_r.
    eexists. split; [reflexivity|].
    unfold regional_entries. simpl. repeat split.
Qed.

Lemma process_IMBIE_regional_all_or_nothing_witness :
  exists results : Results,
    process_IMBIE regional_fs_no_peninsula "obs.csv" (2000 # 1) (2002 # 1)
      "AIS" ais_basin_result ais_imbie_sum "mass"
      (Some "east.csv") (Some "west.csv") (Some "peninsula.csv")
    = Ok results /\
    Regional_Mass_Change_Summary results = None /\
    regional_entries results = [] /\
    print_regionalresult_check results = "NO".
Proof.
  apply (process_IMBIE_regional_all_or_nothing
           regional_fs_no_peninsula "obs.csv" (2000 # 1) (2002 # 1)
           ais_basin_result ais_imbie_sum "mass"
           (Some "east.csv") (Some "west.csv") (Some "peninsula.csv")).
  - reflexivity.
  - right. simpl. auto.
Defined.

(** With the three files present the regional entries are there, one per
    date, with the residual of each region. *)
Example process_IMBIE_three_files :
  exists results : Results,
    process_IMBIE regional_fs "obs.csv" (2000 # 1) (2002 # 1)
      "AIS" ais_basin_result ais_imbie_sum "mass"
      (Some "east.csv") (Some "west.csv") (Some "peninsula.csv")
    = Ok results /\
    print_regionalresult_check results = "YES" /\
    map fst (regional_entries results) = [2001 # 1; 2002 # 1] /\
    map (fun e => dict_get String.eqb "Delta_MassChange_East" (snd e))
        (regional_entries results)
    = [Some (-10 - 1)%Q; Some (-30 - 2)%Q].
Proof.
  eexists. split; [vm_compute; reflexivity|].
  split; [reflexivity|]. split; vm_compute; reflexivity.
Qed.

(** ** More on the binning: one pass of the loop *)

Lemma np_min_lower (a : list Q) (m : Q) :
  Mascons.np_min a = Ok m -> forall x, In x a -> (m <= x)%Q.
Proof.
  destruct a as [|x0 r]; simpl; [discriminate|].
  intros H. injection H as <-.
  assert (G : forall (l : list Q) (s : Q),
            (fold_left (fun m v => if Qlt_bool v m then v else m) l s <= s)%Q /\
            forall x, In x l ->
              (fold_left (fun m v => if Qlt_bool v m then v else m) l s <= x)%Q).
  { induction l as [|y l IH]; intros s; simpl.
    - split; [apply Qle_refl | intros x []].
    - destruct (Qlt_bool y s) eqn:E.
      + destruct (IH y) as [H1 H2]. apply Qlt_bool_iff in E.
        split; [eapply Qle_trans; [exact H1 | apply Qlt_le_weak; exact E]|].
        intros x [<-|Hx]; auto.
      + destruct (IH s) as [H1 H2]. apply Qlt_bool_false_iff in E.
        split; [exact H1|].
        intros x [<-|Hx]; [eapply Qle_trans; eauto | auto]. }
  destruct (G r x0) as [H1 H2].
  intros x [<-|Hx]; auto.
Qed.

Lemma np_max_upper (a : list Q) (m : Q) :
  Mascons.np_max a = Ok m -> forall x, In x a -> (x <= m)%Q.
Proof.
  destruct a as [|x0 r]; simpl; [discriminate|].
  intros H. injection H as <-.
  assert (G : forall (l : list Q) (s : Q),
            (s <= fold_left (fun m v => if Qlt_bool m v then v else m) l s)%Q /\
            forall x, In x l ->
              (x <= fold_left (fun m v => if Qlt_bool m v then v else m) l s)%Q).
  { induction l as [|y l IH]; intros s; simpl.
    - split; [apply Qle_refl | intros x []].
    - destruct (Qlt_bool s y) eqn:E.
      + destruct (IH y) as [H1 H2]. apply Qlt_bool_iff in E.
        split; [eapply Qle_trans; [apply Qlt_le_weak; exact E | exact H1]|].
        intros x [<-|Hx]; auto.
      + destruct (IH s) as [H1 H2]. apply Qlt_bool_false_iff in E.
        split; [exact H1|].
        intros x [<-|Hx]; [eapply Qle_trans; eauto | auto]. }
  destruct (G r x0) as [H1 H2].
  intros x [<-|Hx]; auto.
Qed.

Lemma mask_select_map_filter {A} (p : A -> bool) (l : list A) :
  mask_select (map p l) l = filter p l.
Proof.
  induction l as [|a l IH]; simpl; [reflexivity|].
  destruct (p a); rewrite IH; reflexivity.
Qed.

Lemma count_true_filtered {A} (p : A -> bool) (l : list A) :
  count_true (map p (filter p l)) = List.length (filter p l).
Proof.
  unfold count_true. induction l as [|a l IH]; simpl; [reflexivity|].
  destruct (p a) eqn:E; simpl; [rewrite E; simpl; rewrite IH|]; auto.
Qed.

Lemma filter_filter_same {A} (p : A -> bool) (l : list A) :
  filter p (filter p l) = filter p l.
Proof.
  induction l as [|a l IH]; simpl; [reflexivity|].
  destruct (p a) eqn:E; simpl; [rewrite E, IH|]; auto.
Qed.

Lemma nanmean_of_numbers (l : list fl) :
  filter (fun v => negb (isnan v)) l <> [] ->
  Mascons.nanmean (filter (fun v => negb (isnan v)) l)
  = plain_mean (filter (fun v => negb (isnan v)) l).
Proof.
  intros Hne. unfold Mascons.nanmean, plain_mean.
  rewrite filter_filter_same.
  destruct (filter (fun v => negb (isnan v)) l) as [|v m] eqn:E;
    [congruence|].
  cbn [map List.length]. rewrite !length_map. reflexivity.
Qed.

(** No sample of an empty box: every test of the box fails. *)
Lemma box_samples_none (min_lat max_lat min_lon max_lon : Q)
    (lats lons : list Q) (values : list fl) :
  (forall lat lon, In lat lats -> In lon lons ->
     Mascons.in_box min_lat max_lat min_lon max_lon lat lon = false) ->
  box_samples min_lat max_lat min_lon max_lon lats lons values = [].
Proof.
  intros H. unfold box_samples.
  rewrite mask_select_all_false; [reflexivity|].
  intros b Hb. unfold map2 in Hb. apply in_map_iff in Hb.
  destruct Hb as [[lat lon] [<- Hin]]. simpl.
  apply H; [eapply in_combine_l | eapply in_combine_r]; exact Hin.
Qed.

(** The pass of the loop, case by case. *)
Lemma mascon_mean_cases (min_lat max_lat min_lon max_lon : Q)
    (lats lons : list Q) (values : list fl) :
  lats <> [] -> lons <> [] ->
  Mascons.mascon_mean min_lat max_lat min_lon max_lon lats lons values
  = Ok (match box_samples min_lat max_lat min_lon max_lon lats lons values with
        | [] => None
        | v :: m => Some (plain_mean (v :: m))
        end).
Proof.
  intros Hlats Hlons. unfold Mascons.mascon_mean.
  destruct (Mascons.np_min lats) as [lat_lo|] eqn:Elatlo;
    [|destruct lats; [congruence | discriminate]].
  destruct (Mascons.np_max lats) as [lat_hi|] eqn:Elathi;
    [|destruct lats; [congruence | discriminate]].
  destruct (Mascons.np_min lons) as [lon_lo|] eqn:Elonlo;
    [|destruct lons; [congruence | discriminate]].
  destruct (Mascons.np_max lons) as [lon_hi|] eqn:Elonhi;
    [|destruct lons; [congruence | discriminate]].
  pose proof (np_min_lower _ _ Elatlo) as Hlatlo.
  pose proof (np_max_upper _ _ Elathi) as Hlathi.
  pose proof (np_min_lower _ _ Elonlo) as Hlonlo.
  pose proof (np_max_upper _ _ Elonhi) as Hlonhi.
  cbn [bind].
  destruct (Qlt_bool max_lat lat_lo) eqn:E1.
  { rewrite box_samples_none; [reflexivity|].
    intros lat lon Hlat Hlon. apply Qlt_bool_iff in E1.
    unfold Mascons.in_box.
    assert (E : Qlt_bool lat max_lat = false).
    { apply Qlt_bool_false_iff. apply Qlt_le_weak.
      eapply Qlt_le_trans; [exact E1 | auto]. }
    rewrite E, andb_false_r. reflexivity. }
  destruct (Qlt_bool lat_hi min_lat) eqn:E2.
  { rewrite box_samples_none; [reflexivity|].
    intros lat lon Hlat Hlon. apply Qlt_bool_iff in E2.
    unfold Mascons.in_box.
    assert (E : Qle_bool min_lat lat = false).
    { destruct (Qle_bool min_lat lat) eqn:E'; [|reflexivity].
      apply Qle_bool_iff in E'. exfalso.
      apply (Qlt_not_le _ _ E2). eapply Qle_trans; [exact E' | auto]. }
    rewrite E. reflexivity. }
  destruct (Qlt_bool max_lon lon_lo) eqn:E3.
  { rewrite box_samples_none; [reflexivity|].
    intros lat lon Hlat Hlon. apply Qlt_bool_iff in E3.
    unfold Mascons.in_box.
    assert (E : Qlt_bool lon max_lon = false).
    { apply Qlt_bool_false_iff. apply Qlt_le_weak.
      eapply Qlt_le_trans; [exact E3 | auto]. }
    rewrite E, andb_false_r. reflexivity. }
  destruct (Qlt_bool lon_hi min_lon) eqn:E4.
  { rewrite box_samples_none; [reflexivity|].
    intros lat lon Hlat Hlon. apply Qlt_bool_iff in E4.
    unfold Mascons.in_box.
    assert (E : Qle_bool min_lon lon = false).
    { destruct (Qle_bool min_lon lon) eqn:E'; [|reflexivity].
      apply Qle_bool_iff in E'. exfalso.
      apply (Qlt_not_le _ _ E4). eapply Qle_trans; [exact E' | auto]. }
    rewrite E, andb_false_r. reflexivity. }
  rewrite !mask_select_map_filter.
  rewrite count_true_filtered.
  fold (box_samples min_lat max_lat min_lon max_lon lats lons values).
  destruct (box_samples min_lat max_lat min_lon max_lon lats lons values)
    as [|v m] eqn:Em; [reflexivity|].
  cbn [List.length Nat.eqb].
  unfold box_samples in Em. rewrite <- Em.
  rewrite nanmean_of_numbers by (rewrite Em; discriminate).
  reflexivity.
Qed.

(** X1. One pass of the loop of [points_to_mascons], for samples that are
    not empty: the four range tests before the membership test only save
    work.  The pass skips the mascon exactly when no sample with a number
    as value lies in its box, and otherwise stores the plain, unweighted mean
    of those samples. *)
Theorem mascon_mean_is_box_mean (min_lat max_lat min_lon max_lon : Q)
    (lats lons : list Q) (values : list fl) :
  lats <> [] -> lons <> [] ->
  Mascons.mascon_mean min_lat max_lat min_lon max_lon lats lons values
  = Ok (match box_samples min_lat max_lat min_lon max_lon lats lons values with
        | [] => None
        | v :: m => Some (plain_mean (v :: m))
        end).
Proof.
  intros Hlats Hlons.
  destruct (box_samples min_lat max_lat min_lon max_lon lats lons values)
    as [|v m] eqn:E;
    rewrite (mascon_mean_cases _ _ _ _ lats lons values Hlats Hlons), E;
    reflexivity.
Qed.

Lemma mascon_mean_is_box_mean_witness :
  Mascons.mascon_mean (19 # 1) (21 # 1) (19 # 1) (21 # 1)
    [20 # 1; 41 # 2; 5 # 1] [20 # 1; 20 # 1; 5 # 1]
    [F (4 # 1); NaN; F (9 # 1)]
  = Ok (match box_samples (19 # 1) (21 # 1) (19 # 1) (21 # 1)
                [20 # 1; 41 # 2; 5 # 1] [20 # 1; 20 # 1; 5 # 1]
                [F (4 # 1); NaN; F (9 # 1)] with
        | [] => None
        | v :: m => Some (plain_mean (v :: m))
        end).
Proof.
  apply (mascon_mean_is_box_mean (19 # 1) (21 # 1) (19 # 1) (21 # 1)
           [20 # 1; 41 # 2; 5 # 1] [20 # 1; 20 # 1; 5 # 1]
           [F (4 # 1); NaN; F (9 # 1)]); discriminate.
Defined.

(** ** More on the binning: the whole result *)

Lemma mascon_loop_length
    (min_lats max_lats min_lons max_lons lats lons : list Q)
    (values : list fl) (indices : list nat) (j : nat) (acc out : list fl) :
  Mascons.mascon_loop min_lats max_lats min_lons max_lons lats lons values
                      indices j acc = Ok out ->
  List.length out = List.length acc.
Proof.
  revert j acc. induction indices as [|i rest IH]; intros j acc H.
  - simpl in H. injection H as <-. reflexivity.
  - simpl in H. bind_inv_as H r Hr. destruct r as [v|].
    + rewrite (IH _ _ H). apply list_set_length.
    + exact (IH _ _ H).
Qed.

(** X2. [points_to_mascons] raises [IndexError] when the mask has not one
    entry per mascon, and whenever it returns, the result has one entry per
    selected mascon. *)
Theorem points_to_mascons_shape (mascons : Mascons.GSFCmascons)
    (I_ : list bool) (lats lons : list Q) (values : list fl) :
  (List.length I_ <> Mascons.N_mascons mascons ->
   Mascons.points_to_mascons mascons I_ lats lons values = Raise IndexError) /\
  (forall out : list fl,
     Mascons.points_to_mascons mascons I_ lats lons values = Ok out ->
     List.length I_ = Mascons.N_mascons mascons /\
     List.length out = count_true I_).
Proof.
  unfold Mascons.points_to_mascons. split.
  - intros Hne. apply Nat.eqb_neq in Hne. rewrite Hne. reflexivity.
  - intros out H.
    destruct (List.length I_ =? Mascons.N_mascons mascons)%nat eqn:E;
      [|discriminate].
    apply Nat.eqb_eq in E. split; [exact E|].
    cbn [negb] in H. apply mascon_loop_length in H.
    rewrite H. apply repeat_length.
Qed.

Lemma points_to_mascons_shape_witness :
  Mascons.points_to_mascons (Mascons.init two_cell_h5 "pm180") [true]
    [20 # 1] [20 # 1] [F (4 # 1)] = Raise IndexError.
Proof.
  apply (points_to_mascons_shape (Mascons.init two_cell_h5 "pm180") [true]
           [20 # 1] [20 # 1] [F (4 # 1)]).
  simpl. discriminate.
Defined.

Lemma mapM_all_some {A B} (f : A -> result (option B)) (g : A -> B)
    (l : list A) :
  (forall a, In a l -> f a = Ok (Some (g a))) ->
  mapM f l = Ok (map (fun a => Some (g a)) l).
Proof.
  induction l as [|a l IH]; intros H; simpl; [reflexivity|].
  rewrite (H a (or_introl eq_refl)). simpl.
  rewrite IH by (intros a' Ha'; apply H; right; exact Ha'). reflexivity.
Qed.

Lemma keep_some_map_some {A B} (g : A -> B) (l : list A) :
  keep_some (map (fun a => Some (g a)) l) = map g l.
Proof. induction l as [|a l IH]; simpl; [|rewrite IH]; reflexivity. Qed.

(** X3. When every selected mascon has a sample with a number as value in
    its box, [points_to_mascons] returns, in the order of the selected
    mascons, the plain mean of the samples of each: the result the docstring
    describes. *)
Theorem points_to_mascons_all_sampled (mascons : Mascons.GSFCmascons)
    (I_ : list bool) (lats lons : list Q) (values : list fl) :
  List.length I_ = Mascons.N_mascons mascons ->
  lats <> [] -> lons <> [] ->
  (forall i, In i (mask_select I_ (seq 0 (Mascons.N_mascons mascons))) ->
     mascon_samples mascons lats lons values i <> []) ->
  Mascons.points_to_mascons mascons I_ lats lons values
  = Ok (map (fun i => plain_mean (mascon_samples mascons lats lons values i))
            (mask_select I_ (seq 0 (Mascons.N_mascons mascons)))) /\
  documented_mscn_mean mascons I_ lats lons values
  = Mascons.points_to_mascons mascons I_ lats lons values.
Proof.
  intros Hlen Hlats Hlons Hall.
  set (indices := mask_select I_ (seq 0 (Mascons.N_mascons mascons))) in *.
  assert (Hpass :
    mapM (mascon_pass mascons lats lons values) indices
    = Ok (map (fun i => Some (plain_mean
                                (mascon_samples mascons lats lons values i)))
              indices)).
  { apply mapM_all_some. intros i Hi. unfold mascon_pass.
    rewrite (mascon_mean_cases _ _ _ _ lats lons values Hlats Hlons).
    specialize (Hall i Hi). unfold mascon_samples in *.
    destruct (box_samples _ _ _ _ lats lons values); [congruence|reflexivity]. }
  assert (Hcode :
    Mascons.points_to_mascons mascons I_ lats lons values
    = Ok (map (fun i => plain_mean (mascon_samples mascons lats lons values i))
              indices)).
  { rewrite (points_to_mascons_packed mascons I_ lats lons values _ Hlen Hpass).
    rewrite keep_some_map_some, length_map.
    unfold indices at 2.
    rewrite mask_select_length by (rewrite length_seq; exact Hlen).
    rewrite Nat.sub_diag. simpl. rewrite app_nil_r. reflexivity. }
  split; [exact Hcode|].
  rewrite Hcode. unfold documented_mscn_mean. fold indices.
  rewrite Hpass. cbn [bind]. rewrite map_map. reflexivity.
Qed.

Lemma points_to_mascons_all_sampled_witness :
  Mascons.points_to_mascons (Mascons.init two_cell_h5 "pm180") [false; true]
    [20 # 1; 41 # 2] [20 # 1; 20 # 1] [F (4 # 1); F (6 # 1)]
  = Ok (map (fun i => plain_mean
                        (mascon_samples (Mascons.init two_cell_h5 "pm180")
                           [20 # 1; 41 # 2] [20 # 1; 20 # 1]
                           [F (4 # 1); F (6 # 1)] i))
            (mask_select [false; true] (seq 0 2))).
Proof.
  apply (points_to_mascons_all_sampled (Mascons.init two_cell_h5 "pm180")
           [false; true] [20 # 1; 41 # 2] [20 # 1; 20 # 1]
           [F (4 # 1); F (6 # 1)]).
  - reflexivity.
  - discriminate.
  - discriminate.
  - intros i [<-|[]]. vm_compute. discriminate.
Defined.

Lemma points_to_mascons_no_sample_witness :
  Mascons.points_to_mascons (Mascons.init two_cell_h5 "pm180") [true; true]
    [50 # 1; 10 # 1] [50 # 1; 30 # 1] [F (4 # 1); F (6 # 1)]
  = Ok (repeat NaN (count_true [true; true])).
Proof.
  apply (points_to_mascons_no_sample (Mascons.init two_cell_h5 "pm180")
           [true; true] [50 # 1; 10 # 1] [50 # 1; 30 # 1]
           [F (4 # 1); F (6 # 1)]).
  - reflexivity.
  - discriminate.
  - discriminate.
  - intros i lat lon Hi Hp.
    destruct Hi as [<-|[<-|[]]];
      destruct Hp as [Hp|[Hp|[]]]; injection Hp as <- <-;
      vm_compute; reflexivity.
Defined.

(** X6. With no sample at all and at least one mascon selected,
    [points_to_mascons] raises [ValueError] (the minimum of an empty
    array). *)
Theorem points_to_mascons_no_points (mascons : Mascons.GSFCmascons)
    (I_ : list bool) (lons : list Q) (values : list fl) :
  List.length I_ = Mascons.N_mascons mascons ->
  (0 < count_true I_)%nat ->
  Mascons.points_to_mascons mascons I_ [] lons values = Raise ValueError.
Proof.
  intros Hlen Hsel. unfold Mascons.points_to_mascons.
  rewrite Hlen, Nat.eqb_refl. cbn [negb].
  assert (Hidx : List.length (mask_select I_ (seq 0 (Mascons.N_mascons mascons)))
                 = count_true I_)
    by (apply mask_select_length; rewrite length_seq; exact Hlen).
  destruct (mask_select I_ (seq 0 (Mascons.N_mascons mascons))) as [|i rest];
    [simpl in Hidx; lia|].
  reflexivity.
Qed.

Lemma points_to_mascons_no_points_witness :
  Mascons.points_to_mascons (Mascons.init two_cell_h5 "pm180") [false; true]
    [] [] [] = Raise ValueError.
Proof.
  apply (points_to_mascons_no_points (Mascons.init two_cell_h5 "pm180")
           [false; true] [] []).
  - reflexivity.
  - unfold count_true. simpl. lia.
Defined.

(** ** The box the binning uses *)

Lemma only_mascon_select (i s n : nat) :
  mask_select (map (Nat.eqb i) (seq s n)) (seq s n)
  = if (s <=? i)%nat && (i <? s + n)%nat then [i] else [].
Proof.
  revert s. induction n as [|n IH]; intros s.
  - simpl. replace (s + 0)%nat with s by lia.
    destruct (Nat.leb_spec s i), (Nat.ltb_spec i s); try reflexivity; lia.
  - cbn [seq map mask_select]. rewrite IH.
    destruct (Nat.eqb_spec i s) as [->|Hne].
    + replace (S s <=? s)%nat with false
        by (symmetry; apply Nat.leb_gt; lia).
      rewrite Nat.leb_refl.
      replace (s <? s + S n)%nat with true
        by (symmetry; apply Nat.ltb_lt; lia).
      reflexivity.
    + destruct (Nat.leb_spec (S s) i), (Nat.ltb_spec i (S s + n)),
               (Nat.leb_spec s i), (Nat.ltb_spec i (s + S n));
        try reflexivity; lia.
Qed.

Lemma nth_half_below (c s : list Q) (i : nat) :
  (i < List.length c)%nat -> (i < List.length s)%nat ->
  nth i (Mascons.half_below c s) 0%Q = (nth i c 0 - nth i s 0 / 2)%Q.
Proof.
  intros Hc Hs. unfold Mascons.half_below.
  rewrite (nth_map2 Qminus c _ i 0%Q 0%Q 0%Q) by (rewrite ?length_map; lia).
  rewrite (nth_map_lt _ s i 0%Q 0%Q Hs). reflexivity.
Qed.

Lemma nth_half_above (c s : list Q) (i : nat) :
  (i < List.length c)%nat -> (i < List.length s)%nat ->
  nth i (Mascons.half_above c s) 0%Q = (nth i c 0 + nth i s 0 / 2)%Q.
Proof.
  intros Hc Hs. unfold Mascons.half_above.
  rewrite (nth_map2 Qplus c _ i 0%Q 0%Q 0%Q) by (rewrite ?length_map; lia).
  rewrite (nth_map_lt _ s i 0%Q 0%Q Hs). reflexivity.
Qed.

(** Selected alone, a mascon gets the mean of the samples of the box around
    its center. *)
Lemma points_to_mascons_only (mascons : Mascons.GSFCmascons) (i : nat)
    (lats lons : list Q) (values : list fl) :
  (i < Mascons.N_mascons mascons)%nat ->
  (i < List.length (Mascons.lat_centers mascons))%nat ->
  (i < List.length (Mascons.lat_spans mascons))%nat ->
  (i < List.length (Mascons.lon_centers mascons))%nat ->
  (i < List.length (Mascons.lon_spans mascons))%nat ->
  lats <> [] -> lons <> [] ->
  Mascons.points_to_mascons mascons
    (only_mascon i (Mascons.N_mascons mascons)) lats lons values
  = Ok [raw_box_mean mascons lats lons values i].
Proof.
  intros Hn Hc Hs Hlc Hls Hlats Hlons.
  assert (Hsel : mask_select (only_mascon i (Mascons.N_mascons mascons))
                             (seq 0 (Mascons.N_mascons mascons)) = [i]).
  { unfold only_mascon. rewrite only_mascon_select. simpl.
    replace (i <? Mascons.N_mascons mascons)%nat with true
      by (symmetry; apply Nat.ltb_lt; exact Hn).
    reflexivity. }
  assert (Hlen : List.length (only_mascon i (Mascons.N_mascons mascons))
                 = Mascons.N_mascons mascons)
    by (unfold only_mascon; rewrite length_map, length_seq; reflexivity).
  assert (Hcount : count_true (only_mascon i (Mascons.N_mascons mascons))
                   = 1%nat).
  { rewrite <- (mask_select_length _ (seq 0 (Mascons.N_mascons mascons)))
      by (rewrite length_seq; exact Hlen).
    rewrite Hsel. reflexivity. }
  rewrite (points_to_mascons_packed mascons _ lats lons values
             [match mascon_samples mascons lats lons values i with
              | [] => None
              | v :: m => Some (plain_mean (v :: m))
              end] Hlen).
  - rewrite Hcount. unfold raw_box_mean, mascon_samples. cbv zeta.
    rewrite !nth_half_below, !nth_half_above by assumption.
    destruct (box_samples _ _ _ _ lats lons values); reflexivity.
  - rewrite Hsel. cbn [mapM]. unfold mascon_pass.
    rewrite (mascon_mean_cases _ _ _ _ lats lons values Hlats Hlons).
    reflexivity.
Qed.

Lemma in_box_lat (a b lo hi lat lon : Q) :
  Qle_bool lo lon && Qlt_bool lon hi = true ->
  Mascons.in_box a b lo hi lat lon = Qle_bool a lat && Qlt_bool lat b.
Proof.
  unfold Mascons.in_box. intros H. apply andb_true_iff in H.
  destruct H as [-> ->].
  destruct (Qle_bool a lat), (Qlt_bool lat b); reflexivity.
Qed.

Lemma lat_test_iff (a b lat : Q) :
  Qle_bool a lat && Qlt_bool lat b = true <-> (a <= lat /\ lat < b)%Q.
Proof.
  rewrite andb_true_iff, Qle_bool_iff, Qlt_bool_iff. reflexivity.
Qed.

Lemma bool_differ (x y : bool) (P R : Prop) :
  (x = true <-> P) -> (y = true <-> R) ->
  (P /\ ~ R) \/ (~ P /\ R) -> x <> y.
Proof.
  intros Hx Hy [[HP HR]|[HP HR]] E; subst y; tauto.
Qed.

(** A box that reaches beyond a pole and its clamped box do not hold the
    same latitudes. *)
Lemma clamped_box_differs (raw_min raw_max : Q) :
  (raw_min < -90 \/ 90 < raw_max)%Q ->
  exists lat : Q,
    Qle_bool raw_min lat && Qlt_bool lat raw_max
    <> Qle_bool (fst (clamped_bounds raw_min raw_max)) lat
       && Qlt_bool lat (snd (clamped_bounds raw_min raw_max)).
Proof.
  intros Hraw. unfold clamped_bounds.
  destruct (Qlt_bool raw_min (-90)) eqn:Elow.
  - apply Qlt_bool_iff in Elow.
    replace (Qlt_bool 90 (-179 # 2)) with false by reflexivity.
    cbn [fst snd].
    destruct (Qlt_le_dec raw_min raw_max) as [Hne|Hempty].
    + exists raw_min.
      apply (bool_differ _ _ _ _ (lat_test_iff _ _ _) (lat_test_iff _ _ _)).
      left. split; [split; [apply Qle_refl | exact Hne]|].
      intros [H _]. apply (Qlt_not_le _ _ Elow H).
    + exists (-90)%Q.
      apply (bool_differ _ _ _ _ (lat_test_iff _ _ _) (lat_test_iff _ _ _)).
      right. split.
      * intros [_ H].
        apply (Qlt_irrefl (-90)).
        eapply Qlt_le_trans; [exact H|].
        eapply Qle_trans; [exact Hempty | apply Qlt_le_weak; exact Elow].
      * split; [apply Qle_refl | reflexivity].
  - apply Qlt_bool_false_iff in Elow.
    destruct Hraw as [Hlow|Hhigh];
      [exfalso; apply (Qlt_not_le _ _ Hlow Elow)|].
    assert (E : Qlt_bool 90 raw_max = true)
      by (apply Qlt_bool_iff; exact Hhigh).
    rewrite E. cbn [fst snd].
    destruct (Qlt_le_dec 90 raw_min) as [Habove|Hbelow].
    + exists (179 # 2)%Q.
      apply (bool_differ _ _ _ _ (lat_test_iff _ _ _) (lat_test_iff _ _ _)).
      right. split.
      * intros [H _].
        apply (Qlt_irrefl 90).
        eapply Qlt_le_trans; [exact Habove|].
        eapply Qle_trans; [exact H | discriminate].
      * split; [apply Qle_refl | reflexivity].
    + exists 90%Q.
      apply (bool_differ _ _ _ _ (lat_test_iff _ _ _) (lat_test_iff _ _ _)).
      left. split; [split; [exact Hbelow | exact Hhigh]|].
      intros [_ H]. apply (Qlt_irrefl _ H).
Qed.

(** C10. [points_to_mascons] tests membership against the bounds it
    recomputes as center minus and plus half the span: whatever latitude
    bounds the object stores, its result is the same, and the entry of a
    mascon selected alone is the mean of the samples of the box from its
    center minus half its span to its center plus half its span.  For every
    mascon whose raw latitude bounds reach below -90 or above 90 that
    recomputed box is not the clamped box [min_lats], [max_lats] the object
    stores: the bounds differ, and there is a latitude on which the
    membership test of the two boxes differs for every longitude inside the
    mascon. *)
Theorem points_to_mascons_box_differs_from_clamped
    (f : Mascons.H5File) (lon_wrap : string) (i : nat) :
  let m := Mascons.init f lon_wrap in
  let raw_min :=
    nth i (Mascons.half_below (Mascons.lat_centers m) (Mascons.lat_spans m))
        0%Q in
  let raw_max :=
    nth i (Mascons.half_above (Mascons.lat_centers m) (Mascons.lat_spans m))
        0%Q in
  (i < List.length (Mascons.h5_lat_center f))%nat ->
  (i < List.length (Mascons.h5_lat_span f))%nat ->
  (raw_min < -90 \/ 90 < raw_max)%Q ->
  (forall (mn mx : list Q) (I_ : list bool) (lats lons : list Q)
          (values : list fl),
     Mascons.points_to_mascons (stored_lat_bounds m mn mx) I_ lats lons values
     = Mascons.points_to_mascons m I_ lats lons values) /\
  ~ (nth i (Mascons.min_lats m) 0 == raw_min
     /\ nth i (Mascons.max_lats m) 0 == raw_max)%Q /\
  (raw_min == nth i (Mascons.lat_centers m) 0
              - nth i (Mascons.lat_spans m) 0 / 2)%Q /\
  (raw_max == nth i (Mascons.lat_centers m) 0
              + nth i (Mascons.lat_spans m) 0 / 2)%Q /\
  (forall (lats lons : list Q) (values : list fl),
     (i < List.length (Mascons.lon_centers m))%nat ->
     (i < List.length (Mascons.lon_spans m))%nat ->
     lats <> [] -> lons <> [] ->
     Mascons.points_to_mascons m (only_mascon i (Mascons.N_mascons m))
                               lats lons values
     = Ok [raw_box_mean m lats lons values i]) /\
  (exists lat : Q,
     forall min_lon max_lon lon : Q,
       Qle_bool min_lon lon && Qlt_bool lon max_lon = true ->
       Mascons.in_box raw_min raw_max min_lon max_lon lat lon
       <> Mascons.in_box (nth i (Mascons.min_lats m) 0%Q)
                         (nth i (Mascons.max_lats m) 0%Q)
                         min_lon max_lon lat lon).
Proof.
  intros m raw_min raw_max Hc Hs Hraw.
  split; [intros; reflexivity|].
  assert (Hbox := init_lat_box f lon_wrap i Hc Hs).
  cbv zeta in Hbox. fold m in Hbox. fold raw_min raw_max in Hbox.
  pose proof (f_equal fst Hbox) as Hmin.
  pose proof (f_equal snd Hbox) as Hmax.
  cbn [fst snd] in Hmin, Hmax.
  split; [|split; [|split; [|split]]].
  - rewrite Hmin, Hmax. clear Hbox Hmin Hmax.
    unfold clamped_bounds. cbn [fst snd].
    destruct (Qlt_bool raw_min (-90)) eqn:Elow.
    + apply Qlt_bool_iff in Elow.
      replace (Qlt_bool 90 (-179 # 2)) with false by reflexivity.
      intros [Hmin _]. rewrite Hmin in Elow. apply (Qlt_irrefl _ Elow).
    + apply Qlt_bool_false_iff in Elow.
      destruct Hraw as [Hlow|Hhigh].
      * exfalso. apply (Qlt_not_le _ _ Hlow Elow).
      * assert (E : Qlt_bool 90 raw_max = true)
          by (apply Qlt_bool_iff; exact Hhigh).
        rewrite E. intros [_ Hmax]. rewrite <- Hmax in Hhigh.
        apply (Qlt_irrefl _ Hhigh).
  - unfold raw_min. rewrite nth_half_below by assumption. reflexivity.
  - unfold raw_max. rewrite nth_half_above by assumption. reflexivity.
  - intros lats lons values Hlc Hls Hlats Hlons.
    apply points_to_mascons_only; assumption.
  - destruct (clamped_box_differs raw_min raw_max Hraw) as [lat Hlat].
    exists lat. intros min_lon max_lon lon Hlon.
    rewrite !(in_box_lat _ _ _ _ _ _ Hlon), Hmin, Hmax. exact Hlat.
Qed.

(** On the polar mascon a sample at latitude -89.4 lies in the recomputed
    box and outside the stored one, and it is binned. *)
Example polar_sample_binned :
  let m := Mascons.init polar_h5 "pm180" in
  Mascons.points_to_mascons m [true] [-447 # 5] [0 # 1] [F (7 # 1)]
  = Ok [F (7 # 1)] /\
  Mascons.in_box
    (nth 0 (Mascons.min_lats m) 0%Q) (nth 0 (Mascons.max_lats m) 0%Q)
    (nth 0 (Mascons.min_lons m) 0%Q) (nth 0 (Mascons.max_lons m) 0%Q)
    (-447 # 5) (0 # 1) = false.
Proof. split; vm_compute; reflexivity. Qed.

Lemma points_to_mascons_box_differs_from_clamped_witness :
  Mascons.points_to_mascons (Mascons.init polar_h5 "pm180")
    (only_mascon 0 1) [-447 # 5] [0 # 1] [F (7 # 1)]
  = Ok [raw_box_mean (Mascons.init polar_h5 "pm180")
          [-447 # 5] [0 # 1] [F (7 # 1)] 0].
Proof.
  refine (proj1 (proj2 (proj2 (proj2 (proj2
            (points_to_mascons_box_differs_from_clamped polar_h5 "pm180" 0
               _ _ _)))))
            [-447 # 5] [0 # 1] [F (7 # 1)] _ _ _ _).
  - simpl. lia.
  - simpl. lia.
  - left. vm_compute. reflexivity.
  - simpl. lia.
  - simpl. lia.
  - discriminate.
  - discriminate.
Defined.

(** ** The constructed object *)

(** X7. The stored latitude box of every mascon lies between -90 and 90,
    and a raw box that already does is stored unchanged. *)
Theorem init_lat_bounds_in_range (f : Mascons.H5File) (lon_wrap : string)
    (i : nat) :
  (i < List.length (Mascons.h5_lat_center f))%nat ->
  (i < List.length (Mascons.h5_lat_span f))%nat ->
  let m := Mascons.init f lon_wrap in
  let raw_min :=
    nth i (Mascons.half_below (Mascons.h5_lat_center f)
                              (Mascons.h5_lat_span f)) 0%Q in
  let raw_max :=
    nth i (Mascons.half_above (Mascons.h5_lat_center f)
                              (Mascons.h5_lat_span f)) 0%Q in
  (-90 <= nth i (Mascons.min_lats m) 0)%Q /\
  (nth i (Mascons.max_lats m) 0 <= 90)%Q /\
  ((-90 <= raw_min)%Q -> (raw_max <= 90)%Q ->
   nth i (Mascons.min_lats m) 0%Q = raw_min /\
   nth i (Mascons.max_lats m) 0%Q = raw_max).
Proof.
  intros Hc Hs m raw_min raw_max.
  assert (Hbox := init_lat_box f lon_wrap i Hc Hs).
  cbv zeta in Hbox. fold m in Hbox.
  change (Mascons.lat_centers m) with (Mascons.h5_lat_center f) in Hbox.
  change (Mascons.lat_spans m) with (Mascons.h5_lat_span f) in Hbox.
  fold raw_min raw_max in Hbox.
  pose proof (f_equal fst Hbox) as Hmin.
  pose proof (f_equal snd Hbox) as Hmax.
  cbn [fst snd] in Hmin, Hmax.
  rewrite Hmin, Hmax. clear Hbox Hmin Hmax.
  unfold clamped_bounds. cbn [fst snd].
  destruct (Qlt_bool raw_min (-90)) eqn:Elow.
  - replace (Qlt_bool 90 (-179 # 2)) with false by reflexivity.
    apply Qlt_bool_iff in Elow.
    split; [apply Qle_refl|]. split; [discriminate|].
    intros Hmin _. exfalso. apply (Qlt_not_le _ _ Elow Hmin).
  - apply Qlt_bool_false_iff in Elow.
    destruct (Qlt_bool 90 raw_max) eqn:Ehigh.
    + apply Qlt_bool_iff in Ehigh.
      split; [discriminate|]. split; [apply Qle_refl|].
      intros _ Hmax. exfalso. apply (Qlt_not_le _ _ Ehigh Hmax).
    + apply Qlt_bool_false_iff in Ehigh.
      split; [exact Elow|]. split; [exact Ehigh|].
      intros _ _. split; reflexivity.
Qed.

Lemma init_lat_bounds_in_range_witness :
  (-90 <= nth 0 (Mascons.min_lats (Mascons.init polar_h5 "pm180")) 0)%Q /\
  (nth 0 (Mascons.max_lats (Mascons.init polar_h5 "pm180")) 0 <= 90)%Q.
Proof.
  destruct (init_lat_bounds_in_range polar_h5 "pm180" 0) as [H1 [H2 _]].
  - simpl. lia.
  - simpl. lia.
  - split; assumption.
Defined.

Lemma Forall_map_iff {A B} (P : B -> Prop) (f : A -> B) (l : list A) :
  Forall P (map f l) <-> Forall (fun a => P (f a)) l.
Proof.
  induction l as [|a l IH]; simpl; split; intros H;
    try constructor; inversion H; subst; auto; apply IH; auto.
Qed.

(** X8. The longitude convention of the constructed object.  With 'pm180',
    centers given in 0..360 come out in (-180, 180]; with '0to360', centers
    given in -180..180 come out in [0, 360); a center is moved by a whole
    turn or not at all; any other name leaves the centers as they are; and
    the stored longitude bounds are the wrapped center minus and plus half
    the span. *)
Theorem init_lon_convention (f : Mascons.H5File) :
  (Forall (fun c => 0 <= c /\ c <= 360)%Q (Mascons.h5_lon_center f) ->
   Forall (fun c => -180 < c /\ c <= 180)%Q
          (Mascons.lon_centers (Mascons.init f "pm180"))) /\
  (Forall (fun c => -180 <= c /\ c <= 180)%Q (Mascons.h5_lon_center f) ->
   Forall (fun c => 0 <= c /\ c < 360)%Q
          (Mascons.lon_centers (Mascons.init f "0to360"))) /\
  (forall lon_wrap i,
     (i < List.length (Mascons.h5_lon_center f))%nat ->
     let c := nth i (Mascons.h5_lon_center f) 0%Q in
     let c' := nth i (Mascons.lon_centers (Mascons.init f lon_wrap)) 0%Q in
     c' = c \/ c' = (c - 360)%Q \/ c' = (c + 360)%Q) /\
  (forall lon_wrap,
     lon_wrap <> "pm180" -> lon_wrap <> "0to360" ->
     Mascons.lon_centers (Mascons.init f lon_wrap) = Mascons.h5_lon_center f) /\
  (forall lon_wrap,
     let m := Mascons.init f lon_wrap in
     Mascons.min_lons m
     = Mascons.half_below (Mascons.lon_centers m) (Mascons.lon_spans m) /\
     Mascons.max_lons m
     = Mascons.half_above (Mascons.lon_centers m) (Mascons.lon_spans m)).
Proof.
  split; [|split; [|split; [|split]]].
  - intros H. cbn [Mascons.init Mascons.lon_centers].
    unfold Mascons.reset_lon_bounds. cbn [String.eqb Ascii.eqb Bool.eqb].
    apply Forall_map_iff. eapply Forall_impl; [|exact H].
    intros c [H0 H360]. cbv beta.
    destruct (Qlt_bool 180 c) eqn:E.
    + apply Qlt_bool_iff in E. split; lra.
    + apply Qlt_bool_false_iff in E. split; lra.
  - intros H. cbn [Mascons.init Mascons.lon_centers].
    unfold Mascons.reset_lon_bounds. cbn [String.eqb Ascii.eqb Bool.eqb].
    apply Forall_map_iff. eapply Forall_impl; [|exact H].
    intros c [Hlo Hhi]. cbv beta.
    destruct (Qlt_bool c 0) eqn:E.
    + apply Qlt_bool_iff in E. split; lra.
    + apply Qlt_bool_false_iff in E. split; lra.
  - intros lon_wrap i Hi. cbn [Mascons.init Mascons.lon_centers].
    unfold Mascons.reset_lon_bounds.
    destruct (lon_wrap ==? "pm180").
    + rewrite (nth_map_lt _ _ i 0%Q 0%Q Hi).
      destruct (Qlt_bool 180 _); auto.
    + destruct (lon_wrap ==? "0to360").
      * rewrite (nth_map_lt _ _ i 0%Q 0%Q Hi).
        destruct (Qlt_bool _ 0); auto.
      * auto.
  - intros lon_wrap H1 H2. cbn [Mascons.init Mascons.lon_centers].
    unfold Mascons.reset_lon_bounds.
    apply str_eqb_false in H1. apply str_eqb_false in H2.
    rewrite H1, H2. reflexivity.
  - intros lon_wrap. split; reflexivity.
Qed.

Lemma init_lon_convention_witness :
  Forall (fun c => -180 < c /\ c <= 180)%Q
         (Mascons.lon_centers (Mascons.init two_cell_h5 "pm180")).
Proof.
  apply (init_lon_convention two_cell_h5).
  repeat constructor; vm_compute; discriminate.
Defined.

(** X9. In the dataset [as_dataset] builds, the variable 'lat_spans' holds
    the longitude spans: the key is written twice in the dict display and
    the second value stays.  There is no variable 'lon_spans', and the
    dataset is the same whatever the latitude spans of the object are. *)
Theorem as_dataset_lat_spans (self : Mascons.GSFCmascons)
    (ds : Mascons.XrDataset) :
  Mascons.as_dataset self = Ok ds ->
  dict_get String.eqb "lat_spans" (Mascons.data_vars ds)
  = Some (Mascons.Var1 "label" (Mascons.lon_spans self)) /\
  dict_get String.eqb "lon_spans" (Mascons.data_vars ds) = None /\
  map fst (Mascons.data_vars ds)
  = ["cmwe"; "lat_centers"; "lat_spans"; "lon_centers"; "areas"; "basins";
     "locations"; "lats_max"; "lats_min"; "lons_max"; "lons_min";
     "times_start"; "times_end"; "days_start"; "days_middle"; "days_end"] /\
  forall spans : list Q,
    Mascons.as_dataset (with_lat_spans self spans) = Ok ds.
Proof.
  intros H.
  assert (Hsame : forall spans,
            Mascons.as_dataset (with_lat_spans self spans)
            = Mascons.as_dataset self) by (intros; reflexivity).
  assert (Hlast : forall spans : list Q,
            Mascons.as_dataset (with_lat_spans self spans) = Ok ds)
    by (intros spans; rewrite Hsame; exact H).
  unfold Mascons.as_dataset, Mascons.xr_Dataset in H.
  destruct (Mascons.sizes_agree _); [|discriminate].
  injection H as <-.
  split; [reflexivity|]. split; [reflexivity|]. split; [reflexivity|].
  exact Hlast.
Qed.

Lemma as_dataset_lat_spans_witness :
  dict_get String.eqb "lat_spans" (Mascons.data_vars two_cell_dataset)
  = Some (Mascons.Var1 "label"
            (Mascons.lon_spans (Mascons.init two_cell_h5 "pm180"))).
Proof.
  apply (as_dataset_lat_spans (Mascons.init two_cell_h5 "pm180")
           two_cell_dataset).
  vm_compute. reflexivity.
Defined.

(** ** More on day numbers and the mascon delta *)

(** X10. [YYYY_MM_DD_to_days_since_Jan_0_2002] counts days: the date
    2001-12-31 is day 0, and the day after a date has the next number. *)
Theorem days_since_Jan_0_2002_counts_days :
  Mascons.date2num_days_since_2001_12_31 (Mascons.mkcivil 2001 12 31) = 0 /\
  Mascons.YYYY_MM_DD_to_days_since_Jan_0_2002 "2001-12-31" = Ok 0 /\
  (forall d : Mascons.civil,
     Mascons.valid_civil d = true ->
     Mascons.date2num_days_since_2001_12_31 (next_day d)
     = Mascons.date2num_days_since_2001_12_31 d + 1) /\
  (forall (date_str : string) (d : Mascons.civil),
     Mascons.strptime date_str = Ok d ->
     Mascons.valid_civil d = true /\
     Mascons.YYYY_MM_DD_to_days_since_Jan_0_2002 date_str
     = Ok (Mascons.date2num_days_since_2001_12_31 d)).
Proof.
  split; [reflexivity|]. split; [reflexivity|]. split.
  - intros d Hd. unfold Mascons.date2num_days_since_2001_12_31.
    rewrite (toordinal_next_day d Hd). lia.
  - intros date_str d H. split.
    + unfold Mascons.strptime in H.
      destruct (Mascons.split_dash date_str) as [|py [|pm [|pd [|x l]]]];
        try discriminate.
      destruct (Mascons.parse_Y py), (Mascons.parse_m pm), (Mascons.parse_d pd);
        try discriminate.
      destruct (Mascons.valid_civil _) eqn:E; [|discriminate].
      injection H as <-. exact E.
    + unfold Mascons.YYYY_MM_DD_to_days_since_Jan_0_2002. rewrite H.
      reflexivity.
Qed.

Lemma days_since_Jan_0_2002_counts_days_witness :
  Mascons.date2num_days_since_2001_12_31 (next_day (Mascons.mkcivil 2004 2 28))
  = Mascons.date2num_days_since_2001_12_31 (Mascons.mkcivil 2004 2 28) + 1.
Proof.
  apply (days_since_Jan_0_2002_counts_days). reflexivity.
Defined.

Lemma Qlt_bool_Qeq_r (x t t' : Q) :
  (t == t')%Q -> Qlt_bool x t = Qlt_bool x t'.
Proof.
  intros H.
  destruct (Qlt_bool x t) eqn:E, (Qlt_bool x t') eqn:E'; try reflexivity.
  - apply Qlt_bool_iff in E. apply Qlt_bool_false_iff in E'.
    rewrite H in E. exfalso. apply (Qlt_not_le _ _ E E').
  - apply Qlt_bool_iff in E'. apply Qlt_bool_false_iff in E.
    rewrite H in E. exfalso. apply (Qlt_not_le _ _ E' E).
Qed.

Lemma searchsorted_Qeq (xs : list Q) (t t' : Q) :
  (t == t')%Q -> searchsorted xs t = searchsorted xs t'.
Proof.
  intros H. induction xs as [|x xs IH]; simpl; [reflexivity|].
  rewrite (Qlt_bool_Qeq_r x t t' H), IH. reflexivity.
Qed.

(** The interpolation does not tell equal rationals apart. *)
Lemma interp1d_extrapolate_Qeq (xs ys : list Q) (t t' : Q) :
  (t == t')%Q ->
  (Mascons.interp1d_extrapolate xs ys t
   == Mascons.interp1d_extrapolate xs ys t')%Q.
Proof.
  intros H. unfold Mascons.interp1d_extrapolate, segment_hi.
  rewrite (searchsorted_Qeq xs t t' H). rewrite H. reflexivity.
Qed.

(** At a knot the interpolation returns the value of the knot. *)
Lemma interp1d_extrapolate_at_knot (xs ys : list Q) (k : nat) (t : Q) :
  strictly_increasing xs = true ->
  List.length ys = List.length xs ->
  (2 <= List.length xs)%nat ->
  (k < List.length xs)%nat ->
  (t == nth k xs 0)%Q ->
  (Mascons.interp1d_extrapolate xs ys t == nth k ys 0)%Q.
Proof.
  intros Hinc Hlen Hn Hk Ht.
  rewrite (interp1d_extrapolate_Qeq xs ys t _ Ht).
  rewrite interp1d_extrapolate_linear by assumption.
  apply linear_interpolation_at_knot; assumption.
Qed.

(** X11. Deltas compose.  For three dates inside the record range of a
    well-shaped solution, the delta from the first to the third is, mascon
    by mascon, the delta from the first to the second plus the delta from
    the second to the third; and the delta from a date to an earlier one is
    the negated delta the other way round. *)
Theorem calc_mascon_delta_cmwe_composes
    (mascon : Mascons.GSFCmascons) (a b c : string) (I_ : list bool)
    (t_a t_b t_c : Z) (first_start last_end : Q) :
  Mascons.YYYY_MM_DD_to_days_since_Jan_0_2002 a = Ok t_a ->
  Mascons.YYYY_MM_DD_to_days_since_Jan_0_2002 b = Ok t_b ->
  Mascons.YYYY_MM_DD_to_days_since_Jan_0_2002 c = Ok t_c ->
  nth_error (Mascons.days_start mascon) 0 = Some first_start ->
  nth_error (rev (Mascons.days_end mascon)) 0 = Some last_end ->
  (first_start <= inject_Z t_a <= last_end)%Q ->
  (first_start <= inject_Z t_b <= last_end)%Q ->
  (first_start <= inject_Z t_c <= last_end)%Q ->
  List.length I_ = List.length (Mascons.cmwe mascon) ->
  Forall (fun row => List.length row = List.length (Mascons.days_middle mascon))
         (Mascons.cmwe mascon) ->
  (2 <= List.length (Mascons.days_middle mascon))%nat ->
  exists d_ab d_bc d_ac d_ba : list Q,
    Mascons.calc_mascon_delta_cmwe mascon a b I_ = Ok (Some (map F d_ab)) /\
    Mascons.calc_mascon_delta_cmwe mascon b c I_ = Ok (Some (map F d_bc)) /\
    Mascons.calc_mascon_delta_cmwe mascon a c I_ = Ok (Some (map F d_ac)) /\
    Mascons.calc_mascon_delta_cmwe mascon b a I_ = Ok (Some (map F d_ba)) /\
    forall k : nat,
      (nth k d_ac 0 == nth k d_ab 0 + nth k d_bc 0)%Q /\
      (nth k d_ba 0 == - nth k d_ab 0)%Q.
Proof.
  intros Ha Hb Hc Hfirst Hlast [Ha1 Ha2] [Hb1 Hb2] [Hc1 Hc2] Hlen Hrows Hn.
  do 4 eexists.
  split; [apply (calc_mascon_delta_cmwe_in_range mascon a b I_ t_a t_b
                   first_start last_end); assumption|].
  split; [apply (calc_mascon_delta_cmwe_in_range mascon b c I_ t_b t_c
                   first_start last_end); assumption|].
  split; [apply (calc_mascon_delta_cmwe_in_range mascon a c I_ t_a t_c
                   first_start last_end); assumption|].
  split; [apply (calc_mascon_delta_cmwe_in_range mascon b a I_ t_b t_a
                   first_start last_end); assumption|].
  intros k. rewrite !map2_sub_map.
  destruct (Nat.lt_ge_cases k
              (List.length (mask_select I_ (Mascons.cmwe mascon))))
    as [Hk|Hk].
  - rewrite !(nth_map_lt _ _ k [] 0%Q) by exact Hk. split; ring.
  - rewrite !nth_overflow by (rewrite length_map; exact Hk). split; ring.
Qed.

Lemma calc_mascon_delta_cmwe_composes_witness :
  exists d_ab d_bc d_ac d_ba : list Q,
    Mascons.calc_mascon_delta_cmwe (Mascons.init two_cell_h5 "pm180")
      "2002-01-05" "2002-02-10" [true; true] = Ok (Some (map F d_ab)) /\
    Mascons.calc_mascon_delta_cmwe (Mascons.init two_cell_h5 "pm180")
      "2002-02-10" "2002-03-20" [true; true] = Ok (Some (map F d_bc)) /\
    Mascons.calc_mascon_delta_cmwe (Mascons.init two_cell_h5 "pm180")
      "2002-01-05" "2002-03-20" [true; true] = Ok (Some (map F d_ac)) /\
    Mascons.calc_mascon_delta_cmwe (Mascons.init two_cell_h5 "pm180")
      "2002-02-10" "2002-01-05" [true; true] = Ok (Some (map F d_ba)) /\
    forall k : nat,
      (nth k d_ac 0 == nth k d_ab 0 + nth k d_bc 0)%Q /\
      (nth k d_ba 0 == - nth k d_ab 0)%Q.
Proof.
  apply (calc_mascon_delta_cmwe_composes
           (Mascons.init two_cell_h5 "pm180")
           "2002-01-05" "2002-02-10" "2002-03-20" [true; true]
           5 41 79 (1 # 1) (90 # 1)).
  - reflexivity.
  - reflexivity.
  - reflexivity.
  - reflexivity.
  - reflexivity.
  - split; vm_compute; discriminate.
  - split; vm_compute; discriminate.
  - split; vm_compute; discriminate.
  - reflexivity.
  - simpl. repeat constructor.
  - simpl. lia.
Defined.

(** X12. Between two dates that fall on middle days of the record,
    [calc_mascon_delta_cmwe] returns the difference of the recorded values:
    for the selected row [r] and the middle days [i] and [j], the entry is
    the value of the row at [j] minus its value at [i]. *)
Theorem calc_mascon_delta_cmwe_at_records
    (mascon : Mascons.GSFCmascons) (start_date end_date : string)
    (I_ : list bool) (t_0 t_1 : Z) (first_start last_end : Q) (i j : nat) :
  Mascons.YYYY_MM_DD_to_days_since_Jan_0_2002 start_date = Ok t_0 ->
  Mascons.YYYY_MM_DD_to_days_since_Jan_0_2002 end_date = Ok t_1 ->
  nth_error (Mascons.days_start mascon) 0 = Some first_start ->
  nth_error (rev (Mascons.days_end mascon)) 0 = Some last_end ->
  (first_start <= inject_Z t_0)%Q ->
  (inject_Z t_1 <= last_end)%Q ->
  List.length I_ = List.length (Mascons.cmwe mascon) ->
  Forall (fun row => List.length row = List.length (Mascons.days_middle mascon))
         (Mascons.cmwe mascon) ->
  (2 <= List.length (Mascons.days_middle mascon))%nat ->
  strictly_increasing (Mascons.days_middle mascon) = true ->
  (i < List.length (Mascons.days_middle mascon))%nat ->
  (j < List.length (Mascons.days_middle mascon))%nat ->
  (inject_Z t_0 == nth i (Mascons.days_middle mascon) 0)%Q ->
  (inject_Z t_1 == nth j (Mascons.days_middle mascon) 0)%Q ->
  exists delta : list Q,
    Mascons.calc_mascon_delta_cmwe mascon start_date end_date I_
    = Ok (Some (map F delta)) /\
    List.length delta = count_true I_ /\
    forall r : nat,
      (r < count_true I_)%nat ->
      (nth r delta 0
       == nth j (nth r (mask_select I_ (Mascons.cmwe mascon)) []) 0
          - nth i (nth r (mask_select I_ (Mascons.cmwe mascon)) []) 0)%Q.
Proof.
  intros Ht0 Ht1 Hfirst Hlast Hlo Hhi Hlen Hrows Hn Hinc Hi Hj Hti Htj.
  eexists. split.
  - apply (calc_mascon_delta_cmwe_in_range mascon start_date end_date I_
             t_0 t_1 first_start last_end); assumption.
  - rewrite map2_sub_map.
    assert (Hsel : List.length (mask_select I_ (Mascons.cmwe mascon))
                   = count_true I_) by (apply mask_select_length; exact Hlen).
    split; [rewrite length_map; exact Hsel|].
    intros r Hr.
    rewrite (nth_map_lt _ _ r [] 0%Q) by lia.
    set (row := nth r (mask_select I_ (Mascons.cmwe mascon)) []).
    assert (Hrow : List.length row = List.length (Mascons.days_middle mascon)).
    { assert (Hin : In row (mask_select I_ (Mascons.cmwe mascon)))
        by (apply nth_In; lia).
      rewrite Forall_forall in Hrows. apply Hrows.
      eapply mask_select_In; exact Hin. }
    rewrite (interp1d_extrapolate_at_knot _ row j _ Hinc Hrow Hn Hj Htj).
    rewrite (interp1d_extrapolate_at_knot _ row i _ Hinc Hrow Hn Hi Hti).
    reflexivity.
Qed.

Lemma calc_mascon_delta_cmwe_at_records_witness :
  exists delta : list Q,
    Mascons.calc_mascon_delta_cmwe (Mascons.init two_cell_h5 "pm180")
      "2002-01-16" "2002-03-16" [true; true] = Ok (Some (map F delta)) /\
    List.length delta = count_true [true; true] /\
    forall r : nat,
      (r < count_true [true; true])%nat ->
      (nth r delta 0
       == nth 2 (nth r (mask_select [true; true]
                          (Mascons.cmwe (Mascons.init two_cell_h5 "pm180")))
                       []) 0
          - nth 0 (nth r (mask_select [true; true]
                            (Mascons.cmwe (Mascons.init two_cell_h5 "pm180")))
                         []) 0)%Q.
Proof.
  apply (calc_mascon_delta_cmwe_at_records
           (Mascons.init two_cell_h5 "pm180") "2002-01-16" "2002-03-16"
           [true; true] 16 75 (1 # 1) (90 # 1) 0 2).
  - reflexivity.
  - reflexivity.
  - reflexivity.
  - reflexivity.
  - vm_compute. discriminate.
  - vm_compute. discriminate.
  - reflexivity.
  - simpl. repeat constructor.
  - simpl. lia.
  - reflexivity.
  - simpl. lia.
  - simpl. lia.
  - vm_compute. reflexivity.
  - vm_compute. reflexivity.
Defined.

(** ** More on the observation series *)

Lemma col_index_None (c : string) (cols : list string) :
  ~ In c cols -> col_index c cols = None.
Proof.
  induction cols as [|c' cols IH]; simpl; [reflexivity|].
  intros H. destruct (c ==? c') eqn:E.
  - apply str_eqb_true in E. subst. exfalso. apply H. left. reflexivity.
  - rewrite IH by (intros Hin; apply H; right; exact Hin). reflexivity.
Qed.

Lemma str_in_iff (s : string) (l : list string) :
  str_in s l = true <-> In s l.
Proof.
  unfold str_in. rewrite existsb_exists. split.
  - intros [x [Hx E]]. apply str_eqb_true in E. subst. exact Hx.
  - intros H. exists s. split; [exact H | apply String.eqb_refl].
Qed.

Lemma sort_insert_In (i : nat) (r x : list Q) (l : list (list Q)) :
  In x (sort_insert i r l) <-> x = r \/ In x l.
Proof.
  induction l as [|r' l IH]; simpl.
  - intuition.
  - destruct (Qlt_bool (cell i r) (cell i r')); simpl.
    + intuition.
    + rewrite IH. intuition.
Qed.

Lemma sort_values_In (i : nat) (rs : list (list Q)) (x : list Q) :
  In x (sort_values i rs) <-> In x rs.
Proof.
  unfold sort_values.
  assert (G : forall acc,
            In x (fold_left (fun acc r => sort_insert i r acc) rs acc)
            <-> In x rs \/ In x acc).
  { induction rs as [|r rs IH]; intros acc; simpl.
    - intuition.
    - rewrite IH, sort_insert_In. intuition. }
  rewrite G. simpl. intuition.
Qed.

Lemma sort_insert_filter_length (p : list Q -> bool) (i : nat) (r : list Q)
    (l : list (list Q)) :
  List.length (filter p (sort_insert i r l))
  = List.length (filter p (r :: l)).
Proof.
  induction l as [|r' l IH]; [reflexivity|].
  cbn [sort_insert]. destruct (Qlt_bool (cell i r) (cell i r')).
  - reflexivity.
  - cbn [filter] in *. destruct (p r'), (p r); cbn [List.length] in *; lia.
Qed.

Lemma sort_values_filter_length (p : list Q -> bool) (i : nat)
    (rs : list (list Q)) :
  List.length (filter p (sort_values i rs)) = List.length (filter p rs).
Proof.
  unfold sort_values.
  assert (G : forall acc,
            List.length
              (filter p (fold_left (fun acc r => sort_insert i r acc) rs acc))
            = (List.length (filter p rs) + List.length (filter p acc))%nat).
  { induction rs as [|r rs IH]; intros acc; [reflexivity|].
    cbn [fold_left]. rewrite IH, sort_insert_filter_length.
    cbn [filter]. destruct (p r); cbn [List.length]; lia. }
  rewrite G. simpl. lia.
Qed.

Lemma sort_insert_sorted (i : nat) (r : list Q) (l : list (list Q)) :
  StronglySorted Qle (map (cell i) l) ->
  StronglySorted Qle (map (cell i) (sort_insert i r l)).
Proof.
  induction l as [|r' l IH]; intros Hs.
  - simpl. constructor; constructor.
  - cbn [sort_insert]. inversion Hs as [|k ks Hs' Hall]; subst.
    destruct (Qlt_bool (cell i r) (cell i r')) eqn:E.
    + apply Qlt_bool_iff in E. cbn [map]. constructor; [exact Hs|].
      constructor; [apply Qlt_le_weak; exact E|].
      eapply Forall_impl; [|exact Hall].
      intros y Hy. eapply Qle_trans; [apply Qlt_le_weak; exact E | exact Hy].
    + apply Qlt_bool_false_iff in E. cbn [map]. constructor; [auto|].
      apply Forall_forall. intros y Hy. apply in_map_iff in Hy.
      destruct Hy as [x [<- Hx]]. apply sort_insert_In in Hx.
      destruct Hx as [->|Hx]; [exact E|].
      rewrite Forall_forall in Hall. apply Hall. apply in_map. exact Hx.
Qed.

Lemma sort_values_sorted (i : nat) (rs : list (list Q)) :
  StronglySorted Qle (map (cell i) (sort_values i rs)).
Proof.
  unfold sort_values.
  assert (G : forall acc,
            StronglySorted Qle (map (cell i) acc) ->
            StronglySorted Qle
              (map (cell i)
                   (fold_left (fun acc r => sort_insert i r acc) rs acc))).
  { induction rs as [|r rs IH]; intros acc Hacc; [exact Hacc|].
    cbn [fold_left]. apply IH. apply sort_insert_sorted. exact Hacc. }
  apply G. constructor.
Qed.

Lemma filter_sorted (i : nat) (p : list Q -> bool) (l : list (list Q)) :
  StronglySorted Qle (map (cell i) l) ->
  StronglySorted Qle (map (cell i) (filter p l)).
Proof.
  induction l as [|r l IH]; intros Hs; [constructor|].
  inversion Hs as [|k ks Hs' Hall]; subst.
  cbn [filter]. destruct (p r); [|auto].
  cbn [map]. constructor; [auto|].
  apply Forall_forall. intros y Hy. apply in_map_iff in Hy.
  destruct Hy as [x [<- Hx]]. apply filter_In in Hx.
  rewrite Forall_forall in Hall. apply Hall. apply in_map. tauto.
Qed.

Lemma mass_change_loop_length (ic : nat) (p : Q) (l : list (list Q)) :
  List.length (mass_change_loop ic p l) = List.length l.
Proof. rewrite mass_change_loop_from_start. apply length_map. Qed.

Lemma col_index_lt (c : string) (cols : list string) (i : nat) :
  col_index c cols = Some i -> (i < List.length cols)%nat.
Proof.
  revert i. induction cols as [|c' cols IH]; intros i; simpl; [discriminate|].
  destruct (c ==? c').
  - intros H. injection H as <-. lia.
  - destruct (col_index c cols) as [k|]; simpl; [|discriminate].
    intros H. injection H as <-. specialize (IH k eq_refl). lia.
Qed.

Lemma col_index_app (c : string) (cols more : list string) (i : nat) :
  col_index c cols = Some i -> col_index c (cols ++ more)%list = Some i.
Proof.
  revert i. induction cols as [|c' cols IH]; intros i; simpl; [discriminate|].
  destruct (c ==? c'); [auto|].
  destruct (col_index c cols) as [k|]; simpl; [|discriminate].
  intros H. injection H as <-. rewrite (IH k eq_refl). reflexivity.
Qed.

Lemma col_index_same (a b : string) (cols : list string) (i : nat) :
  col_index a cols = Some i -> col_index b cols = Some i -> a = b.
Proof.
  revert i. induction cols as [|c' cols IH]; intros i; simpl; [discriminate|].
  destruct (a ==? c') eqn:Ea, (b ==? c') eqn:Eb.
  - apply str_eqb_true in Ea, Eb. congruence.
  - intros H1 H2. injection H1 as <-.
    destruct (col_index b cols); simpl in H2; discriminate.
  - intros H1 H2. injection H2 as <-.
    destruct (col_index a cols); simpl in H1; discriminate.
  - destruct (col_index a cols) as [k|], (col_index b cols) as [k'|];
      simpl; try discriminate.
    intros H1 H2. injection H1 as <-. injection H2 as E.
    apply (IH k); congruence.
Qed.

Lemma nth_list_set_other {A} (i j : nat) (v d : A) (l : list A) :
  i <> j -> nth j (list_set i v l) d = nth j l d.
Proof.
  revert i j. induction l as [|x l IH]; intros [|i] [|j] H; simpl; auto;
    try congruence.
Qed.

(** Giving a frame another column leaves the cells of the column 'Year'. *)
Lemma set_column_keeps_year (df : DataFrame) (c : string) (vals : list Q)
    (iy : nat) :
  col_index "Year" (columns df) = Some iy ->
  c <> "Year" ->
  Forall (fun r => List.length r = List.length (columns df)) (rows df) ->
  List.length vals = List.length (rows df) ->
  map (cell iy) (rows (set_column df c vals)) = map (cell iy) (rows df) /\
  col_index "Year" (columns (set_column df c vals)) = Some iy /\
  In c (columns (set_column df c vals)).
Proof.
  intros Hiy Hc Hrect Hlen. unfold set_column.
  pose proof (col_index_lt _ _ _ Hiy) as Hlt.
  assert (Hrows : forall (f : list Q -> Q -> list Q),
            (forall r v, In r (rows df) -> cell iy (f r v) = cell iy r) ->
            map (cell iy) (map2 f (rows df) vals) = map (cell iy) (rows df)).
  { intros f Hf. revert vals Hlen Hf.
    generalize (rows df) as rs.
    induction rs as [|r rs IH]; intros [|v vals] Hlen Hf;
      simpl in Hlen; try lia; [reflexivity|].
    unfold map2 in *. simpl. rewrite Hf by (left; reflexivity).
    f_equal. apply IH; [lia|]. intros r' v' Hr'. apply Hf. right. exact Hr'. }
  destruct (col_index c (columns df)) as [i|] eqn:Ei; cbn [rows columns].
  - split; [|split].
    + apply Hrows. intros r v Hr. unfold cell.
      apply nth_list_set_other. intros ->.
      apply Hc. apply (col_index_same _ _ _ _ Ei Hiy).
    + exact Hiy.
    + destruct (in_dec string_dec c (columns df)) as [H|H]; [exact H|].
      rewrite (col_index_None _ _ H) in Ei. discriminate.
  - split; [|split].
    + apply Hrows. intros r v Hr. unfold cell.
      rewrite Forall_forall in Hrect. specialize (Hrect r Hr).
      apply app_nth1. lia.
    + apply col_index_app. exact Hiy.
    + apply in_or_app. right. left. reflexivity.
Qed.

(** X13. When [sum_MassBalance] fails and when it returns.  A file that is
    not there is a [FileNotFoundError]; a table without the column 'Year' a
    [KeyError]; a table without the mass-balance column a [ValueError]; a
    table with no row whose year equals the start date a [ValueError]; in
    every other case the function returns a table. *)
Theorem sum_MassBalance_errors (fs : FileSystem) (obs_filename : string)
    (start_date_fract end_date_fract : Q) (mass_balance_column : string) :
  (fs obs_filename = None ->
   sum_MassBalance fs obs_filename start_date_fract end_date_fract
                   mass_balance_column = Raise FileNotFoundError) /\
  (forall df : DataFrame,
     fs obs_filename = Some df ->
     (~ In "Year" (columns df) ->
      sum_MassBalance fs obs_filename start_date_fract end_date_fract
                      mass_balance_column = Raise KeyError) /\
     (forall iy : nat,
        col_index "Year" (columns df) = Some iy ->
        (~ In mass_balance_column (columns df) ->
         sum_MassBalance fs obs_filename start_date_fract end_date_fract
                         mass_balance_column = Raise ValueError) /\
        (In mass_balance_column (columns df) ->
         (forall r, In r (rows df) -> ~ (cell iy r == start_date_fract)%Q) ->
         sum_MassBalance fs obs_filename start_date_fract end_date_fract
                         mass_balance_column = Raise ValueError) /\
        (In mass_balance_column (columns df) ->
         (exists r, In r (rows df) /\ (cell iy r == start_date_fract)%Q) ->
         exists out : DataFrame,
           sum_MassBalance fs obs_filename start_date_fract end_date_fract
                           mass_balance_column = Ok out))).
Proof.
  split.
  - intros H. unfold sum_MassBalance. rewrite H. reflexivity.
  - intros df Hdf. split.
    + intros Hno. unfold sum_MassBalance, column_pos. rewrite Hdf.
      cbn [of_option bind]. rewrite (col_index_None _ _ Hno). reflexivity.
    + intros iy Hiy.
      assert (Hstart : sum_MassBalance fs obs_filename start_date_fract
                         end_date_fract mass_balance_column
                       = if negb (str_in mass_balance_column (columns df))
                         then Raise ValueError
                         else
                           ic <- column_pos df mass_balance_column ;;
                           match filter (fun r => Qeq_bool (cell iy r)
                                                    start_date_fract)
                                        (sort_values iy (rows df)) with
                           | [] => Raise ValueError
                           | r0 :: _ =>
                               Ok (set_column
                                     (mkframe (columns df)
                                        (filter (fun r =>
                                           Qlt_bool start_date_fract (cell iy r)
                                           && Qle_bool (cell iy r)
                                                       end_date_fract)
                                           (sort_values iy (rows df))))
                                     "IMBIE_Mass_Change"
                                     (mass_change_loop ic (cell ic r0)
                                        (filter (fun r =>
                                           Qlt_bool start_date_fract (cell iy r)
                                           && Qle_bool (cell iy r)
                                                       end_date_fract)
                                           (sort_values iy (rows df)))))
                           end).
      { unfold sum_MassBalance, column_pos. rewrite Hdf.
        cbn [of_option bind]. rewrite Hiy. reflexivity. }
      split; [|split].
      * intros Hno. rewrite Hstart.
        destruct (str_in mass_balance_column (columns df)) eqn:E;
          [|reflexivity].
        apply str_in_iff in E. contradiction.
      * intros Hcol Hnone. rewrite Hstart.
        apply str_in_iff in Hcol as Hin. rewrite Hin. cbn [negb].
        destruct (col_index_In _ _ Hcol) as [ic Hic].
        unfold column_pos. rewrite Hic. cbn [of_option bind].
        destruct (filter _ (sort_values iy (rows df))) as [|r0 l] eqn:E;
          [reflexivity|].
        exfalso.
        assert (Hr0 : In r0 (filter (fun r => Qeq_bool (cell iy r)
                                                start_date_fract)
                                    (sort_values iy (rows df))))
          by (rewrite E; left; reflexivity).
        apply filter_In in Hr0. destruct Hr0 as [Hr0 Heq].
        apply sort_values_In in Hr0. apply Qeq_bool_iff in Heq.
        exact (Hnone r0 Hr0 Heq).
      * intros Hcol [r [Hr Heq]]. rewrite Hstart.
        apply str_in_iff in Hcol as Hin. rewrite Hin. cbn [negb].
        destruct (col_index_In _ _ Hcol) as [ic Hic].
        unfold column_pos. rewrite Hic. cbn [of_option bind].
        destruct (filter _ (sort_values iy (rows df))) as [|r0 l] eqn:E;
          [|eauto].
        exfalso.
        assert (Hin' : In r (filter (fun r => Qeq_bool (cell iy r)
                                                 start_date_fract)
                                    (sort_values iy (rows df)))).
        { apply filter_In. split; [apply sort_values_In; exact Hr|].
          apply Qeq_bool_iff. exact Heq. }
        rewrite E in Hin'. exact Hin'.
Qed.

Lemma sum_MassBalance_errors_witness :
  sum_MassBalance scenario_fs "obs.csv" (2000 # 1) (2002 # 1) "ice"
  = Raise ValueError /\
  sum_MassBalance scenario_fs "obs.csv" (1999 # 1) (2002 # 1) "mass"
  = Raise ValueError /\
  exists out : DataFrame,
    sum_MassBalance scenario_fs "obs.csv" (2001 # 1) (2002 # 1) "mass"
    = Ok out.
Proof.
  split; [|split].
  - destruct (proj2 (sum_MassBalance_errors scenario_fs "obs.csv" (2000 # 1)
                       (2002 # 1) "ice") scenario_csv eq_refl) as [_ H].
    destruct (H O eq_refl) as [H1 _]. apply H1.
    simpl. intros [E|[E|[]]]; discriminate E.
  - destruct (proj2 (sum_MassBalance_errors scenario_fs "obs.csv" (1999 # 1)
                       (2002 # 1) "mass") scenario_csv eq_refl) as [_ H].
    destruct (H O eq_refl) as [_ [H2 _]]. apply H2.
    + simpl. auto.
    + intros r [<-|[<-|[<-|[]]]]; vm_compute; discriminate.
  - destruct (proj2 (sum_MassBalance_errors scenario_fs "obs.csv" (2001 # 1)
                       (2002 # 1) "mass") scenario_csv eq_refl) as [_ H].
    destruct (H O eq_refl) as [_ [_ H3]]. apply H3.
    + simpl. auto.
    + exists [2001 # 1; 90 # 1]. split; [simpl; auto | reflexivity].
Defined.

(** X14. The table [sum_MassBalance] returns, for a rectangular input.  Its
    years are in ascending order; they are the years of the input rows that
    are later than the start date and not later than the end date, once for
    each such row; and the table has the column 'IMBIE_Mass_Change', with
    'Year' where it was. *)
Theorem sum_MassBalance_window (fs : FileSystem) (obs_filename : string)
    (start_date_fract end_date_fract : Q) (mass_balance_column : string)
    (df out : DataFrame) (iy : nat) :
  fs obs_filename = Some df ->
  col_index "Year" (columns df) = Some iy ->
  Forall (fun r => List.length r = List.length (columns df)) (rows df) ->
  sum_MassBalance fs obs_filename start_date_fract end_date_fract
                  mass_balance_column = Ok out ->
  StronglySorted Qle (map (cell iy) (rows out)) /\
  (forall y, In y (map (cell iy) (rows out)) ->
     (start_date_fract < y)%Q /\ (y <= end_date_fract)%Q /\
     exists r, In r (rows df) /\ cell iy r = y) /\
  (forall r, In r (rows df) ->
     (start_date_fract < cell iy r)%Q -> (cell iy r <= end_date_fract)%Q ->
     In (cell iy r) (map (cell iy) (rows out))) /\
  List.length (rows out)
  = List.length (filter (in_window iy start_date_fract end_date_fract)
                        (rows df)) /\
  col_index "Year" (columns out) = Some iy /\
  In "IMBIE_Mass_Change" (columns out).
Proof.
  intros Hdf Hiy Hrect H.
  unfold sum_MassBalance, column_pos in H. rewrite Hdf in H.
  cbn [of_option bind] in H. rewrite Hiy in H. cbn [of_option bind] in H.
  destruct (negb (str_in mass_balance_column (columns df))); [discriminate|].
  bind_inv_as H ic Hic.
  destruct (filter _ (sort_values iy (rows df))) as [|r0 l]; [discriminate|].
  injection H as <-.
  fold (in_window iy start_date_fract end_date_fract).
  set (filtered := filter (in_window iy start_date_fract end_date_fract)
                          (sort_values iy (rows df))).
  destruct (set_column_keeps_year
              (mkframe (columns df) filtered) "IMBIE_Mass_Change"
              (mass_change_loop ic (cell ic r0) filtered) iy)
    as [Hyears [Hcol Hnew]].
  - exact Hiy.
  - discriminate.
  - cbn [rows columns]. apply Forall_forall. intros r Hr.
    unfold filtered in Hr. apply filter_In in Hr. destruct Hr as [Hr _].
    apply sort_values_In in Hr. rewrite Forall_forall in Hrect. auto.
  - cbn [rows]. apply mass_change_loop_length.
  - cbn [rows] in Hyears.
    assert (Hlen : List.length
                     (rows (set_column (mkframe (columns df) filtered)
                              "IMBIE_Mass_Change"
                              (mass_change_loop ic (cell ic r0) filtered)))
                   = List.length filtered).
    { rewrite <- (length_map (cell iy)), Hyears. apply length_map. }
    rewrite Hyears.
    split; [|split; [|split; [|split; [|split]]]].
    + apply filter_sorted. apply sort_values_sorted.
    + intros y Hy. apply in_map_iff in Hy. destruct Hy as [r [<- Hr]].
      unfold filtered in Hr. apply filter_In in Hr. destruct Hr as [Hr Hw].
      apply sort_values_In in Hr. unfold in_window in Hw.
      apply andb_true_iff in Hw. destruct Hw as [H1 H2].
      apply Qlt_bool_iff in H1. apply Qle_bool_iff in H2. eauto.
    + intros r Hr H1 H2. apply in_map. unfold filtered.
      apply filter_In. split; [apply sort_values_In; exact Hr|].
      unfold in_window. apply andb_true_iff.
      split; [apply Qlt_bool_iff | apply Qle_bool_iff]; assumption.
    + rewrite Hlen. unfold filtered. apply sort_values_filter_length.
    + exact Hcol.
    + exact Hnew.
Qed.

Lemma sum_MassBalance_window_witness :
  StronglySorted Qle
    (map (cell 0) [[2001 # 1; 90 # 1; -10 # 1]; [2002 # 1; 70 # 1; -30 # 1]]).
Proof.
  exact (proj1 (sum_MassBalance_window scenario_fs "obs.csv" (2000 # 1)
                  (2002 # 1) "mass" scenario_csv
                  (mkframe ["Year"; "mass"; "IMBIE_Mass_Change"]
                           [[2001 # 1; 90 # 1; -10 # 1];
                            [2002 # 1; 70 # 1; -30 # 1]])
                  O eq_refl eq_refl
                  ltac:(repeat constructor)
                  ltac:(vm_compute; reflexivity))).
Defined.

(** ** More on the residuals *)

Lemma dict_mem_set_same {K V} (keq : K -> K -> bool) (k : K) (v : V)
    (d : list (K * V)) :
  keq k k = true -> dict_mem keq k (dict_set keq k v d) = true.
Proof.
  intros Hrefl. unfold dict_mem.
  induction d as [|[k0 v0] d IH]; simpl.
  - rewrite Hrefl. reflexivity.
  - destruct (keq k k0) eqn:E; simpl; rewrite E; [reflexivity | exact IH].
Qed.

Lemma dict_mem_set_other {K V} (keq : K -> K -> bool) (k k' : K) (v : V)
    (d : list (K * V)) :
  dict_mem keq k d = true -> dict_mem keq k (dict_set keq k' v d) = true.
Proof.
  unfold dict_mem.
  induction d as [|[k0 v0] d IH]; simpl; [discriminate|].
  destruct (keq k' k0) eqn:E'; simpl;
    destruct (keq k k0) eqn:E; auto.
Qed.

Lemma Qeq_bool_refl (q : Q) : Qeq_bool q q = true.
Proof. apply Qeq_bool_iff. reflexivity. Qed.

(** What the first loop of [process_IMBIE] leaves in the results. *)
Lemma totals_loop_entries (iy im : nat) (basin_result : BasinResult)
    (imbie_rows : list (list Q)) (acc : list (Q * DateResult)) :
  (forall date r,
     In (date, r) (totals_loop iy im basin_result imbie_rows acc) ->
     In (date, r) acc \/
     exists row rec,
       In row imbie_rows /\ (cell iy row == date)%Q /\
       dict_get date_key (cell iy row) basin_result = Some rec /\
       r = mkdateresult (cell im row)
             (cell im row - model_total_mass_balance_masked rec)
             (cell im row - model_total_mass_balance_unmasked rec)) /\
  (forall k, dict_mem date_key k acc = true ->
     dict_mem date_key k (totals_loop iy im basin_result imbie_rows acc)
     = true) /\
  (forall row,
     In row imbie_rows ->
     dict_mem date_key (cell iy row) basin_result = true ->
     dict_mem date_key (cell iy row)
              (totals_loop iy im basin_result imbie_rows acc) = true).
Proof.
  revert acc. induction imbie_rows as [|row rest IH]; intros acc.
  - simpl. split; [auto|]. split; [auto|]. intros row [].
  - cbn [totals_loop].
    destruct (dict_get date_key (cell iy row) basin_result) as [rec|] eqn:E.
    + destruct (IH (dict_set date_key (cell iy row)
                      (mkdateresult (cell im row)
                         (cell im row - model_total_mass_balance_masked rec)
                         (cell im row - model_total_mass_balance_unmasked rec))
                      acc)) as [H1 [H2 H3]].
      split; [|split].
      * intros date r Hin. destruct (H1 date r Hin) as [Hacc|Hrow].
        -- apply dict_set_In in Hacc.
           destruct Hacc as [Hacc|[-> Hk]]; [left; exact Hacc|].
           right. exists row, rec. split; [left; reflexivity|].
           split; [|split; [exact E | reflexivity]].
           destruct Hk as [->|Hk]; [reflexivity|].
           apply Qeq_bool_iff. exact Hk.
        -- right. destruct Hrow as [row' [rec' [Hin' Hrest]]].
           exists row', rec'. split; [right; exact Hin' | exact Hrest].
      * intros k Hk. apply H2. apply dict_mem_set_other. exact Hk.
      * intros row' [<-|Hin] Hmem.
        -- apply H2. apply dict_mem_set_same. apply Qeq_bool_refl.
        -- apply H3; assumption.
    + destruct (IH acc) as [H1 [H2 H3]].
      split; [|split].
      * intros date r Hin. destruct (H1 date r Hin) as [Hacc|Hrow];
          [left; exact Hacc|].
        right. destruct Hrow as [row' [rec' [Hin' Hrest]]].
        exists row', rec'. split; [right; exact Hin' | exact Hrest].
      * exact H2.
      * intros row' [<-|Hin] Hmem.
        -- unfold dict_mem in Hmem. rewrite E in Hmem. discriminate.
        -- apply H3; assumption.
Qed.

Lemma process_IMBIE_by_date (fs : FileSystem) (obs_filename : string)
    (start_date_fract end_date_fract : Q) (icesheet : string)
    (basin_result : BasinResult) (IMBIE_sum : DataFrame)
    (mass_balance_column : string)
    (obs_east obs_west obs_peninsula : option string)
    (iy im : nat) (res : Results) :
  col_index "Year" (columns IMBIE_sum) = Some iy ->
  col_index "IMBIE_Mass_Change" (columns IMBIE_sum) = Some im ->
  process_IMBIE fs obs_filename start_date_fract end_date_fract icesheet
    basin_result IMBIE_sum mass_balance_column
    obs_east obs_west obs_peninsula = Ok res ->
  by_date res = totals_loop iy im basin_result (rows IMBIE_sum) [].
Proof.
  intros Hiy Him H. unfold process_IMBIE in H.
  bind_inv_as H iy' Hiy'. bind_inv_as H im' Him'.
  assert (Hloop : totals_loop iy' im' basin_result (rows IMBIE_sum) []
                  = totals_loop iy im basin_result (rows IMBIE_sum) []).
  { unfold row_column, column_pos in Hiy', Him'.
    destruct (rows IMBIE_sum) as [|r rs]; [reflexivity|].
    cbn [is_nil negb] in Hiy', Him'.
    rewrite Hiy in Hiy'. rewrite Him in Him'.
    injection Hiy' as <-. injection Him' as <-. reflexivity. }
  rewrite Hloop in H.
  destruct ((icesheet ==? "AIS") && _).
  - repeat (apply bind_Ok_inv in H; destruct H as [? [? H]]).
    injection H as <-. reflexivity.
  - injection H as <-. reflexivity.
Qed.

(** X15. The per-date residuals of [process_IMBIE].  Every entry belongs to
    a row of the observation series whose date is a key of the model
    results, and holds the observed change of the row, that change minus the
    masked model total and that change minus the unmasked model total; every
    row whose date is a key of the model results has an entry, and a row
    whose date is not a key is skipped without failing. *)
Theorem process_IMBIE_totals (fs : FileSystem) (obs_filename : string)
    (start_date_fract end_date_fract : Q) (icesheet : string)
    (basin_result : BasinResult) (IMBIE_sum : DataFrame)
    (mass_balance_column : string)
    (obs_east obs_west obs_peninsula : option string)
    (iy im : nat) (res : Results) :
  col_index "Year" (columns IMBIE_sum) = Some iy ->
  col_index "IMBIE_Mass_Change" (columns IMBIE_sum) = Some im ->
  process_IMBIE fs obs_filename start_date_fract end_date_fract icesheet
    basin_result IMBIE_sum mass_balance_column
    obs_east obs_west obs_peninsula = Ok res ->
  (forall date r,
     In (date, r) (by_date res) ->
     exists row rec,
       In row (rows IMBIE_sum) /\ (cell iy row == date)%Q /\
       dict_get date_key (cell iy row) basin_result = Some rec /\
       IMBIE_total_mass_change_sum r = cell im row /\
       Delta_MassChange_masked r
       = (cell im row - model_total_mass_balance_masked rec)%Q /\
       Delta_MassChange_unmasked r
       = (cell im row - model_total_mass_balance_unmasked rec)%Q) /\
  (forall row,
     In row (rows IMBIE_sum) ->
     dict_mem date_key (cell iy row) basin_result = true ->
     dict_mem date_key (cell iy row) (by_date res) = true).
Proof.
  intros Hiy Him H.
  rewrite (process_IMBIE_by_date _ _ _ _ _ _ _ _ _ _ _ iy im res Hiy Him H).
  destruct (totals_loop_entries iy im basin_result (rows IMBIE_sum) [])
    as [H1 [_ H3]].
  split; [|exact H3].
  intros date r Hin. destruct (H1 date r Hin) as [[]|[row [rec Hrow]]].
  destruct Hrow as [Hin' [Heq [Hget ->]]].
  exists row, rec. cbn. auto 10.
Qed.

(** X16. For an ice sheet other than 'AIS', [process_IMBIE] never reads the
    regional files: its result is the same whatever files are named and
    whatever files exist, it has no regional summary, and its flag is
    'NO'. *)
Theorem process_IMBIE_not_AIS (fs fs' : FileSystem) (obs_filename : string)
    (start_date_fract end_date_fract : Q) (icesheet : string)
    (basin_result : BasinResult) (IMBIE_sum : DataFrame)
    (mass_balance_column : string)
    (obs_east obs_west obs_peninsula : option string)
    (obs_east' obs_west' obs_peninsula' : option string) :
  icesheet <> "AIS" ->
  process_IMBIE fs obs_filename start_date_fract end_date_fract icesheet
    basin_result IMBIE_sum mass_balance_column
    obs_east obs_west obs_peninsula
  = process_IMBIE fs' obs_filename start_date_fract end_date_fract icesheet
      basin_result IMBIE_sum mass_balance_column
      obs_east' obs_west' obs_peninsula' /\
  forall res : Results,
    process_IMBIE fs obs_filename start_date_fract end_date_fract icesheet
      basin_result IMBIE_sum mass_balance_column
      obs_east obs_west obs_peninsula = Ok res ->
    Regional_Mass_Change_Summary res = None /\
    print_regionalresult_check res = "NO".
Proof.
  intros Hice. apply str_eqb_false in Hice.
  unfold process_IMBIE. rewrite Hice. cbn [andb].
  split; [reflexivity|].
  intros res H. bind_inv_as H iy Hiy. bind_inv_as H im Him.
  injection H as <-. split; reflexivity.
Qed.

Lemma process_IMBIE_not_AIS_witness :
  process_IMBIE regional_fs "obs.csv" (2000 # 1) (2002 # 1) "GIS"
    ais_basin_result ais_imbie_sum "mass"
    (Some "east.csv") (Some "west.csv") (Some "peninsula.csv")
  = process_IMBIE (fun _ => None) "obs.csv" (2000 # 1) (2002 # 1) "GIS"
      ais_basin_result ais_imbie_sum "mass" None None None.
Proof.
  apply (process_IMBIE_not_AIS regional_fs (fun _ => None) "obs.csv"
           (2000 # 1) (2002 # 1) "GIS" ais_basin_result ais_imbie_sum "mass").
  discriminate.
Defined.

Lemma process_IMBIE_totals_witness :
  dict_mem date_key (2001 # 1) (by_date gis_results) = true.
Proof.
  exact (proj2 (process_IMBIE_totals regional_fs "obs.csv" (2000 # 1)
                  (2002 # 1) "GIS" ais_basin_result ais_imbie_sum "mass"
                  None None None 0 2 gis_results eq_refl eq_refl eq_refl)
               [2001 # 1; 90 # 1; -10 # 1]
               (or_introl eq_refl) eq_refl).
Defined.

(** ** More on the model records *)

Lemma mapM_length {A B} (f : A -> result B) (l : list A) (l' : list B) :
  mapM f l = Ok l' -> List.length l' = List.length l.
Proof.
  revert l'. induction l as [|a l IH]; intros l' H; simpl in H.
  - injection H as <-. reflexivity.
  - bind_inv_as H b Hb. bind_inv_as H bs Hbs. injection H as <-.
    simpl. rewrite (IH bs Hbs). reflexivity.
Qed.

Lemma nth_error_Some_lt {A} (l : list A) (n : nat) (x : A) :
  nth_error l n = Some x -> (n < List.length l)%nat.
Proof.
  intros H. apply nth_error_Some. rewrite H. discriminate.
Qed.

(** The steps [process_model_data] has taken when it returns. *)
Lemma process_model_data_inv (gis_ds : Dataset) (basins_gdf : GeoDataFrame)
    (IMBIE_sum : DataFrame) (start_date_cftime end_date_cftime : Cftime.datetime)
    (start_date_fract end_date_fract rho_ice : Q) (icesheet : string)
    (out : list (Q * MassChangeRecord)) :
  process_model_data gis_ds basins_gdf IMBIE_sum start_date_cftime
    end_date_cftime start_date_fract end_date_fract rho_ice icesheet = Ok out ->
  exists (times : list Q) (iy : nat) (snap0 : Snapshot),
    mapM fractional_year (ds_time gis_ds) = Ok times /\
    check_datarange (ds_time gis_ds) start_date_cftime end_date_cftime
    = Ok tt /\
    col_index "Year" (columns IMBIE_sum) = Some iy /\
    (2 <= List.length (ds_x gis_ds))%nat /\
    (2 <= List.length (ds_y gis_ds))%nat /\
    interp_time times (ds_lithk gis_ds) start_date_fract = Ok snap0 /\
    model_loop
      (model_step times gis_ds basins_gdf
         (grid_points (ds_x gis_ds) (ds_y gis_ds))
         (transpose_flatten (List.length (ds_x gis_ds)) snap0)
         (resolution (ds_x gis_ds)) (resolution (ds_y gis_ds))
         rho_ice icesheet)
      0 (map (cell iy) (rows IMBIE_sum)) None [] = Ok out.
Proof.
  intros H. unfold process_model_data in H.
  bind_inv_as H times Htimes. bind_inv_as H u Hcheck. bind_inv_as H iy Hiy.
  bind_inv_as H x1 Hx1. bind_inv_as H x0 Hx0.
  bind_inv_as H y1 Hy1. bind_inv_as H y0 Hy0.
  bind_inv_as H snap0 Hsnap0.
  repeat match goal with
         | Hx : of_option _ _ = Ok _ |- _ => apply of_option_Ok in Hx
         end.
  unfold column_pos in Hiy. apply of_option_Ok in Hiy.
  assert (Hxres : Qabs (x1 - x0) = resolution (ds_x gis_ds)).
  { unfold resolution.
    rewrite (nth_error_Some_nth _ _ x1 0%Q) by assumption.
    rewrite (nth_error_Some_nth _ _ x0 0%Q) by assumption. reflexivity. }
  assert (Hyres : Qabs (y1 - y0) = resolution (ds_y gis_ds)).
  { unfold resolution.
    rewrite (nth_error_Some_nth _ _ y1 0%Q) by assumption.
    rewrite (nth_error_Some_nth _ _ y0 0%Q) by assumption. reflexivity. }
  rewrite Hxres, Hyres in H.
  exists times, iy, snap0.
  split; [exact Htimes|]. split; [destruct u; exact Hcheck|].
  split; [exact Hiy|].
  split; [apply nth_error_Some_lt in Hx1; lia|].
  split; [apply nth_error_Some_lt in Hy1; lia|].
  split; [exact Hsnap0 | exact H].
Qed.

Lemma model_loop_keys
    (step : nat -> Q -> option JoinedFrame ->
            result (JoinedFrame * MassChangeRecord))
    (rest : list Q) (i : nat) (joined : option JoinedFrame)
    (acc out : list (Q * MassChangeRecord)) :
  model_loop step i rest joined acc = Ok out ->
  (forall k, dict_mem date_key k acc = true ->
             dict_mem date_key k out = true) /\
  (forall t, In t rest -> dict_mem date_key t out = true) /\
  (List.length out <= List.length acc + List.length rest)%nat.
Proof.
  revert i joined acc.
  induction rest as [|t rest IH]; intros i joined acc H.
  - simpl in H. injection H as <-.
    split; [auto|]. split; [intros t []|]. simpl. lia.
  - simpl in H. bind_inv_as H jr Hjr.
    destruct (IH _ _ _ H) as [H1 [H2 H3]].
    split; [|split].
    + intros k Hk. apply H1. apply dict_mem_set_other. exact Hk.
    + intros t' [<-|Hin]; [|auto].
      apply H1. apply dict_mem_set_same. apply Qeq_bool_refl.
    + assert (Hset : forall (d : list (Q * MassChangeRecord)) k v,
                (List.length (dict_set date_key k v d) <= S (List.length d))%nat).
      { induction d as [|[k0 v0] d IHd]; intros k v; simpl; [lia|].
        destruct (date_key k k0); simpl; [lia|].
        specialize (IHd k v). lia. }
      specialize (Hset acc t (snd jr)). simpl. lia.
Qed.




(** X18. [process_model_data] returns one record per date of the series: a
    record for every year of the column 'Year', no record under a key that
    is not such a year, and so at most as many records as the series has
    rows. *)
Theorem process_model_data_keys (gis_ds : Dataset)
    (basins_gdf : GeoDataFrame) (IMBIE_sum : DataFrame)
    (start_date_cftime end_date_cftime : Cftime.datetime)
    (start_date_fract end_date_fract rho_ice : Q) (icesheet : string)
    (out : list (Q * MassChangeRecord)) (iy : nat) :
  col_index "Year" (columns IMBIE_sum) = Some iy ->
  process_model_data gis_ds basins_gdf IMBIE_sum start_date_cftime
    end_date_cftime start_date_fract end_date_fract rho_ice icesheet = Ok out ->
  (forall row, In row (rows IMBIE_sum) ->
     dict_mem date_key (cell iy row) out = true) /\
  (forall date rec, In (date, rec) out ->
     exists row, In row (rows IMBIE_sum) /\ (cell iy row == date)%Q) /\
  (List.length out <= List.length (rows IMBIE_sum))%nat.
Proof.
  intros Hiy H.
  destruct (process_model_data_inv _ _ _ _ _ _ _ _ _ _ H)
    as [times [iy' [snap0 [_ [_ [Hiy' [_ [_ [_ Hloop]]]]]]]]].
  rewrite Hiy in Hiy'. injection Hiy' as <-.
  destruct (model_loop_keys _ _ _ _ _ _ Hloop) as [_ [Hall Hlen]].
  split; [|split].
  - intros row Hrow. apply Hall. apply in_map. exact Hrow.
  - intros date rec Hin.
    destruct (model_loop_records _ (fun _ _ => True)
                (sjoin (grid_points (ds_x gis_ds) (ds_y gis_ds)) basins_gdf)
                (map (cell iy) (rows IMBIE_sum))
                (fun i t joined j' r _ Hstate Hrun =>
                   conj (proj1 (model_step_record _ _ _ _ _ _ _ _ _ i t
                                  joined j' r Hstate Hrun)) I)
                _ _ _ _ _ (incl_refl _) (or_introl eq_refl)
                (fun d r (Hnil : In (d, r) []) => match Hnil with end)
                Hloop date rec Hin)
      as [t [Heq [Hint _]]].
    apply in_map_iff in Hint. destruct Hint as [row [<- Hrow]].
    exists row. split; assumption.
  - rewrite length_map in Hlen. simpl in Hlen. exact Hlen.
Qed.


Lemma process_model_data_keys_witness :
  dict_mem date_key (2001 # 1) [(2001 # 1, overlap_record)] = true.
Proof.
  exact (proj1 (process_model_data_keys grid_ds overlap_layer
                  imbie_2001 date_2000 date_2001 (2000 # 1) (2001 # 1)
                  rho_unit "GIS" [(2001 # 1, overlap_record)] 0 eq_refl
                  ltac:(vm_compute; reflexivity))
               [2001 # 1; -10 # 1] (or_introl eq_refl)).
Defined.

Lemma dict_mem_In {K V} (keq : K -> K -> bool) (k : K) (d : list (K * V)) :
  dict_mem keq k d = true -> exists k' v, In (k', v) d.
Proof.
  destruct d as [|[k' v] d]; [discriminate|].
  intros _. exists k', v. left. reflexivity.
Qed.

(** The region totals of a pass of the loop. *)
Lemma model_step_regions (times : list Q) (gis_ds : Dataset)
    (basins_gdf : GeoDataFrame) (points : list (Q * Q)) (lithk_start : list fl)
    (x_resolution y_resolution rho_ice : Q) (icesheet : string)
    (i : nat) (t : Q) (joined : option JoinedFrame)
    (j' : JoinedFrame) (rec : MassChangeRecord) :
  model_step times gis_ds basins_gdf points lithk_start
             x_resolution y_resolution rho_ice icesheet i t joined
  = Ok (j', rec) ->
  (icesheet = "GIS" /\ region_mass_change_sums rec = None) \/
  (icesheet = "AIS" /\
   exists regions,
     region_mass_change_sums rec = Some regions /\
     (series_sum regions == model_total_mass_balance_masked rec)%Q).
Proof.
  intros H. unfold model_step in H.
  bind_inv_as H snap Hsnap. bind_inv_as H jg Hjg. bind_inv_as H sums Hsums.
  injection H as _ <-. cbn.
  destruct (icesheet ==? "GIS") eqn:Eg.
  - apply str_eqb_true in Eg. left. split; [exact Eg|].
    bind_inv_as Hsums b Hb. injection Hsums as <-. reflexivity.
  - destruct (icesheet ==? "AIS") eqn:Ea; [|discriminate].
    apply str_eqb_true in Ea. right. split; [exact Ea|].
    bind_inv_as Hsums b Hb. bind_inv_as Hsums r Hr. injection Hsums as <-.
    exists r. split; [reflexivity|]. cbn.
    rewrite (groupby_sum_total _ _ _ _ _ Hr).
    rewrite (groupby_sum_total _ _ _ _ _ Hb). reflexivity.
Qed.

(** X19. The ice sheet names of [process_model_data].  With no row in the
    series it returns no record, whatever the name; with a row it returns
    only for 'GIS' and 'AIS'.  A record for 'GIS' has no region totals; a
    record for 'AIS' has them, and they add up to the masked total of the
    record. *)
Theorem process_model_data_icesheet (gis_ds : Dataset)
    (basins_gdf : GeoDataFrame) (IMBIE_sum : DataFrame)
    (start_date_cftime end_date_cftime : Cftime.datetime)
    (start_date_fract end_date_fract rho_ice : Q) (icesheet : string)
    (out : list (Q * MassChangeRecord)) :
  process_model_data gis_ds basins_gdf IMBIE_sum start_date_cftime
    end_date_cftime start_date_fract end_date_fract rho_ice icesheet = Ok out ->
  (rows IMBIE_sum = [] -> out = []) /\
  (rows IMBIE_sum <> [] -> icesheet = "GIS" \/ icesheet = "AIS") /\
  (forall date rec, In (date, rec) out ->
     (icesheet = "GIS" /\ region_mass_change_sums rec = None) \/
     (icesheet = "AIS" /\
      exists regions,
        region_mass_change_sums rec = Some regions /\
        (series_sum regions == model_total_mass_balance_masked rec)%Q)).
Proof.
  intros H.
  destruct (process_model_data_inv _ _ _ _ _ _ _ _ _ _ H)
    as [times [iy [snap0 [_ [_ [Hiy [_ [_ [_ Hloop]]]]]]]]].
  destruct (model_loop_keys _ _ _ _ _ _ Hloop) as [_ [Hall Hlen]].
  assert (Hrec : forall date rec, In (date, rec) out ->
     (icesheet = "GIS" /\ region_mass_change_sums rec = None) \/
     (icesheet = "AIS" /\
      exists regions,
        region_mass_change_sums rec = Some regions /\
        (series_sum regions == model_total_mass_balance_masked rec)%Q)).
  { intros date rec Hin.
    destruct (model_loop_records _
                (fun (_ : Q) (r : MassChangeRecord) =>
                   (icesheet = "GIS" /\ region_mass_change_sums r = None) \/
                   (icesheet = "AIS" /\
                    exists regions,
                      region_mass_change_sums r = Some regions /\
                      (series_sum regions
                       == model_total_mass_balance_masked r)%Q))
                (sjoin (grid_points (ds_x gis_ds) (ds_y gis_ds)) basins_gdf)
                (map (cell iy) (rows IMBIE_sum))
                (fun i t joined j' r _ Hstate Hrun =>
                   conj (proj1 (model_step_record _ _ _ _ _ _ _ _ _ i t
                                  joined j' r Hstate Hrun))
                        (model_step_regions _ _ _ _ _ _ _ _ _ i t
                           joined j' r Hrun))
                _ _ _ _ _ (incl_refl _) (or_introl eq_refl)
                (fun d r (Hnil : In (d, r) []) => match Hnil with end)
                Hloop date rec Hin)
      as [t [_ [_ HP]]].
    exact HP. }
  split; [|split; [|exact Hrec]].
  - intros Hrows. rewrite Hrows in Hlen. simpl in Hlen.
    destruct out; [reflexivity | simpl in Hlen; lia].
  - intros Hrows. destruct (rows IMBIE_sum) as [|row rs] eqn:E; [congruence|].
    assert (Hmem : dict_mem date_key (cell iy row) out = true)
      by (apply Hall; left; reflexivity).
    destruct (dict_mem_In _ _ _ Hmem) as [k [rec Hin]].
    destruct (Hrec k rec Hin) as [[Hg _]|[Ha _]]; auto.
Qed.

Lemma process_model_data_icesheet_regions_witness :
  ("AIS" = "GIS" /\ region_mass_change_sums ais_record = None) \/
  ("AIS" = "AIS" /\
   exists regions,
     region_mass_change_sums ais_record = Some regions /\
     (series_sum regions == model_total_mass_balance_masked ais_record)%Q).
Proof.
  exact (proj2 (proj2 (process_model_data_icesheet grid_ds ais_layer
                         imbie_2001 date_2000 date_2001 (2000 # 1) (2001 # 1)
                         rho_unit "AIS" [(2001 # 1, ais_record)]
                         ltac:(vm_compute; reflexivity)))
               (2001 # 1) ais_record (or_introl eq_refl)).
Defined.

(** ** Dates outside the time axis of the model *)

Lemma Qsum_zero (l : list Q) :
  Forall (fun v => v == 0)%Q l -> (Qsum l == 0)%Q.
Proof.
  unfold Qsum. induction 1 as [|v l Hv Hl IH]; simpl.
  - reflexivity.
  - rewrite Hv, IH. ring.
Qed.

Lemma nth_zero (l : list Q) (k : nat) :
  Forall (fun v => v == 0)%Q l -> (nth k l 0 == 0)%Q.
Proof.
  intros H. revert k. induction H as [|v l Hv Hl IH]; intros [|k]; simpl;
    try reflexivity; auto.
Qed.

Lemma transpose_flatten_nan (nx : nat) (s : Snapshot) :
  Forall (fun v => v = NaN)
         (transpose_flatten nx (map (map (fun _ => NaN)) s)).
Proof.
  unfold transpose_flatten. apply Forall_forall. intros v Hv.
  apply in_flat_map in Hv. destruct Hv as [ix [_ Hv]].
  apply in_map_iff in Hv. destruct Hv as [row [<- Hrow]].
  apply in_map_iff in Hrow. destruct Hrow as [row0 [<- _]].
  destruct (Nat.lt_ge_cases ix (List.length row0)) as [Hlt|Hge].
  - apply (nth_map_lt (fun _ => NaN) row0 ix NaN NaN Hlt).
  - apply nth_overflow. rewrite length_map. exact Hge.
Qed.

Lemma cell_deltas_nan (current start : list fl) (xr yr rho : Q) :
  Forall (fun v => v = NaN) current ->
  Forall (fun v => v == 0)%Q (cell_deltas current start xr yr rho).
Proof.
  intros H. unfold cell_deltas, map2.
  revert start. induction H as [|v l Hv Hl IH]; intros [|w start]; simpl;
    try constructor.
  - subst v. simpl. ring.
  - apply IH.
Qed.

(** A pass of the loop for a date outside the time axis. *)
Lemma model_step_outside (times : list Q) (gis_ds : Dataset)
    (basins_gdf : GeoDataFrame) (points : list (Q * Q)) (lithk_start : list fl)
    (x_resolution y_resolution rho_ice : Q) (icesheet : string)
    (i : nat) (t : Q) (joined : option JoinedFrame)
    (j' : JoinedFrame) (rec : MassChangeRecord) :
  model_step times gis_ds basins_gdf points lithk_start
             x_resolution y_resolution rho_ice icesheet i t joined
  = Ok (j', rec) ->
  (t < nth 0 times 0 \/ last times 0 < t)%Q ->
  (model_total_mass_balance_unmasked rec == 0)%Q /\
  (model_total_mass_balance_masked rec == 0)%Q.
Proof.
  intros H Hout. unfold model_step in H.
  bind_inv_as H snap Hsnap. bind_inv_as H jg Hjg. bind_inv_as H sums Hsums.
  injection H as _ <-. cbn.
  assert (Hzero : Forall (fun v => v == 0)%Q
                    (cell_deltas
                       (transpose_flatten (List.length (ds_x gis_ds)) snap)
                       lithk_start x_resolution y_resolution rho_ice)).
  { unfold interp_time in Hsnap.
    destruct (List.length times =? 0)%nat; [discriminate|].
    destruct (List.length times =? 1)%nat.
    - injection Hsnap as <-.
      apply cell_deltas_nan. apply transpose_flatten_nan.
    - assert (E : Qlt_bool t (nth 0 times 0%Q) || Qlt_bool (last times 0%Q) t
                  = true).
      { apply orb_true_iff.
        destruct Hout as [Hlo|Hhi]; [left | right]; apply Qlt_bool_iff;
          assumption. }
      rewrite E in Hsnap. injection Hsnap as <-.
      apply cell_deltas_nan. apply transpose_flatten_nan. }
  split; [apply Qsum_zero; exact Hzero|].
  apply groupby_basin_column in Hsums.
  rewrite (groupby_sum_total _ _ _ _ _ Hsums).
  apply Qsum_zero. apply Forall_forall. intros v Hv.
  apply in_map_iff in Hv. destruct Hv as [row [<- _]].
  unfold joined_delta. apply nth_zero. exact Hzero.
Qed.

(** X20. A date of the series outside the time axis of the model gives a
    record of zeros: the field interpolates to NaN there, every per-cell
    delta is replaced by zero, and the unmasked and the masked total of the
    record are zero. *)
Theorem process_model_data_outside_axis (gis_ds : Dataset)
    (basins_gdf : GeoDataFrame) (IMBIE_sum : DataFrame)
    (start_date_cftime end_date_cftime : Cftime.datetime)
    (start_date_fract end_date_fract rho_ice : Q) (icesheet : string)
    (out : list (Q * MassChangeRecord)) (times : list Q) :
  mapM fractional_year (ds_time gis_ds) = Ok times ->
  process_model_data gis_ds basins_gdf IMBIE_sum start_date_cftime
    end_date_cftime start_date_fract end_date_fract rho_ice icesheet = Ok out ->
  forall date rec,
    In (date, rec) out ->
    (date < nth 0 times 0 \/ last times 0 < date)%Q ->
    (model_total_mass_balance_unmasked rec == 0)%Q /\
    (model_total_mass_balance_masked rec == 0)%Q.
Proof.
  intros Htimes H date rec Hin Hout.
  destruct (process_model_data_inv _ _ _ _ _ _ _ _ _ _ H)
    as [times' [iy [snap0 [Htimes' [_ [Hiy [_ [_ [_ Hloop]]]]]]]]].
  rewrite Htimes in Htimes'. injection Htimes' as <-.
  destruct (model_loop_records _
              (fun (t : Q) (r : MassChangeRecord) =>
                 (t < nth 0 times 0 \/ last times 0 < t)%Q ->
                 (model_total_mass_balance_unmasked r == 0)%Q /\
                 (model_total_mass_balance_masked r == 0)%Q)
              (sjoin (grid_points (ds_x gis_ds) (ds_y gis_ds)) basins_gdf)
              (map (cell iy) (rows IMBIE_sum))
              (fun i t joined j' r _ Hstate Hrun =>
                 conj (proj1 (model_step_record _ _ _ _ _ _ _ _ _ i t
                                joined j' r Hstate Hrun))
                      (model_step_outside _ _ _ _ _ _ _ _ _ i t
                         joined j' r Hrun))
              _ _ _ _ _ (incl_refl _) (or_introl eq_refl)
              (fun d r (Hnil : In (d, r) []) => match Hnil with end)
              Hloop date rec Hin)
    as [t [Heq [_ HP]]].
  apply HP. rewrite Heq. exact Hout.
Qed.

Lemma process_model_data_outside_axis_witness :
  (model_total_mass_balance_unmasked late_record == 0)%Q /\
  (model_total_mass_balance_masked late_record == 0)%Q.
Proof.
  apply (process_model_data_outside_axis grid_ds covering_layer imbie_2005
           date_2000 date_2001 (2000 # 1) (2001 # 1) rho_unit "GIS"
           [(2005 # 1, late_record)]
           [(2000 # 1) + inject_Z (1 - 1) / inject_Z 365;
            (2001 # 1) + inject_Z (1 - 1) / inject_Z 365]%Q
           eq_refl ltac:(vm_compute; reflexivity)
           (2005 # 1) late_record (or_introl eq_refl)).
  right. vm_compute. reflexivity.
Defined.

(** ** More on the calendar and the range check *)

Lemma days_in_year_values (date : Cftime.datetime) (n : Z) :
  days_in_year date = Ok n -> n = 360 \/ n = 365 \/ n = 366.
Proof.
  unfold days_in_year.
  destruct ((Cftime.calendar date ==? "365_day")
            || (Cftime.calendar date ==? "noleap"));
    [intros H; injection H as <-; auto|].
  destruct ((Cftime.calendar date ==? "366_day")
            || (Cftime.calendar date ==? "all_leap"));
    [intros H; injection H as <-; auto|].
  destruct (Cftime.calendar date ==? "360_day");
    [intros H; injection H as <-; auto|].
  intros H. bind_inv_as H leap Hleap.
  destruct leap; injection H as <-; auto.
Qed.

(** X21. The length of the year [days_in_year] returns is 360, 365 or 366,
    and the fractional year of a date whose day of the year is within that
    length lies in the year of the date: from the year itself, on the first
    day, to less than the next year. *)
Theorem fractional_year_in_year (date : Cftime.datetime) (n : Z) :
  days_in_year date = Ok n ->
  (n = 360 \/ n = 365 \/ n = 366) /\
  (1 <= Cftime.dayofyr date <= n ->
   exists fy : Q,
     fractional_year date = Ok fy /\
     (inject_Z (Cftime.year date) <= fy)%Q /\
     (fy < inject_Z (Cftime.year date) + 1)%Q /\
     (Cftime.dayofyr date = 1 -> (fy == inject_Z (Cftime.year date))%Q)).
Proof.
  intros Hn. pose proof (days_in_year_values date n Hn) as Hv.
  split; [exact Hv|]. intros Hd.
  unfold fractional_year. rewrite Hn. cbn [bind].
  eexists. split; [reflexivity|].
  assert (Hpos : (0 < inject_Z n)%Q).
  { change 0%Q with (inject_Z 0). rewrite <- Zlt_Qlt. lia. }
  assert (H0 : (0 <= inject_Z (Cftime.dayofyr date - 1) / inject_Z n)%Q).
  { apply Qle_shift_div_l; [exact Hpos|]. rewrite Qmult_0_l.
    change 0%Q with (inject_Z 0). rewrite <- Zle_Qle. lia. }
  assert (H1 : (inject_Z (Cftime.dayofyr date - 1) / inject_Z n < 1)%Q).
  { apply Qlt_shift_div_r; [exact Hpos|]. rewrite Qmult_1_l.
    rewrite <- Zlt_Qlt. lia. }
  split; [lra|]. split; [lra|].
  intros Hfirst. rewrite Hfirst. change (inject_Z (1 - 1)) with 0%Q.
  unfold Qdiv. ring.
Qed.

Lemma fractional_year_in_year_witness :
  exists fy : Q,
    fractional_year (Cftime.mkdate "360_day" 2001 7 1 0 0 0 0 181) = Ok fy /\
    (inject_Z 2001 <= fy)%Q /\
    (fy < inject_Z 2001 + 1)%Q /\
    (181 = 1 -> (fy == inject_Z 2001)%Q).
Proof.
  apply (fractional_year_in_year
           (Cftime.mkdate "360_day" 2001 7 1 0 0 0 0 181) 360).
  - reflexivity.
  - simpl. lia.
Defined.



(** ** The regional entries *)

Lemma inner_set_In (k0 : string) (v0 : Q) (e : list (string * Q))
    (k : string) (v : Q) :
  In (k, v) (dict_set String.eqb k0 v0 e) ->
  In (k, v) e \/ (k = k0 /\ v = v0).
Proof.
  intros H. apply dict_set_In in H.
  destruct H as [H|[-> [->|Hk]]]; auto.
  apply str_eqb_true in Hk. auto.
Qed.

Lemma dict_get_In_key {V} (d : Q) (R : list (Q * V)) (e : V) :
  dict_get date_key d R = Some e ->
  exists d0, In (d0, e) R /\ (d == d0)%Q.
Proof.
  induction R as [|[d' e'] R IH]; simpl; [discriminate|].
  destruct (date_key d d') eqn:E.
  - intros H. injection H as <-. exists d'. split; [auto|].
    apply Qeq_bool_iff. exact E.
  - intros H. destruct (IH H) as [d0 [Hin Heq]]. exists d0. auto.
Qed.

Section RegionalInvariant.
Variable R : Q -> string -> Q -> Prop.
Hypothesis R_Qeq : forall d d' k v, (d == d')%Q -> R d k v -> R d' k v.

Definition all_entries (regional : list (Q * list (string * Q))) : Prop :=
  forall d e, In (d, e) regional -> forall k v, In (k, v) e -> R d k v.

Lemma regional_update_inv (date : Q) (k1 : string) (v1 : Q) (k2 : string)
    (v2 : Q) (regional : list (Q * list (string * Q))) :
  all_entries regional ->
  R date k1 v1 -> R date k2 v2 ->
  all_entries (regional_update date k1 v1 k2 v2 regional).
Proof.
  intros Hall H1 H2 d e Hin k v Hkv. unfold regional_update in Hin.
  apply dict_set_In in Hin.
  destruct Hin as [Hin|[-> Hd]]; [exact (Hall d e Hin k v Hkv)|].
  assert (Hdate : (date == d)%Q).
  { destruct Hd as [->|Hd]; [reflexivity | apply Qeq_bool_iff; exact Hd]. }
  apply inner_set_In in Hkv. destruct Hkv as [Hkv|[-> ->]];
    [|exact (R_Qeq _ _ _ _ Hdate H2)].
  apply inner_set_In in Hkv. destruct Hkv as [Hkv|[-> ->]];
    [|exact (R_Qeq _ _ _ _ Hdate H1)].
  destruct (dict_get date_key date regional) as [e0|] eqn:E; [|destruct Hkv].
  destruct (dict_get_In_key _ _ _ E) as [d0 [Hin0 Heq0]].
  apply (R_Qeq d0); [|exact (Hall d0 e0 Hin0 k v Hkv)].
  rewrite <- Heq0. exact Hdate.
Qed.

Lemma region_entry_inv (name : string) (date change : Q)
    (sums : list (string * Q)) (regional : list (Q * list (string * Q))) :
  all_entries regional ->
  (forall model, dict_get String.eqb name sums = Some model ->
     R date ("IMBIE_Mass_Change_" ++ name) change /\
     R date ("Delta_MassChange_" ++ name) (change - model)%Q) ->
  all_entries (region_entry name date change sums regional).
Proof.
  intros Hall Hnew. unfold region_entry.
  destruct (dict_get String.eqb name sums) as [model|]; [|exact Hall].
  destruct (Hnew model eq_refl) as [H1 H2].
  apply regional_update_inv; assumption.
Qed.

Lemma regional_loop_inv (iy im_e im_w im_p : nat) (basin_result : BasinResult)
    (east west peninsula : list (list Q))
    (acc out : list (Q * list (string * Q))) :
  (forall e_row w_row p_row rec sums name change model,
     In (e_row, (w_row, p_row)) (combine east (combine west peninsula)) ->
     dict_get date_key (cell iy e_row) basin_result = Some rec ->
     region_mass_change_sums rec = Some sums ->
     ((name = "East" /\ change = cell im_e e_row) \/
      (name = "West" /\ change = cell im_w w_row) \/
      (name = "Peninsula" /\ change = cell im_p p_row)) ->
     dict_get String.eqb name sums = Some model ->
     R (cell iy e_row) ("IMBIE_Mass_Change_" ++ name) change /\
     R (cell iy e_row) ("Delta_MassChange_" ++ name) (change - model)%Q) ->
  all_entries acc ->
  regional_loop iy im_e im_w im_p basin_result east west peninsula acc
  = Ok out ->
  all_entries out.
Proof.
  revert west peninsula acc.
  induction east as [|e_row east IH]; intros west peninsula acc Hnew Hacc H.
  - simpl in H. injection H as <-. exact Hacc.
  - destruct west as [|w_row west];
      [simpl in H; injection H as <-; exact Hacc|].
    destruct peninsula as [|p_row peninsula];
      [simpl in H; injection H as <-; exact Hacc|].
    cbn [regional_loop] in H.
    assert (Hrest : forall e_row' w_row' p_row' rec sums name change model,
              In (e_row', (w_row', p_row'))
                 (combine east (combine west peninsula)) ->
              dict_get date_key (cell iy e_row') basin_result = Some rec ->
              region_mass_change_sums rec = Some sums ->
              ((name = "East" /\ change = cell im_e e_row') \/
               (name = "West" /\ change = cell im_w w_row') \/
               (name = "Peninsula" /\ change = cell im_p p_row')) ->
              dict_get String.eqb name sums = Some model ->
              R (cell iy e_row') ("IMBIE_Mass_Change_" ++ name) change /\
              R (cell iy e_row') ("Delta_MassChange_" ++ name)
                (change - model)%Q).
    { intros. eapply Hnew; eauto. right. assumption. }
    destruct (dict_get date_key (cell iy e_row) basin_result) as [rec|] eqn:E;
      [|exact (IH _ _ _ Hrest Hacc H)].
    destruct (region_mass_change_sums rec) as [sums|] eqn:Es; [|discriminate].
    refine (IH _ _ _ Hrest _ H).
    assert (Hhere : In (e_row, (w_row, p_row))
                       (combine (e_row :: east)
                          (combine (w_row :: west) (p_row :: peninsula))))
      by (left; reflexivity).
    apply region_entry_inv;
      [apply region_entry_inv; [apply region_entry_inv; [exact Hacc|]|]|];
      intros model Hm; eapply Hnew; eauto.
Qed.

End RegionalInvariant.

Lemma region_entry_of_Qeq (iy im_e im_w im_p : nat)
    (basin_result : BasinResult) (east west peninsula : list (list Q))
    (d d' : Q) (k : string) (v : Q) :
  (d == d')%Q ->
  region_entry_of iy im_e im_w im_p basin_result east west peninsula d k v ->
  region_entry_of iy im_e im_w im_p basin_result east west peninsula d' k v.
Proof.
  intros Hd [e_row [w_row [p_row [rec [sums [name [change [model H]]]]]]]].
  destruct H as [Hin [Hdate H]].
  exists e_row, w_row, p_row, rec, sums, name, change, model.
  split; [exact Hin|]. split; [rewrite Hdate; exact Hd | exact H].
Qed.

Lemma row_column_index (has_rows : bool) (df : DataFrame) (c : string)
    (i : nat) :
  row_column has_rows df c = Ok i ->
  has_rows = true -> col_index c (columns df) = Some i.
Proof.
  intros H ->. unfold row_column, column_pos in H.
  destruct (col_index c (columns df)); [|discriminate].
  simpl in H. injection H as <-. reflexivity.
Qed.

(** X23. The regional summary of [process_IMBIE].  When a result has one,
    the three regional series were read with [sum_MassBalance] over the same
    period, and every key of every dated entry of the summary is
    'IMBIE_Mass_Change_<region>' with the observed change of that region, or
    'Delta_MassChange_<region>' with that change minus the model total of
    the region, for a region East, West or Peninsula that the model record
    of the date has a total for, the values being taken at one common
    position of the three series, whose date is read from the eastern
    one. *)
Theorem process_IMBIE_regional_entries (fs : FileSystem)
    (obs_filename : string) (start_date_fract end_date_fract : Q)
    (icesheet : string) (basin_result : BasinResult) (IMBIE_sum : DataFrame)
    (mass_balance_column : string)
    (obs_east obs_west obs_peninsula : option string)
    (res : Results) (regional : list (Q * list (string * Q))) :
  process_IMBIE fs obs_filename start_date_fract end_date_fract icesheet
    basin_result IMBIE_sum mass_balance_column
    obs_east obs_west obs_peninsula = Ok res ->
  Regional_Mass_Change_Summary res = Some regional ->
  exists (east west peninsula : DataFrame) (iy im_e im_w im_p : nat),
    sum_MassBalance fs (file_name obs_east) start_date_fract end_date_fract
      mass_balance_column = Ok east /\
    sum_MassBalance fs (file_name obs_west) start_date_fract end_date_fract
      mass_balance_column = Ok west /\
    sum_MassBalance fs (file_name obs_peninsula) start_date_fract
      end_date_fract mass_balance_column = Ok peninsula /\
    (rows east <> [] -> rows west <> [] -> rows peninsula <> [] ->
     col_index "Year" (columns east) = Some iy /\
     col_index "IMBIE_Mass_Change" (columns east) = Some im_e /\
     col_index "IMBIE_Mass_Change" (columns west) = Some im_w /\
     col_index "IMBIE_Mass_Change" (columns peninsula) = Some im_p) /\
    forall date entry k v,
      In (date, entry) regional -> In (k, v) entry ->
      region_entry_of iy im_e im_w im_p basin_result
        (rows east) (rows west) (rows peninsula) date k v.
Proof.
  intros H Hreg. unfold process_IMBIE in H.
  bind_inv_as H iy0 Hiy0. bind_inv_as H im0 Him0.
  destruct ((icesheet ==? "AIS") && _).
  - bind_inv_as H east Heast. bind_inv_as H west Hwest.
    bind_inv_as H peninsula Hpen.
    bind_inv_as H iy Hiy. bind_inv_as H im_e Hime.
    bind_inv_as H im_w Himw. bind_inv_as H im_p Himp.
    bind_inv_as H regional' Hloop.
    injection H as <-. simpl in Hreg. injection Hreg as ->.
    exists east, west, peninsula, iy, im_e, im_w, im_p.
    split; [exact Heast|]. split; [exact Hwest|]. split; [exact Hpen|].
    split.
    + intros He Hw Hp.
      assert (Hz : negb (is_nil (rows east) || is_nil (rows west)
                         || is_nil (rows peninsula)) = true).
      { destruct (rows east); [congruence|].
        destruct (rows west); [congruence|].
        destruct (rows peninsula); [congruence|]. reflexivity. }
      repeat split; eapply row_column_index; eauto.
    + intros date entry k v Hin Hkv.
      refine (regional_loop_inv
                (region_entry_of iy im_e im_w im_p basin_result
                   (rows east) (rows west) (rows peninsula))
                (region_entry_of_Qeq _ _ _ _ _ _ _ _)
                iy im_e im_w im_p basin_result
                (rows east) (rows west) (rows peninsula) [] regional
                _ _ Hloop date entry Hin k v Hkv).
      * intros e_row w_row p_row rec sums name change model
               Hrow Hget Hsums Hname Hmodel.
        split.
        -- exists e_row, w_row, p_row, rec, sums, name, change, model.
           repeat (split; [first [assumption | reflexivity]|]).
           left. split; reflexivity.
        -- exists e_row, w_row, p_row, rec, sums, name, change, model.
           repeat (split; [first [assumption | reflexivity]|]).
           right. split; reflexivity.
      * intros d e [].
  - injection H as <-. discriminate Hreg.
Qed.


Lemma process_IMBIE_regional_entries_witness :
  exists (east west peninsula : DataFrame) (iy im_e im_w im_p : nat),
    sum_MassBalance regional_fs "east.csv" (2000 # 1) (2002 # 1) "mass"
    = Ok east /\
    sum_MassBalance regional_fs "west.csv" (2000 # 1) (2002 # 1) "mass"
    = Ok west /\
    sum_MassBalance regional_fs "peninsula.csv" (2000 # 1) (2002 # 1) "mass"
    = Ok peninsula /\
    (rows east <> [] -> rows west <> [] -> rows peninsula <> [] ->
     col_index "Year" (columns east) = Some iy /\
     col_index "IMBIE_Mass_Change" (columns east) = Some im_e /\
     col_index "IMBIE_Mass_Change" (columns west) = Some im_w /\
     col_index "IMBIE_Mass_Change" (columns peninsula) = Some im_p) /\
    forall date entry k v,
      In (date, entry) ais_regional -> In (k, v) entry ->
      region_entry_of iy im_e im_w im_p ais_basin_result
        (rows east) (rows west) (rows peninsula) date k v.
Proof.
  exact (process_IMBIE_regional_entries regional_fs "obs.csv" (2000 # 1)
           (2002 # 1) "AIS" ais_basin_result ais_imbie_sum "mass"
           (Some "east.csv") (Some "west.csv") (Some "peninsula.csv")
           ais_results ais_regional eq_refl eq_refl).
Defined.
